(** * Mailbox ingestion (analysis.py): model and verified properties

    The development embeds the ingestion path of [analysis.py]:
    the three normalizer functions ([decode_mime_header],
    [parse_date_to_iso], [get_plain_text_preview]) and the pipeline
    ([init_db], [flush_batch], [ingest]).  The four statements of the
    report ([query.py]) are embedded as well, up to the frames they give.

    Python values are modelled as follows.
    - [str] is a list of Unicode code points ([pystr]); [bytes] is a list
      of [Byte.byte].
    - A call that may raise returns a [pyresult]; [try/except Exception]
      becomes a match on it.
    - The interpreter's library functions the program calls
      ([email.header.decode_header], [bytes.decode],
      [email.utils.parsedate_to_datetime]) form the interface [PyLib];
      general theorems hold for every implementation of it, and module
      [CPython] gives a reference implementation after the CPython 3.11
      sources, used wherever a statement is evaluated on concrete input.
    - The [sqlite3] connection is an explicit state: the working
      database, the committed database, the transaction flag and a log of
      the calls made on the connection. *)

From Stdlib Require Import ZArith NArith List Lia Bool Sorted Permutation.
From Stdlib Require Import Strings.String Strings.Ascii Strings.Byte.
From stdpp Require Import base decidable option list gmap strings sorting.

Local Open Scope Z_scope.

(* ================================================================== *)
(** * Python values *)
(* ================================================================== *)

Module Py.

(** Exceptions (subclasses of [Exception]) that occur in the model. *)
Inductive exn : Type :=
| LookupError | ValueError | OverflowError
| HeaderParseError | IntegrityError | OperationalError.

Inductive pyresult (A : Type) : Type :=
| Ok (a : A)
| Raise (e : exn).
Arguments Ok {A} a.
Arguments Raise {A} e.

Definition bind {A B : Type} (m : pyresult A) (k : A -> pyresult B) : pyresult B :=
  match m with
  | Ok a => k a
  | Raise e => Raise e
  end.

Definition is_ok {A : Type} (m : pyresult A) : bool :=
  match m with Ok _ => true | Raise _ => false end.

(** [str]: a sequence of code points. *)
Definition codepoint : Type := N.
Bind Scope N_scope with codepoint.
Definition pystr : Type := list codepoint.
Definition bytes : Type := list byte.

(** A string literal of the source, as a [pystr]. *)
Definition u (s : string) : pystr :=
  List.map N_of_ascii (list_ascii_of_string s).

(** Truthiness of a sequence: non-empty. *)
Definition truthy {A : Type} (l : list A) : bool :=
  match l with [] => false | _ :: _ => true end.

(** [x or default] where [x] is [None] or a string. *)
Definition or_str (x : option pystr) (default : pystr) : pystr :=
  match x with
  | Some s => if truthy s then s else default
  | None => default
  end.

Definition str_eqb (a b : pystr) : bool := bool_decide (a = b).

(** [s[:n]] for an integer [n] (a negative [n] counts from the end). *)
Definition slice_to {A : Type} (s : list A) (n : Z) : list A :=
  if 0 <=? n then firstn (Z.to_nat n) s
  else firstn (length s - Z.to_nat (- n)) s.

(** [str.lower] and [str.upper], on the ASCII letters. *)
Definition lower_cp (c : codepoint) : codepoint :=
  if ((65 <=? c) && (c <=? 90))%N then (c + 32)%N else c.
Definition upper_cp (c : codepoint) : codepoint :=
  if ((97 <=? c) && (c <=? 122))%N then (c - 32)%N else c.
Definition lower (s : pystr) : pystr := List.map lower_cp s.
Definition upper (s : pystr) : pystr := List.map upper_cp s.

(** [s.startswith(p)]. *)
Fixpoint startswith (p s : pystr) : bool :=
  match p, s with
  | [], _ => true
  | a :: p', b :: s' => (a =? b)%N && startswith p' s'
  | _ :: _, [] => false
  end.

Definition endswith (p s : pystr) : bool := startswith (rev p) (rev s).

(** [s.find(p)]: the lowest index where [p] occurs, if any. *)
Fixpoint find_from (p s : pystr) (i : nat) : option nat :=
  if startswith p s then Some i
  else match s with
       | [] => None
       | _ :: s' => find_from p s' (S i)
       end.
Definition find (p s : pystr) : option nat := find_from p s 0.

(** [p in s]. *)
Definition contains (p s : pystr) : bool :=
  match find p s with Some _ => true | None => false end.

(** [s.rfind(c)] for a single character. *)
Fixpoint rfind_from (c : codepoint) (s : pystr) (i : nat) (last : option nat) : option nat :=
  match s with
  | [] => last
  | b :: s' => rfind_from c s' (S i) (if (b =? c)%N then Some i else last)
  end.
Definition rfind (c : codepoint) (s : pystr) : option nat := rfind_from c s 0 None.

(** [str.isspace] of one character (the Unicode whitespace). *)
Definition isspace_cp (c : codepoint) : bool :=
  (((9 <=? c) && (c <=? 13)) || ((28 <=? c) && (c <=? 32))
   || (c =? 133) || (c =? 160) || (c =? 5760)
   || ((8192 <=? c) && (c <=? 8202)) || (c =? 8232) || (c =? 8233)
   || (c =? 8239) || (c =? 8287) || (c =? 12288))%N.
Definition isspace (s : pystr) : bool := truthy s && forallb isspace_cp s.

(** ASCII decimal digit. *)
Definition isdigit_cp (c : codepoint) : bool := ((48 <=? c) && (c <=? 57))%N.

Fixpoint lstrip (s : pystr) : pystr :=
  match s with
  | c :: s' => if isspace_cp c then lstrip s' else s
  | [] => []
  end.
Definition rstrip (s : pystr) : pystr := rev (lstrip (rev s)).
Definition strip (s : pystr) : pystr := rstrip (lstrip s).

(** [s.split(sep)] for a one-character separator: always at least one
    field. *)
Fixpoint split_on_acc (sep : codepoint) (s : pystr) (cur : pystr) : list pystr :=
  match s with
  | [] => [rev cur]
  | c :: s' => if (c =? sep)%N then rev cur :: split_on_acc sep s' []
               else split_on_acc sep s' (c :: cur)
  end.
Definition split_on (sep : codepoint) (s : pystr) : list pystr := split_on_acc sep s [].

(** [s.split()]: the maximal runs of non-whitespace. *)
Fixpoint split_ws_acc (s : pystr) (cur : pystr) : list pystr :=
  match s with
  | [] => if truthy cur then [rev cur] else []
  | c :: s' =>
      if isspace_cp c
      then (if truthy cur then rev cur :: split_ws_acc s' [] else split_ws_acc s' [])
      else split_ws_acc s' (c :: cur)
  end.
Definition split_ws (s : pystr) : list pystr := split_ws_acc s [].

(** [s.replace(a, b)] for single characters. *)
Definition replace_cp (a b : codepoint) (s : pystr) : pystr :=
  List.map (fun c => if (c =? a)%N then b else c) s.

(** [int(s)] on a string: optional sign, ASCII digits, single underscores
    between digits, surrounding whitespace ignored.  [None] stands for
    the [ValueError]. *)
Fixpoint digits_value (s : pystr) (acc : Z) (prev_digit : bool) : option Z :=
  match s with
  | [] => if prev_digit then Some acc else None
  | c :: s' =>
      if isdigit_cp c then digits_value s' (10 * acc + (Z.of_N c - 48)) true
      else if (c =? 95)%N then (if prev_digit then digits_value s' acc false else None)
      else None
  end.
Definition int_of_str (s : pystr) : option Z :=
  match strip s with
  | [] => None
  | c :: s' =>
      if (c =? 45)%N then option_map Z.opp (digits_value s' 0 false)
      else if (c =? 43)%N then digits_value s' 0 false
      else digits_value (c :: s') 0 false
  end.

(** Decimal digits of a non-negative integer, and [%0wd] formatting. *)
Definition digit_cp (d : Z) : codepoint := Z.to_N (48 + d).
Fixpoint digits_fuel (fuel : nat) (n : Z) (acc : pystr) : pystr :=
  match fuel with
  | O => acc
  | S fuel' =>
      let acc' := digit_cp (n mod 10) :: acc in
      if n <? 10 then acc' else digits_fuel fuel' (n / 10) acc'
  end.
Definition str_of_nonneg (n : Z) : pystr :=
  digits_fuel (S (Z.to_nat (Z.log2 n))) n [].

Fixpoint zeros (k : nat) : pystr :=
  match k with O => [] | S k' => 48%N :: zeros k' end.

(** ["%0wd" % n]: the sign first, then zeros up to width [w]. *)
Definition zfill (w : nat) (n : Z) : pystr :=
  if n <? 0
  then let d := str_of_nonneg (- n) in 45%N :: zeros (w - 1 - length d) ++ d
  else let d := str_of_nonneg n in zeros (w - length d) ++ d.

End Py.
Export Py.

Declare Scope py_scope.
Delimit Scope py_scope with py.
Notation "'do' x <- m ;; k" := (Py.bind m (fun x => k))
  (at level 10, x name, m at level 99, k at level 200) : py_scope.
Local Open Scope py_scope.

(* ================================================================== *)
(** * The [datetime] module (after CPython's datetime.py) *)
(* ================================================================== *)

Module datetime.

(** A [datetime.datetime].  [tzinfo] is [None] for a naive value and
    [Some off] for a fixed-offset [datetime.timezone] of [off] seconds;
    [timezone.utc] is [Some 0] (the constructor [timezone(timedelta(0))]
    returns the [utc] singleton). *)
Record t : Type := mk {
  year : Z; month : Z; day : Z;
  hour : Z; minute : Z; second : Z; microsecond : Z;
  tzinfo : option Z
}.

Definition utc : option Z := Some 0.

Definition MINYEAR : Z := 1.
Definition MAXYEAR : Z := 9999.
Definition _MAXORDINAL : Z := 3652059.

Definition _DAYS_IN_MONTH (m : Z) : Z :=
  nth (Z.to_nat m) [-1; 31; 28; 31; 30; 31; 30; 31; 31; 30; 31; 30; 31] (-1).
Definition _DAYS_BEFORE_MONTH (m : Z) : Z :=
  nth (Z.to_nat m) [-1; 0; 31; 59; 90; 120; 151; 181; 212; 243; 273; 304; 334] (-1).

Definition _is_leap (y : Z) : bool :=
  (y mod 4 =? 0) && (negb (y mod 100 =? 0) || (y mod 400 =? 0)).

Definition _days_before_year (year : Z) : Z :=
  let y := year - 1 in y * 365 + y / 4 - y / 100 + y / 400.

Definition _days_in_month (year m : Z) : Z :=
  if (m =? 2) && _is_leap year then 29 else _DAYS_IN_MONTH m.

Definition _days_before_month (year m : Z) : Z :=
  _DAYS_BEFORE_MONTH m + (if (2 <? m) && _is_leap year then 1 else 0).

Definition _ymd2ord (y m d : Z) : Z :=
  _days_before_year y + _days_before_month y m + d.

Definition _DI400Y : Z := _days_before_year 401.
Definition _DI100Y : Z := _days_before_year 101.
Definition _DI4Y : Z := _days_before_year 5.

Definition _ord2ymd (n0 : Z) : Z * Z * Z :=
  let n := n0 - 1 in
  let n400 := n / _DI400Y in let n := n mod _DI400Y in
  let year := n400 * 400 + 1 in
  let n100 := n / _DI100Y in let n := n mod _DI100Y in
  let n4 := n / _DI4Y in let n := n mod _DI4Y in
  let n1 := n / 365 in let n := n mod 365 in
  let year := year + n100 * 100 + n4 * 4 + n1 in
  if (n1 =? 4) || (n100 =? 4) then (year - 1, 12, 31)
  else
    let leapyear := (n1 =? 3) && (negb (n4 =? 24) || (n100 =? 3)) in
    let m := Z.shiftr (n + 50) 5 in
    let preceding := _DAYS_BEFORE_MONTH m + (if (2 <? m) && leapyear then 1 else 0) in
    let '(m, preceding) :=
      if n <? preceding
      then (m - 1, preceding - (_DAYS_IN_MONTH (m - 1)
                                + (if (m - 1 =? 2) && leapyear then 1 else 0)))
      else (m, preceding) in
    (year, m, n - preceding + 1).

(** The constructor [datetime(y, m, d, hh, mm, ss, tzinfo=tz)] with its
    range checks. *)
Definition make (y m d hh mi ss : Z) (tz : option Z) : pyresult t :=
  if negb ((MINYEAR <=? y) && (y <=? MAXYEAR)) then Raise ValueError
  else if negb ((1 <=? m) && (m <=? 12)) then Raise ValueError
  else if negb ((1 <=? d) && (d <=? _days_in_month y m)) then Raise ValueError
  else if negb ((0 <=? hh) && (hh <=? 23)) then Raise ValueError
  else if negb ((0 <=? mi) && (mi <=? 59)) then Raise ValueError
  else if negb ((0 <=? ss) && (ss <=? 59)) then Raise ValueError
  else Ok (mk y m d hh mi ss 0 tz).

(** [timezone(timedelta(seconds=off))]: strictly within 24 hours. *)
Definition timezone (off : Z) : pyresult (option Z) :=
  if (-86400 <? off) && (off <? 86400) then Ok (Some off) else Raise ValueError.

(** [dt.replace(tzinfo=tz)]. *)
Definition replace_tzinfo (dt : t) (tz : option Z) : t :=
  mk (year dt) (month dt) (day dt) (hour dt) (minute dt) (second dt)
     (microsecond dt) tz.

(** [dt + timedelta(seconds=delta)] ([datetime.__add__]). *)
Definition add_seconds (dt : t) (delta : Z) : pyresult t :=
  let total := hour dt * 3600 + minute dt * 60 + second dt + delta in
  let days := _ymd2ord (year dt) (month dt) (day dt) + total / 86400 in
  let secs := total mod 86400 in
  if (0 <? days) && (days <=? _MAXORDINAL) then
    let '(y, m, d) := _ord2ymd days in
    Ok (mk y m d (secs / 3600) ((secs mod 3600) / 60) ((secs mod 3600) mod 60)
           (microsecond dt) (tzinfo dt))
  else Raise OverflowError.

(** [dt.astimezone(timezone.utc)].  [local_offset] is the offset of the
    system's local zone, which Python consults for a naive [dt]. *)
Definition astimezone_utc (local_offset : t -> Z) (self : t) : pyresult t :=
  let '(myoffset, tz_is_mytz) :=
    match tzinfo self with
    | None => (local_offset self, false)
    | Some off => (off, off =? 0)
    end in
  if tz_is_mytz then Ok self
  else
    do shifted <- add_seconds self (- myoffset) ;;
    add_seconds (replace_tzinfo shifted utc) 0.

Definition _format_offset (off : option Z) : pystr :=
  match off with
  | None => []
  | Some o =>
      let sign := if o <? 0 then u "-" else u "+" in
      let a := Z.abs o in
      let hh := a / 3600 in
      let mm := (a mod 3600) / 60 in
      let ss := (a mod 3600) mod 60 in
      sign ++ zfill 2 hh ++ u ":" ++ zfill 2 mm
           ++ (if ss =? 0 then [] else u ":" ++ zfill 2 ss)
  end.

(** [dt.isoformat(timespec="seconds")]. *)
Definition isoformat_seconds (dt : t) : pystr :=
  zfill 4 (year dt) ++ u "-" ++ zfill 2 (month dt) ++ u "-" ++ zfill 2 (day dt)
    ++ u "T" ++ zfill 2 (hour dt) ++ u ":" ++ zfill 2 (minute dt) ++ u ":"
    ++ zfill 2 (second dt) ++ _format_offset (tzinfo dt).

End datetime.

(* ================================================================== *)
(** * Messages ([email.message.Message]) *)
(* ================================================================== *)

Module email.

(** The payload of a message: decoded bytes for a single part, the list
    of sub-parts for a multipart. *)
Inductive body (M : Type) : Type :=
| Leaf (data : bytes)
| Parts (parts : list M).
Arguments Leaf {M} data.
Arguments Parts {M} parts.

(** A parsed message.  [content_type] and [content_charset] hold what
    [get_content_type()] and [get_content_charset()] return for it. *)
#[warnings="-register-all"]
Inductive message : Type := Message {
  headers : list (pystr * pystr);
  content_type : pystr;
  content_charset : option pystr;
  payload : body message
}.

(** [msg.get(name)]: the first header of that name, case-insensitively. *)
Fixpoint get_header (hs : list (pystr * pystr)) (name : pystr) : option pystr :=
  match hs with
  | [] => None
  | (k, v) :: hs' => if str_eqb (lower k) name then Some v else get_header hs' name
  end.
Definition get (msg : message) (name : pystr) : option pystr :=
  get_header (headers msg) (lower name).

(** [msg.get(name, "")]. *)
Definition get_or_empty (msg : message) (name : pystr) : pystr :=
  match get msg name with Some v => v | None => [] end.

Definition is_multipart (msg : message) : bool :=
  match payload msg with Parts _ => true | Leaf _ => false end.

(** [msg.get_payload(decode=True)]: [None] for a multipart. *)
Definition get_payload_decode (msg : message) : option bytes :=
  match payload msg with Parts _ => None | Leaf data => Some data end.

(** [msg.walk()]: the message itself, then its sub-parts depth first. *)
Fixpoint walk (msg : message) : list message :=
  msg :: match payload msg with
         | Parts ps => flat_map walk ps
         | Leaf _ => []
         end.

End email.

(* ================================================================== *)
(** * The library interface *)
(* ================================================================== *)

(** One element of [decode_header]'s result: the text is a [str] when the
    header holds no encoded word, [bytes] otherwise. *)
Inductive chunk_text : Type :=
| Str (s : pystr)
| Bytes (b : bytes).

Class PyLib : Type := {
  (** [email.header.decode_header(value)] *)
  decode_header : pystr -> pyresult (list (chunk_text * option pystr));
  (** [b.decode(encoding, errors="replace")] *)
  bytes_decode : bytes -> pystr -> pyresult pystr;
  (** [email.utils.parsedate_to_datetime(s)] *)
  parsedate_to_datetime : pystr -> pyresult datetime.t;
  (** UTC offset, in seconds, of the system's local zone *)
  local_utcoffset : datetime.t -> Z;
  (** the empty string is no date: [parsedate_to_datetime("")] raises *)
  parsedate_to_datetime_empty : parsedate_to_datetime [] = Raise ValueError
}.

(* ================================================================== *)
(** * Message Normalizer (analysis.py, lines 11-57) *)
(* ================================================================== *)

Section Normalizer.
Context {lib : PyLib}.

(** The loop of [decode_mime_header] over the decoded chunks. *)
Fixpoint decode_parts (chunks : list (chunk_text * option pystr)) (parts : list pystr)
  : pyresult (list pystr) :=
  match chunks with
  | [] => Ok parts
  | (text, enc) :: rest =>
      match text with
      | Bytes b =>
          do decoded <- bytes_decode b (or_str enc (u "utf-8")) ;;
          decode_parts rest (parts ++ [decoded])
      | Str t => decode_parts rest (parts ++ [t])
      end
  end.

Definition decode_mime_header (value : pystr) : pyresult pystr :=
  if negb (truthy value) then Ok []
  else
    do chunks <- decode_header value ;;
    do parts <- decode_parts chunks [] ;;
    Ok (List.concat parts).

Definition parse_date_to_iso (date_str : pystr) : pystr :=
  if negb (truthy date_str) then []
  else
    match
      (do dt <- parsedate_to_datetime date_str ;;
       let dt := match datetime.tzinfo dt with
                 | None => datetime.replace_tzinfo dt datetime.utc
                 | Some _ => dt
                 end in
       do dt_utc <- datetime.astimezone_utc local_utcoffset dt ;;
       Ok (datetime.isoformat_seconds dt_utc))
    with
    | Ok iso => iso
    | Raise _ => []
    end.

(** The loop over [msg.walk()] in [get_plain_text_preview]. *)
Fixpoint preview_of_parts (parts : list email.message) (limit : Z) : pyresult pystr :=
  match parts with
  | [] => Ok []
  | part :: rest =>
      if str_eqb (email.content_type part) (u "text/plain") then
        let disp := lower (or_str (email.get part (u "Content-Disposition")) []) in
        if contains (u "attachment") disp then preview_of_parts rest limit
        else
          match email.get_payload_decode part with
          | Some data =>
              if truthy data then
                let charset := or_str (email.content_charset part) (u "utf-8") in
                do text <- bytes_decode data charset ;;
                Ok (slice_to text limit)
              else preview_of_parts rest limit
          | None => preview_of_parts rest limit
          end
      else preview_of_parts rest limit
  end.

Definition get_plain_text_preview (msg : email.message) (limit : Z) : pystr :=
  match
    (if email.is_multipart msg then preview_of_parts (email.walk msg) limit
     else
       match email.get_payload_decode msg with
       | Some data =>
           if truthy data then
             let charset := or_str (email.content_charset msg) (u "utf-8") in
             do text <- bytes_decode data charset ;;
             Ok (slice_to text limit)
           else Ok []
       | None => Ok []
       end)
  with
  | Ok text => text
  | Raise _ => []
  end.

End Normalizer.

(* ================================================================== *)
(** * The store ([sqlite3]) *)
(* ================================================================== *)

Module sqlite3.

(** The columns of the [emails] table other than [id]. *)
Inductive column : Type :=
| col_message_id | col_date_iso | col_date_day | col_from_addr
| col_to_addr | col_cc_addr | col_subject | col_body_preview.

#[global] Instance column_eq_dec : EqDecision column.
Proof. solve_decision. Defined.

(** The tuple [ingest] builds per message and binds to an INSERT.  A
    Python [str] is bound as TEXT, the empty string included: no cell is
    NULL. *)
Record row : Type := mk_row {
  message_id : pystr;
  date_iso : pystr;
  date_day : pystr;
  from_addr : pystr;
  to_addr : pystr;
  cc_addr : pystr;
  subject : pystr;
  body_preview : pystr
}.

Definition cell (c : column) (r : row) : pystr :=
  match c with
  | col_message_id => message_id r
  | col_date_iso => date_iso r
  | col_date_day => date_day r
  | col_from_addr => from_addr r
  | col_to_addr => to_addr r
  | col_cc_addr => cc_addr r
  | col_subject => subject r
  | col_body_preview => body_preview r
  end.

(** A stored row: the [INTEGER PRIMARY KEY] and the eight cells. *)
Record stored : Type := mk_stored { id : Z; cells : row }.

Record index_def : Type := mk_index { idx_unique : bool; idx_column : column }.

(** A database file: the [emails] table if it exists, and the indexes by
    name. *)
Record database : Type := mk_database {
  emails : option (list stored);
  indexes : gmap string index_def
}.

Definition empty_database : database := mk_database None ∅.

(** The SQL statements of analysis.py. *)
Inductive statement : Type :=
| CREATE_TABLE_IF_NOT_EXISTS_emails
| CREATE_INDEX_IF_NOT_EXISTS (unique : bool) (name : string) (col : column)
| INSERT_INTO_emails (or_ignore : bool) (values : row).

(** Some unique index of [d] already holds the value [r] has in the
    indexed column. *)
Definition violates (d : database) (rows : list stored) (r : row) : bool :=
  bool_decide
    (map_Exists
       (fun _ ix =>
          idx_unique ix = true /\
          Exists (fun st => cell (idx_column ix) (cells st) = cell (idx_column ix) r) rows)
       (indexes d)).

Definition has_duplicates (c : column) (rows : list stored) : bool :=
  negb (bool_decide (NoDup (List.map (fun st => cell c (cells st)) rows))).

(** The rowid given to a new row: one more than the largest in use. *)
Definition next_id (rows : list stored) : Z :=
  1 + fold_right Z.max 0 (List.map id rows).

(** Effect of one statement on the database; a failed statement changes
    nothing. *)
Definition run_statement (d : database) (s : statement) : pyresult database :=
  match s with
  | CREATE_TABLE_IF_NOT_EXISTS_emails =>
      match emails d with
      | Some _ => Ok d
      | None => Ok (mk_database (Some []) (indexes d))
      end
  | CREATE_INDEX_IF_NOT_EXISTS uq name c =>
      match emails d with
      | None => Raise OperationalError
      | Some rows =>
          match indexes d !! name with
          | Some _ => Ok d
          | None =>
              if uq && has_duplicates c rows then Raise IntegrityError
              else Ok (mk_database (emails d) (<[name := mk_index uq c]> (indexes d)))
          end
      end
  | INSERT_INTO_emails or_ignore r =>
      match emails d with
      | None => Raise OperationalError
      | Some rows =>
          if violates d rows r
          then (if or_ignore then Ok d else Raise IntegrityError)
          else Ok (mk_database (Some (rows ++ [mk_stored (next_id rows) r])) (indexes d))
      end
  end.

Definition is_dml (s : statement) : bool :=
  match s with INSERT_INTO_emails _ _ => true | _ => false end.

(** What was called on a connection, in order. *)
Inductive call : Type :=
| Execute (s : statement) (outcome : pyresult unit)
| Commit.

(** A connection: [db] is what the connection sees, [saved] what is
    durable in the file.  An INSERT that can be prepared (the table
    exists) opens a transaction implicitly; outside a transaction a
    statement is durable at once. *)
Record connection : Type := mk_connection {
  db : database;
  saved : database;
  in_transaction : bool;
  log : list call
}.

Definition connect (file : database) : connection :=
  mk_connection file file false [].

Definition table_exists (d : database) : bool :=
  match emails d with Some _ => true | None => false end.

Definition execute (c : connection) (s : statement) : connection * pyresult unit :=
  let tx := in_transaction c || (is_dml s && table_exists (db c)) in
  match run_statement (db c) s with
  | Ok d' =>
      (mk_connection d' (if tx then saved c else d') tx
                     (log c ++ [Execute s (Ok tt)]), Ok tt)
  | Raise e =>
      (mk_connection (db c) (saved c) tx (log c ++ [Execute s (Raise e)]), Raise e)
  end.

Definition commit (c : connection) : connection :=
  mk_connection (db c) (db c) false (log c ++ [Commit]).

(** [conn.close()]: what stays in the file. *)
Definition close (c : connection) : database := saved c.

End sqlite3.
Export sqlite3.

(* ================================================================== *)
(** * Ingestion Pipeline (analysis.py, lines 59-154) *)
(* ================================================================== *)

(** Statements on a connection in sequence; an exception ends the
    sequence and leaves the connection as it then is. *)
Definition and_then (m : connection -> connection * pyresult unit)
    (k : connection -> connection * pyresult unit) (c : connection)
  : connection * pyresult unit :=
  match m c with
  | (c', Ok _) => k c'
  | (c', Raise e) => (c', Raise e)
  end.

Definition exec (s : statement) (c : connection) : connection * pyresult unit :=
  execute c s.

Notation "m >> k" := (and_then m k) (at level 60, right associativity) : py_scope.

Definition init_db : connection -> connection * pyresult unit :=
  exec CREATE_TABLE_IF_NOT_EXISTS_emails >>
  exec (CREATE_INDEX_IF_NOT_EXISTS true "idx_message_id" col_message_id) >>
  exec (CREATE_INDEX_IF_NOT_EXISTS false "idx_date_day" col_date_day) >>
  exec (CREATE_INDEX_IF_NOT_EXISTS false "idx_from" col_from_addr) >>
  exec (CREATE_INDEX_IF_NOT_EXISTS false "idx_to" col_to_addr) >>
  exec (CREATE_INDEX_IF_NOT_EXISTS false "idx_subject" col_subject) >>
  (fun c => (commit c, Ok tt)).

(** The loop of [flush_batch], with its two counters. *)
Fixpoint flush_rows (batch : list row) (conn : connection) (inserted skipped : nat)
  : connection * (nat * nat) :=
  match batch with
  | [] => (conn, (inserted, skipped))
  | row :: rest =>
      let attempt :=
        if truthy (message_id row)
        then execute conn (INSERT_INTO_emails true row)
        else execute conn (INSERT_INTO_emails false row) in
      match attempt with
      | (conn', Ok _) => flush_rows rest conn' (inserted + 1) skipped
      | (conn', Raise _) => flush_rows rest conn' inserted (skipped + 1)
      end
  end.

Definition flush_batch (conn : connection) (batch : list row)
  : connection * (nat * nat) :=
  let '(conn', counts) := flush_rows batch conn 0 0 in
  (commit conn', counts).

(** What [ingest] prints. *)
Inductive output : Type :=
| Progress (processed inserted skipped : nat)
| Done (inserted skipped : nat) (db_path : pystr).

(** What a Python call evaluates to, as far as [ingest] is concerned. *)
Inductive pyvalue : Type :=
| PyNone
| PyTuple2 (a b : nat).

Definition BATCH_SIZE : nat := 2000.

Section Pipeline.
Context {lib : PyLib}.

(** The two date columns, from the [Date] header (analysis.py, lines
    101-102). *)
Definition date_columns (date_str : pystr) : pystr * pystr :=
  let date_iso := parse_date_to_iso date_str in
  let date_day := if truthy date_iso then slice_to date_iso 10 else [] in
  (date_iso, date_day).

(** The tuple built from one message (analysis.py, lines 97-111). *)
Definition build_row (msg : email.message) (store_preview : bool) : pyresult row :=
  let message_id := or_str (Some (email.get_or_empty msg (u "Message-Id"))) [] in
  let '(date_iso, date_day) := date_columns (email.get_or_empty msg (u "Date")) in
  do from_addr <- decode_mime_header (email.get_or_empty msg (u "From")) ;;
  do to_addr <- decode_mime_header (email.get_or_empty msg (u "To")) ;;
  do cc_addr <- decode_mime_header (email.get_or_empty msg (u "Cc")) ;;
  do subject <- decode_mime_header (email.get_or_empty msg (u "Subject")) ;;
  let body_preview := if store_preview then get_plain_text_preview msg 2000 else [] in
  Ok (mk_row message_id date_iso date_day from_addr to_addr cc_addr subject body_preview).

(** The local variables of [ingest] that the loop updates. *)
Record locals : Type := mk_locals {
  conn : connection;
  batch : list row;
  inserted : nat;
  skipped : nat;
  stdout : list output
}.

(** The [for i, msg in enumerate(mbox)] loop, from index [i] on. *)
Fixpoint ingest_loop (msgs : list email.message) (i : nat) (store_preview : bool)
    (st : locals) : locals * pyresult unit :=
  match msgs with
  | [] => (st, Ok tt)
  | msg :: rest =>
      match build_row msg store_preview with
      | Raise e => (st, Raise e)
      | Ok row =>
          let batch' := batch st ++ [row] in
          if (BATCH_SIZE <=? length batch')%nat then
            let '(conn', (inserted_now, skipped_now)) := flush_batch (conn st) batch' in
            let inserted' := (inserted st + inserted_now)%nat in
            let skipped' := (skipped st + skipped_now)%nat in
            let stdout' :=
              if (N.of_nat (i + 1) mod 10000 =? 0)%N
              then stdout st ++ [Progress (i + 1) inserted' skipped']
              else stdout st in
            ingest_loop rest (S i) store_preview
                        (mk_locals conn' [] inserted' skipped' stdout')
          else
            ingest_loop rest (S i) store_preview
                        (mk_locals (conn st) batch' (inserted st) (skipped st) (stdout st))
      end
  end.

(** The outcome of a run: the database file afterwards, what was
    printed, the calls made on the connection, and the value returned
    (or the exception that ended the run). *)
Record run : Type := mk_run {
  file_after : database;
  printed : list output;
  calls : list call;
  returned : pyresult pyvalue
}.

(** [ingest(mbox_path, db_path, store_preview)], where [mbox] holds the
    messages of the mailbox and [file] the database at [db_path]. *)
Definition ingest (mbox : list email.message) (file : database) (db_path : pystr)
    (store_preview : bool) : run :=
  let conn0 := connect file in
  match init_db conn0 with
  | (conn1, Raise e) => mk_run (close conn1) [] (log conn1) (Raise e)
  | (conn1, Ok _) =>
      match ingest_loop mbox 0 store_preview (mk_locals conn1 [] 0 0 []) with
      | (st, Raise e) => mk_run (close (conn st)) (stdout st) (log (conn st)) (Raise e)
      | (st, Ok _) =>
          let st' :=
            if truthy (batch st) then
              let '(conn', (inserted_now, skipped_now)) := flush_batch (conn st) (batch st) in
              mk_locals conn' (batch st) (inserted st + inserted_now)
                        (skipped st + skipped_now) (stdout st)
            else st in
          mk_run (close (conn st'))
                 (stdout st' ++ [Done (inserted st') (skipped st') db_path])
                 (log (conn st'))
                 (Ok PyNone)
      end
  end.

End Pipeline.

(* ================================================================== *)
(** * A reference implementation of the library (CPython 3.11) *)
(* ================================================================== *)

(** The functions below follow [email/_parseaddr.py], [email/utils.py],
    [email/header.py], [email/quoprimime.py], [binascii.a2b_base64] and
    the [utf_8], [ascii] and [latin_1] codecs.  Two restrictions: letter
    case and digits are those of ASCII, and the codec registry holds
    these three codecs only. *)

Module CPython.

(** ** [email.utils.parsedate_to_datetime] *)

Definition _monthnames : list pystr :=
  List.map u ["jan"; "feb"; "mar"; "apr"; "may"; "jun"; "jul";
              "aug"; "sep"; "oct"; "nov"; "dec";
              "january"; "february"; "march"; "april"; "may"; "june"; "july";
              "august"; "september"; "october"; "november"; "december"]%string.

Definition _daynames : list pystr :=
  List.map u ["mon"; "tue"; "wed"; "thu"; "fri"; "sat"; "sun"]%string.

Definition _timezones : list (pystr * Z) :=
  List.map (fun p => (u (fst p), snd p))
    [("UT", 0); ("UTC", 0); ("GMT", 0); ("Z", 0);
     ("AST", -400); ("ADT", -300); ("EST", -500); ("EDT", -400);
     ("CST", -600); ("CDT", -500); ("MST", -700); ("MDT", -600);
     ("PST", -800); ("PDT", -700)]%string.

Definition str_in (x : pystr) (l : list pystr) : bool := existsb (str_eqb x) l.

(** [l.index(x)] for an [x] known to be in [l]. *)
Fixpoint index_of (x : pystr) (l : list pystr) : Z :=
  match l with
  | [] => 0
  | y :: l' => if str_eqb x y then 0 else 1 + index_of x l'
  end.

Fixpoint lookup_tz (x : pystr) (l : list (pystr * Z)) : option Z :=
  match l with
  | [] => None
  | (k, v) :: l' => if str_eqb x k then Some v else lookup_tz x l'
  end.

(** [s[-1] == ','] and [s[:-1]]. *)
Definition ends_with_comma (s : pystr) : bool :=
  match List.last (List.map Some s) None with
  | Some c => (c =? 44)%N
  | None => false
  end.
Definition strip_comma (s : pystr) : pystr :=
  if ends_with_comma s then removelast s else s.

(** The first part of [_parsedate_tz]: the five fields
    [dd, mm, yy, tm, tz] as strings. *)
Definition date_fields (data0 : pystr) : option (list pystr) :=
  match split_ws data0 with
  | [] => None
  | d0 :: ds =>
      let data :=
        if endswith (u ",") d0 || str_in (lower d0) _daynames then ds
        else match rfind 44 d0 with
             | Some i => skipn (S i) d0 :: ds
             | None => d0 :: ds
             end in
      let data :=
        match data with
        | [a; b; c] =>
            match split_on 45 a with
            | [x; y; z] => [x; y; z; b; c]
            | _ => data
            end
        | _ => data
        end in
      let data :=
        match data with
        | [a; b; c; s] =>
            let i := match find (u "+") s with
                     | Some i => Some i
                     | None => find (u "-") s
                     end in
            match i with
            | Some (S i') => [a; b; c; firstn (S i') s; skipn (S i') s]
            | _ => [a; b; c; s; []]
            end
        | _ => data
        end in
      if (length data <? 5)%nat then None else Some (firstn 5 data)
  end.

(** The time of day: [hh:mm], [hh:mm:ss], or the same with dots. *)
Definition time_fields (tm : pystr) : option (pystr * pystr * pystr) :=
  match split_on 58 tm with
  | [thh; tmm] => Some (thh, tmm, u "0")
  | [thh; tmm; tss] => Some (thh, tmm, tss)
  | [t0] =>
      if contains (u ".") t0 then
        match split_on 46 t0 with
        | [thh; tmm] => Some (thh, tmm, u "0")
        | [thh; tmm; tss] => Some (thh, tmm, tss)
        | _ => None
        end
      else None
  | _ => None
  end.

(** The numeric zone: [None] when no zone is given or it reads [-0000]. *)
Definition zone_offset (tz0 : pystr) : option Z :=
  let tz := upper tz0 in
  let tzoffset :=
    match lookup_tz tz _timezones with
    | Some v => Some v
    | None =>
        match int_of_str tz with
        | Some v => if (v =? 0) && startswith (u "-") tz then None else Some v
        | None => None
        end
    end in
  match tzoffset with
  | Some v =>
      if v =? 0 then Some 0
      else
        let sgn := if v <? 0 then -1 else 1 in
        let a := Z.abs v in
        Some (sgn * ((a / 100) * 3600 + (a mod 100) * 60))
  | None => None
  end.

Definition _parsedate_tz (data : pystr) : option (Z * Z * Z * Z * Z * Z * option Z) :=
  if negb (truthy data) then None
  else
    match date_fields data with
    | Some [dd; mm; yy; tm; tz] =>
        if negb (truthy dd && truthy mm && truthy yy) then None
        else
          let mm := lower mm in
          let swapped :=
            if str_in mm _monthnames then Some (dd, mm)
            else if str_in (lower dd) _monthnames then Some (mm, lower dd)
            else None in
          match swapped with
          | None => None
          | Some (dd, mm) =>
              let mm := index_of mm _monthnames + 1 in
              let mm := if 12 <? mm then mm - 12 else mm in
              let dd := strip_comma dd in
              let '(yy, tm) :=
                match find (u ":") yy with
                | Some (S _) => (tm, yy)
                | _ => (yy, tm)
                end in
              let yy_comma := ends_with_comma yy in
              let yy := strip_comma yy in
              if yy_comma && negb (truthy yy) then None
              else
                let '(yy, tz) :=
                  match yy with
                  | c :: _ => if isdigit_cp c then (yy, tz) else (tz, yy)
                  | [] => (yy, tz)
                  end in
                let tm := strip_comma tm in
                match time_fields tm with
                | None => None
                | Some (thh, tmm, tss) =>
                    match int_of_str yy, int_of_str dd, int_of_str thh,
                          int_of_str tmm, int_of_str tss with
                    | Some yy, Some dd, Some thh, Some tmm, Some tss =>
                        let yy :=
                          if yy <? 100
                          then (if 68 <? yy then yy + 1900 else yy + 2000)
                          else yy in
                        Some (yy, mm, dd, thh, tmm, tss, zone_offset tz)
                    | _, _, _, _, _ => None
                    end
                end
          end
    | _ => None
    end.

Definition parsedate_to_datetime (data : pystr) : pyresult datetime.t :=
  match _parsedate_tz data with
  | None => Raise ValueError
  | Some (yy, mm, dd, thh, tmm, tss, tz) =>
      match tz with
      | None => datetime.make yy mm dd thh tmm tss None
      | Some off =>
          do zone <- datetime.timezone off ;;
          datetime.make yy mm dd thh tmm tss zone
      end
  end.

(** ** [email.header.decode_header] *)

(** An attempt to match [ecre] at the head of [s]:
    [=?charset?encoding?encoded?=], where the charset holds no [?], the
    encoding is one of [qQbB] and the encoded text runs to the nearest
    [?=] without a line feed.  Gives the three groups and the length of
    the match. *)
Fixpoint span_charset (s : pystr) (acc : pystr) : option (pystr * pystr) :=
  match s with
  | [] => None
  | c :: s' => if (c =? 63)%N then Some (rev acc, s') else span_charset s' (c :: acc)
  end.

Fixpoint span_encoded (s : pystr) (acc : pystr) : option pystr :=
  match s with
  | [] => None
  | c :: s' =>
      if startswith (u "?=") s then Some (rev acc)
      else if (c =? 10)%N then None
      else span_encoded s' (c :: acc)
  end.

Definition ecre_match (s : pystr) : option (pystr * codepoint * pystr * nat) :=
  match s with
  | 61%N :: 63%N :: s1 =>
      match span_charset s1 [] with
      | Some (charset, e :: 63%N :: s2) =>
          if ((e =? 113) || (e =? 81) || (e =? 98) || (e =? 66))%N then
            match span_encoded s2 [] with
            | Some encoded =>
                Some (charset, e, encoded,
                      (2 + length charset + 3 + length encoded + 2)%nat)
            | None => None
            end
          else None
      | _ => None
      end
  | _ => None
  end.

(** [ecre.search(s)]. *)
Fixpoint ecre_search (s : pystr) : bool :=
  match ecre_match s with
  | Some _ => true
  | None => match s with [] => false | _ :: s' => ecre_search s' end
  end.

(** One element of [ecre.split(line)]. *)
Inductive piece : Type :=
| Unencoded (text : pystr)
| Encoded (charset : pystr) (encoding : codepoint) (encoded : pystr).

(** [ecre.split(line)]: unencoded text and matches in alternation;
    [skip] counts the characters of the current match still to pass. *)
Fixpoint ecre_split (s : pystr) (skip : nat) (cur : pystr) : list piece :=
  match s with
  | [] => [Unencoded (rev cur)]
  | c :: s' =>
      match skip with
      | S k => ecre_split s' k cur
      | O =>
          match ecre_match s with
          | Some (charset, e, encoded, len) =>
              Unencoded (rev cur) :: Encoded charset e encoded
                :: ecre_split s' (len - 1) []
          | None => ecre_split s' 0 (c :: cur)
          end
      end
  end.

(** [str.splitlines]. *)
Definition is_linebreak (c : codepoint) : bool :=
  ((c =? 10) || (c =? 13) || (c =? 11) || (c =? 12) || (c =? 28) || (c =? 29)
   || (c =? 30) || (c =? 133) || (c =? 8232) || (c =? 8233))%N.

Fixpoint splitlines_acc (s : pystr) (cur : pystr) : list pystr :=
  match s with
  | [] => if truthy cur then [rev cur] else []
  | c :: s' =>
      if is_linebreak c then
        match c, s' with
        | 13%N, 10%N :: s'' => rev cur :: splitlines_acc s'' []
        | _, _ => rev cur :: splitlines_acc s' []
        end
      else splitlines_acc s' (c :: cur)
  end.
Definition splitlines (s : pystr) : list pystr := splitlines_acc s [].

(** A triplet [(encoded_string, encoding, charset)]; the last two are
    [None] for unencoded text. *)
Definition word : Type := (pystr * option (codepoint * pystr))%type.

Fixpoint words_of_pieces (ps : list piece) (first : bool) : list word :=
  match ps with
  | [] => []
  | Unencoded t :: ps' =>
      let t := if first then lstrip t else t in
      (if truthy t then [(t, None)] else []) ++ words_of_pieces ps' false
  | Encoded charset e encoded :: ps' =>
      (encoded, Some (lower_cp e, lower charset)) :: words_of_pieces ps' false
  end.

Definition is_encoded (w : word) : bool :=
  match snd w with Some _ => true | None => false end.

(** Removal of the whitespace words between two encoded words;
    [before] tells whether the word before the head is encoded. *)
Fixpoint drop_between (before : bool) (ws : list word) : list word :=
  match ws with
  | w1 :: ((w2 :: _) as rest) =>
      if before && is_encoded w2 && isspace (fst w1)
      then drop_between (is_encoded w1) rest
      else w1 :: drop_between (is_encoded w1) rest
  | _ => ws
  end.

Definition hex_value (c : codepoint) : option N :=
  if isdigit_cp c then Some (c - 48)%N
  else if ((97 <=? c) && (c <=? 102))%N then Some (c - 87)%N
  else if ((65 <=? c) && (c <=? 70))%N then Some (c - 55)%N
  else None.

(** [email.quoprimime.header_decode]. *)
Fixpoint unquote_all (s : pystr) (skip : nat) : pystr :=
  match s with
  | [] => []
  | c :: s' =>
      match skip with
      | S k => unquote_all s' k
      | O =>
          match c, s' with
          | 61%N, h1 :: h2 :: _ =>
              match hex_value h1, hex_value h2 with
              | Some a, Some b => (16 * a + b)%N :: unquote_all s' 2
              | _, _ => c :: unquote_all s' 0
              end
          | _, _ => c :: unquote_all s' 0
          end
      end
  end.
Definition header_decode (s : pystr) : pystr := unquote_all (replace_cp 95 32 s) 0.

Definition byte_of_N (n : N) : byte :=
  match Byte.of_N (n mod 256) with Some b => b | None => x00 end.

(** [s.encode('raw-unicode-escape')]. *)
Definition hex_digit (d : N) : byte :=
  byte_of_N (if (d <? 10)%N then 48 + d else 87 + d)%N.
Fixpoint hex_digits (k : nat) (n : N) : bytes :=
  match k with
  | O => []
  | S k' => hex_digits k' (n / 16) ++ [hex_digit (n mod 16)]
  end.
Definition raw_unicode_escape (s : pystr) : bytes :=
  flat_map (fun c =>
    if (c <? 256)%N then [byte_of_N c]
    else if (c <? 65536)%N then byte_of_N 92 :: byte_of_N 117 :: hex_digits 4 c
    else byte_of_N 92 :: byte_of_N 85 :: hex_digits 8 c) s.

(** [binascii.a2b_base64] in its default, lenient mode.  [None] stands
    for [binascii.Error]. *)
Definition table_a2b_base64 (c : N) : option N :=
  if ((65 <=? c) && (c <=? 90))%N then Some (c - 65)%N
  else if ((97 <=? c) && (c <=? 122))%N then Some (c - 71)%N
  else if ((48 <=? c) && (c <=? 57))%N then Some (c + 4)%N
  else if (c =? 43)%N then Some 62%N
  else if (c =? 47)%N then Some 63%N
  else None.

Fixpoint a2b_loop (data : bytes) (quad_pos : nat) (leftchar : N) (pads : nat)
    (out : list N) : option (list N) :=
  match data with
  | [] => if (quad_pos =? 0)%nat then Some out else None
  | b :: data' =>
      let c := Byte.to_N b in
      if (c =? 61)%N then
        if (2 <=? quad_pos)%nat then
          if (4 <=? quad_pos + S pads)%nat then Some out
          else a2b_loop data' quad_pos leftchar (S pads) out
        else a2b_loop data' quad_pos leftchar pads out
      else
        match table_a2b_base64 c with
        | None => a2b_loop data' quad_pos leftchar pads out
        | Some v =>
            match quad_pos with
            | 0%nat => a2b_loop data' 1 v 0 out
            | 1%nat =>
                a2b_loop data' 2 (N.land v 15) 0
                         (out ++ [N.lor (N.shiftl leftchar 2) (N.shiftr v 4)])
            | 2%nat =>
                a2b_loop data' 3 (N.land v 3) 0
                         (out ++ [N.lor (N.shiftl leftchar 4) (N.shiftr v 2)])
            | _ =>
                a2b_loop data' 0 0 0 (out ++ [N.lor (N.shiftl leftchar 6) v])
            end
        end
  end.
Definition a2b_base64 (data : bytes) : option bytes :=
  option_map (List.map byte_of_N) (a2b_loop data 0 0 0 []).

(** The decoding of one word: text stays a [str], base64 gives [bytes]. *)
Definition decode_word (w : word) : pyresult (chunk_text * option pystr) :=
  match w with
  | (text, None) => Ok (Str text, None)
  | (encoded, Some (e, charset)) =>
      if (e =? 113)%N then Ok (Str (header_decode encoded), Some charset)
      else
        let paderr := (length encoded mod 4)%nat in
        let padded :=
          if (paderr =? 0)%nat then encoded
          else encoded ++ firstn (4 - paderr) (u "===") in
        if negb (truthy padded) then Ok (Bytes [], Some charset)
        else
          match a2b_base64 (raw_unicode_escape padded) with
          | Some b => Ok (Bytes b, Some charset)
          | None => Raise HeaderParseError
          end
  end.

Fixpoint decode_words (ws : list word) : pyresult (list (chunk_text * option pystr)) :=
  match ws with
  | [] => Ok []
  | w :: ws' =>
      do d <- decode_word w ;;
      do ds <- decode_words ws' ;;
      Ok (d :: ds)
  end.

Definition as_bytes (t : chunk_text) : bytes :=
  match t with Str s => raw_unicode_escape s | Bytes b => b end.

(** The last step: runs of words with the same charset are joined
    (unencoded runs with a space between the words). *)
Fixpoint collapse (ds : list (chunk_text * option pystr)) (last_word : bytes)
    (last_charset : option pystr) : list (chunk_text * option pystr) :=
  match ds with
  | [] => [(Bytes last_word, last_charset)]
  | (text, charset) :: ds' =>
      let w := as_bytes text in
      if negb (bool_decide (charset = last_charset))
      then (Bytes last_word, last_charset) :: collapse ds' w charset
      else
        match last_charset with
        | None => collapse ds' (last_word ++ byte_of_N 32 :: w) charset
        | Some _ => collapse ds' (last_word ++ w) charset
        end
  end.

(** [decode_header(header)] for a [str] header.  Once [ecre] matches,
    the list of words holds at least one word. *)
Definition decode_header (header : pystr) : pyresult (list (chunk_text * option pystr)) :=
  if negb (ecre_search header) then Ok [(Str header, None)]
  else
    let words :=
      flat_map (fun line => words_of_pieces (ecre_split line 0 []) true)
               (splitlines header) in
    do decoded <- decode_words (drop_between false words) ;;
    match decoded with
    | [] => Ok []
    | (text, charset) :: ds => Ok (collapse ds (as_bytes text) charset)
    end.

(** ** [bytes.decode(encoding, errors="replace")] *)

Definition isalnum_cp (c : codepoint) : bool :=
  isdigit_cp c || ((97 <=? c) && (c <=? 122))%N || ((65 <=? c) && (c <=? 90))%N.

(** [encodings.normalize_encoding], on the lower-cased name. *)
Fixpoint normalize_acc (s : pystr) (punct : bool) (chars : pystr) : pystr :=
  match s with
  | [] => rev chars
  | c :: s' =>
      if isalnum_cp c || (c =? 46)%N
      then normalize_acc s' false
             (c :: (if punct && truthy chars then 95%N :: chars else chars))
      else normalize_acc s' true chars
  end.
Definition normalize_encoding (name : pystr) : pystr := normalize_acc (lower name) false [].

Inductive codec : Type := utf_8 | ascii_codec | latin_1.

Definition aliases : list (pystr * codec) :=
  List.map (fun p => (u (fst p), snd p))
    [("utf_8", utf_8); ("u8", utf_8); ("utf", utf_8); ("utf8", utf_8);
     ("utf8_ucs2", utf_8); ("utf8_ucs4", utf_8); ("cp65001", utf_8);
     ("ascii", ascii_codec); ("646", ascii_codec); ("ansi_x3.4_1968", ascii_codec);
     ("ansi_x3_4_1968", ascii_codec); ("ansi_x3.4_1986", ascii_codec);
     ("cp367", ascii_codec); ("csascii", ascii_codec); ("ibm367", ascii_codec);
     ("iso646_us", ascii_codec); ("iso_646.irv_1991", ascii_codec);
     ("iso_ir_6", ascii_codec); ("us", ascii_codec); ("us_ascii", ascii_codec);
     ("latin_1", latin_1); ("8859", latin_1); ("cp819", latin_1);
     ("csisolatin1", latin_1); ("ibm819", latin_1); ("iso8859", latin_1);
     ("iso8859_1", latin_1); ("iso_8859_1", latin_1); ("iso_8859_1_1987", latin_1);
     ("iso_ir_100", latin_1); ("l1", latin_1); ("latin", latin_1);
     ("latin1", latin_1)]%string.

Fixpoint lookup_codec (name : pystr) (l : list (pystr * codec)) : option codec :=
  match l with
  | [] => None
  | (k, v) :: l' => if str_eqb name k then Some v else lookup_codec name l'
  end.

Definition REPLACEMENT : codepoint := 65533.

Definition is_cont (b : N) : bool := ((128 <=? b) && (b <=? 191))%N.

(** The bounds of the second byte after the lead byte [b0] of a three-
    or four-byte sequence. *)
Definition second_ok (b0 b1 : N) : bool :=
  (if b0 =? 224 then (160 <=? b1) && (b1 <=? 191)
   else if b0 =? 237 then (128 <=? b1) && (b1 <=? 159)
   else if b0 =? 240 then (144 <=? b1) && (b1 <=? 191)
   else if b0 =? 244 then (128 <=? b1) && (b1 <=? 143)
   else is_cont b1)%N.

(** UTF-8 with [errors="replace"]: every maximal ill-formed run becomes
    one U+FFFD. *)
Fixpoint utf8_decode (bs : list N) : pystr :=
  match bs with
  | [] => []
  | b0 :: r0 =>
      if (b0 <? 128)%N then b0 :: utf8_decode r0
      else if ((194 <=? b0) && (b0 <=? 223))%N then
        match r0 with
        | b1 :: r1 =>
            if is_cont b1
            then ((b0 - 192) * 64 + (b1 - 128))%N :: utf8_decode r1
            else REPLACEMENT :: utf8_decode r0
        | [] => [REPLACEMENT]
        end
      else if ((224 <=? b0) && (b0 <=? 239))%N then
        match r0 with
        | b1 :: r1 =>
            if second_ok b0 b1 then
              match r1 with
              | b2 :: r2 =>
                  if is_cont b2
                  then ((b0 - 224) * 4096 + (b1 - 128) * 64 + (b2 - 128))%N
                         :: utf8_decode r2
                  else REPLACEMENT :: utf8_decode r1
              | [] => [REPLACEMENT]
              end
            else REPLACEMENT :: utf8_decode r0
        | [] => [REPLACEMENT]
        end
      else if ((240 <=? b0) && (b0 <=? 244))%N then
        match r0 with
        | b1 :: r1 =>
            if second_ok b0 b1 then
              match r1 with
              | b2 :: r2 =>
                  if is_cont b2 then
                    match r2 with
                    | b3 :: r3 =>
                        if is_cont b3
                        then ((b0 - 240) * 262144 + (b1 - 128) * 4096
                              + (b2 - 128) * 64 + (b3 - 128))%N :: utf8_decode r3
                        else REPLACEMENT :: utf8_decode r2
                    | [] => [REPLACEMENT]
                    end
                  else REPLACEMENT :: utf8_decode r1
              | [] => [REPLACEMENT]
              end
            else REPLACEMENT :: utf8_decode r0
        | [] => [REPLACEMENT]
        end
      else REPLACEMENT :: utf8_decode r0
  end.

Definition ascii_decode (bs : list N) : pystr :=
  List.map (fun b => if (b <? 128)%N then b else REPLACEMENT) bs.

Definition bytes_decode (b : bytes) (encoding : pystr) : pyresult pystr :=
  match lookup_codec (normalize_encoding encoding) aliases with
  | None => Raise LookupError
  | Some utf_8 => Ok (utf8_decode (List.map Byte.to_N b))
  | Some ascii_codec => Ok (ascii_decode (List.map Byte.to_N b))
  | Some latin_1 => Ok (List.map Byte.to_N b)
  end.

(** The local zone of the reference system is UTC. *)
Definition local_utcoffset (_ : datetime.t) : Z := 0.

#[global] Instance lib : PyLib :=
  Build_PyLib decode_header bytes_decode parsedate_to_datetime local_utcoffset
              eq_refl.

End CPython.



(* ================================================================== *)
(** * Notions used in the statements *)
(* ================================================================== *)

(** A [bytes] literal. *)
Definition b (s : string) : bytes := list_byte_of_string s.

(** The rows of the [emails] table (none if the table is missing). *)
Definition stored_rows (d : database) : list stored :=
  match emails d with Some rows => rows | None => [] end.

(** The statement [flush_batch] issues for a row. *)
Definition insert_of (r : row) : statement :=
  INSERT_INTO_emails (truthy (message_id r)) r.

(** The totals of the summary line, if the run printed one. *)
Definition reported_totals (r : run) : option (nat * nat) :=
  match List.last (List.map Some (printed r)) None with
  | Some (Done i s _) => Some (i, s)
  | _ => None
  end.

(** The outcomes of the INSERTs of a batch, attempted in order on the
    database [d], and the database afterwards. *)
Fixpoint attempt_all (d : database) (batch : list row) : database * list (pyresult unit) :=
  match batch with
  | [] => (d, [])
  | r :: rest =>
      match run_statement d (insert_of r) with
      | Ok d' => let '(d'', os) := attempt_all d' rest in (d'', Ok tt :: os)
      | Raise e => let '(d'', os) := attempt_all d rest in (d'', Raise e :: os)
      end
  end.

Definition succeeded (os : list (pyresult unit)) : nat :=
  length (List.filter is_ok os).
Definition failed (os : list (pyresult unit)) : nat :=
  length (List.filter (fun o => negb (is_ok o)) os).

(** The log entries of a batch with the outcomes [os]. *)
Fixpoint logged (batch : list row) (os : list (pyresult unit)) : list call :=
  match batch, os with
  | r :: batch', o :: os' => Execute (insert_of r) o :: logged batch' os'
  | _, _ => []
  end.

(** The statements of [init_db], and a sequence of statements run until
    one raises. *)
Definition init_script : list statement :=
  [CREATE_TABLE_IF_NOT_EXISTS_emails;
   CREATE_INDEX_IF_NOT_EXISTS true "idx_message_id" col_message_id;
   CREATE_INDEX_IF_NOT_EXISTS false "idx_date_day" col_date_day;
   CREATE_INDEX_IF_NOT_EXISTS false "idx_from" col_from_addr;
   CREATE_INDEX_IF_NOT_EXISTS false "idx_to" col_to_addr;
   CREATE_INDEX_IF_NOT_EXISTS false "idx_subject" col_subject].

Fixpoint run_script (stmts : list statement) (c : connection)
  : connection * pyresult unit :=
  match stmts with
  | [] => (c, Ok tt)
  | s :: rest =>
      match execute c s with
      | (c', Ok _) => run_script rest c'
      | (c', Raise e) => (c', Raise e)
      end
  end.

(** The indexes [init_db] creates where the name is free. *)
Definition schema_indexes : gmap string index_def :=
  {[ "idx_message_id" := mk_index true col_message_id ]}
  ∪ {[ "idx_date_day" := mk_index false col_date_day ]}
  ∪ {[ "idx_from" := mk_index false col_from_addr ]}
  ∪ {[ "idx_to" := mk_index false col_to_addr ]}
  ∪ {[ "idx_subject" := mk_index false col_subject ]}.

(** Every unique index of [d] is respected by the rows of the table. *)
Definition keys_unique (d : database) : Prop :=
  forall name c,
    indexes d !! name = Some (mk_index true c) ->
    NoDup (List.map (fun st => cell c (cells st)) (stored_rows d)).

Definition is_create_index (s : statement) : bool :=
  match s with CREATE_INDEX_IF_NOT_EXISTS _ _ _ => true | _ => false end.

(** The index a CREATE INDEX statement defines. *)
Definition index_of_statement (s : statement) : gmap string index_def :=
  match s with
  | CREATE_INDEX_IF_NOT_EXISTS uq name c => {[ name := mk_index uq c ]}
  | _ => ∅
  end.

(** A statement of the schema that has nothing left to do on [d]. *)
Definition ddl_done (d : database) (s : statement) : Prop :=
  match s with
  | CREATE_TABLE_IF_NOT_EXISTS_emails => table_exists d = true
  | CREATE_INDEX_IF_NOT_EXISTS _ name _ =>
      table_exists d = true /\ is_Some (indexes d !! name)
  | INSERT_INTO_emails _ _ => False
  end.

(** [init_db] called [n] times in a row on one connection. *)
Fixpoint init_db_times (n : nat) (c : connection) : connection * pyresult unit :=
  match n with
  | O => (c, Ok tt)
  | S n' =>
      match init_db c with
      | (c', Ok _) => init_db_times n' c'
      | (c', Raise e) => (c', Raise e)
      end
  end.

(** A new database file, opened and initialised. *)
Definition fresh_connection : connection := fst (init_db (connect empty_database)).

Section Claimed.
Context {lib : PyLib}.

(** A part as the preview policy is worded: plain text, and a
    disposition that does not mention an attachment. *)
Definition plain_inline (part : email.message) : bool :=
  str_eqb (email.content_type part) (u "text/plain")
  && negb (contains (u "attachment")
                    (lower (or_str (email.get part (u "Content-Disposition")) []))).

(** The decoded, truncated text of a part; empty if decoding fails. *)
Definition part_text (part : email.message) (limit : Z) : pystr :=
  match email.get_payload_decode part with
  | Some data =>
      match bytes_decode data (or_str (email.content_charset part) (u "utf-8")) with
      | Ok text => slice_to text limit
      | Raise _ => []
      end
  | None => []
  end.

(** The preview as the policy words it: the text of the first
    [plain_inline] part in document order, empty if there is none. *)
Definition preview_as_worded (msg : email.message) (limit : Z) : pystr :=
  match List.find plain_inline (email.walk msg) with
  | Some part => part_text part limit
  | None => []
  end.

(** What the loop of [get_plain_text_preview] selects on: a
    [plain_inline] part whose decoded payload is not empty. *)
Definition plain_inline_nonempty (part : email.message) : bool :=
  plain_inline part
  && match email.get_payload_decode part with
     | Some data => truthy data
     | None => false
     end.

End Claimed.

(** The mailbox of the end-to-end scenario: a message with a key, an
    encoded subject and a valid date; the same message again; a message
    without key and with an unparseable date. *)
Definition message_a : email.message :=
  email.Message
    [(u "Message-Id", u "<a@x>");
     (u "Subject", u "=?utf-8?q?Hi?=");
     (u "Date", u "Mon, 01 Jan 2024 10:00:00 +0000")]
    (u "text/plain") None (email.Leaf (b "Hello")).

Definition message_c : email.message :=
  email.Message [(u "Date", u "not a date")]
    (u "text/plain") None (email.Leaf (b "Bye")).

Definition scenario_mbox : list email.message := [message_a; message_a; message_c].

Definition row_a : row :=
  mk_row (u "<a@x>") (u "2024-01-01T10:00:00+00:00") (u "2024-01-01")
         [] [] [] (u "Hi") (u "Hello").

Definition row_c : row := mk_row [] [] [] [] [] [] [] (u "Bye").

(** The scenario, run on a new database file with previews kept. *)
Definition scenario_run : run :=
  ingest (lib := CPython.lib) scenario_mbox empty_database (u "mail.sqlite") true.

(** A message whose subject names a character set Python has no codec
    for. *)
Definition message_unknown_charset : email.message :=
  email.Message [(u "Message-Id", u "<b@x>"); (u "Subject", u "=?unknown-8bit?q?Hi?=")]
    (u "text/plain") None (email.Leaf (b "Hello")).

(** A multipart message whose first plain-text part is empty and whose
    second holds text; and one with a single attachment part. *)
Definition message_empty_then_text : email.message :=
  email.Message [] (u "multipart/mixed") None
    (email.Parts
       [email.Message [] (u "text/plain") None (email.Leaf []);
        email.Message [] (u "text/plain") None (email.Leaf (b "second part"))]).

Definition message_only_attachment : email.message :=
  email.Message [] (u "multipart/mixed") None
    (email.Parts
       [email.Message [(u "Content-Disposition", u "attachment; filename=a.txt")]
                      (u "text/plain") None (email.Leaf (b "attached"))]).

(* ================================================================== *)
(** * Notions used in the further properties *)
(* ================================================================== *)

Section NormalizerNotions.
Context {lib : PyLib}.

(** The text a chunk of [decode_header] stands for: itself if it is a
    [str], its bytes decoded under the declared charset (UTF-8 if none is
    declared) otherwise. *)
Definition chunk_decodes (c : chunk_text * option pystr) (t : pystr) : Prop :=
  match fst c with
  | Str s => t = s
  | Bytes d => bytes_decode d (or_str (snd c) (u "utf-8")) = Ok t
  end.



End NormalizerNotions.


(** Some row of [rows] has the [message_id] [k]. *)
Definition key_present (rows : list stored) (k : pystr) : Prop :=
  exists st, In st rows /\ message_id (cells st) = k.

Definition is_progress (o : output) : bool :=
  match o with Progress _ _ _ => true | Done _ _ _ => false end.

(** The totals of a progress line add up to the number of messages
    read, a multiple of 10,000 between 1 and [bound]. *)
Definition progress_ok (bound : nat) (o : output) : Prop :=
  match o with
  | Progress p i s =>
      (i + s = p)%nat /\ (N.of_nat p mod 10000 = 0)%N /\ (1 <= p <= bound)%nat
  | Done _ _ _ => True
  end.


(** The calls of a log that are [conn.commit()], and those that execute
    an INSERT. *)
Definition is_commit (k : call) : bool :=
  match k with Commit => true | Execute _ _ => false end.
Definition is_insert (k : call) : bool :=
  match k with Execute (INSERT_INTO_emails _ _) _ => true | _ => false end.
Definition commits (l : list call) : nat := length (List.filter is_commit l).
Definition inserts (l : list call) : nat := length (List.filter is_insert l).


(** A string against a picture: [None] stands for one decimal digit
    [0]-[9], [Some c] for the character [c]. *)
Fixpoint matches_picture (pic : list (option codepoint)) (s : pystr) : bool :=
  match pic, s with
  | [], [] => true
  | None :: pic', c :: s' => isdigit_cp c && matches_picture pic' s'
  | Some k :: pic', c :: s' => (c =? k)%N && matches_picture pic' s'
  | _, _ => false
  end.

(** A picture written as text, [9] standing for a digit. *)
Definition picture (p : string) : list (option codepoint) :=
  List.map (fun c => if (c =? 57)%N then None else Some c) (u p).

Definition ISO_PICTURE : list (option codepoint) := picture "9999-99-99T99:99:99+00:00".
Definition DAY_PICTURE : list (option codepoint) := picture "9999-99-99".

(** The fields of a [datetime] lie in the ranges of the calendar and the
    clock. *)
Definition fields_in_range (dt : datetime.t) : Prop :=
  1 <= datetime.year dt <= 9999
  /\ 1 <= datetime.month dt <= 12
  /\ 1 <= datetime.day dt <= 31
  /\ 0 <= datetime.hour dt <= 23
  /\ 0 <= datetime.minute dt <= 59
  /\ 0 <= datetime.second dt <= 59.

(** The reference library on a system whose local zone lies [off]
    seconds east of UTC. *)
Definition lib_at_offset (off : Z) : PyLib :=
  Build_PyLib CPython.decode_header CPython.bytes_decode CPython.parsedate_to_datetime
              (fun _ => off) eq_refl.

(** The month and the day [_ord2ymd] computes from the day of the year. *)
Definition month_day (n : Z) (leapyear : bool) : Z * Z :=
  let m := Z.shiftr (n + 50) 5 in
  let preceding :=
    datetime._DAYS_BEFORE_MONTH m + (if (2 <? m) && leapyear then 1 else 0) in
  let '(m, preceding) :=
    if n <? preceding
    then (m - 1, preceding - (datetime._DAYS_IN_MONTH (m - 1)
                              + (if (m - 1 =? 2) && leapyear then 1 else 0)))
    else (m, preceding) in
  (m, n - preceding + 1).


(* ================================================================== *)
(** * The report (query.py) *)
(* ================================================================== *)

(** The data of a [DataFrame] the script prints: one pair per result
    row, a value of the grouped column and [n], the [COUNT] of its
    group. *)
Definition frame : Type := list (pystr * nat).

(** [ORDER BY n DESC] between two result rows. *)
Definition n_desc (r1 r2 : pystr * nat) : Prop := (snd r2 <= snd r1)%nat.

#[global] Instance n_desc_dec : RelDecision n_desc :=
  fun r1 r2 => decide (snd r2 <= snd r1)%nat.
#[global] Instance n_desc_trans : Transitive n_desc :=
  fun r1 r2 r3 H12 H23 => Nat.le_trans _ _ _ H23 H12.
#[global] Instance n_desc_total : Total n_desc :=
  fun r1 r2 => match Nat.le_ge_cases (snd r2) (snd r1) with
               | or_introl H => or_introl H
               | or_intror H => or_intror H
               end.

(** SQL leaves open the order of rows that [ORDER BY] does not tell
    apart: the engine sorts the groups by [n], largest first, and puts
    groups of the same size as it likes. *)
Class SqlEngine : Type := {
  order_by_n_desc : frame -> frame;
  order_by_n_desc_perm : forall groups, Permutation (order_by_n_desc groups) groups;
  order_by_n_desc_sorted : forall groups, StronglySorted n_desc (order_by_n_desc groups)
}.

(** An engine that sorts by merging. *)
Definition merging_engine : SqlEngine :=
  Build_SqlEngine (merge_sort n_desc)
                  (merge_sort_Permutation n_desc)
                  (StronglySorted_merge_sort n_desc).

(** The four statements of the script, in its order. *)
Inductive select : Type :=
| most_messaged_day
| most_common_senders
| most_common_subjects
| most_common_recipients.

(** The column a statement selects and groups by. *)
Definition grouped_column (q : select) : column :=
  match q with
  | most_messaged_day => col_date_day
  | most_common_senders => col_from_addr
  | most_common_subjects => col_subject
  | most_common_recipients => col_to_addr
  end.

(** Its [WHERE] clause: [date_day != ''] in the first statement, none in
    the others. *)
Definition where_clause (q : select) (v : pystr) : bool :=
  match q with
  | most_messaged_day => negb (str_eqb v [])
  | _ => true
  end.

(** [COUNT( * )] of the group of [v]. *)
Definition count_star (v : pystr) (vals : list pystr) : nat :=
  length (List.filter (fun x => str_eqb x v) vals).

(** [GROUP BY]: one row per distinct value. *)
Definition group_by (vals : list pystr) : frame :=
  List.map (fun v => (v, count_star v vals)) (remove_dups vals).

Definition LIMIT : nat := 5.

(** [pandas.errors.DatabaseError], raised by [read_sql_query] when the
    statement cannot be executed. *)
Inductive pandas_error : Type := DatabaseError.

(** The values the statement [q] groups: those of its column in the rows
    that pass its [WHERE] clause. *)
Definition selected_values (q : select) (rows : list stored) : list pystr :=
  List.filter (where_clause q)
              (List.map (fun st => cell (grouped_column q) (cells st)) rows).

(** [pd.read_sql_query(q, conn)] on the database [d]. *)
Definition read_sql_query {engine : SqlEngine} (q : select) (d : database)
  : frame + pandas_error :=
  match emails d with
  | None => inr DatabaseError
  | Some rows => inl (firstn LIMIT (order_by_n_desc (group_by (selected_values q rows))))
  end.

(** What the script prints: [print(df)] and [print("\n")]. *)
Inductive shown : Type :=
| Frame (df : frame)
| Blank.

(** One statement of the script with its two prints; an exception ends
    the script. *)
Definition query_step {engine : SqlEngine} (file : database)
    (st : list shown * option pandas_error) (q : select)
  : list shown * option pandas_error :=
  match st with
  | (_, Some _) => st
  | (out, None) =>
      match read_sql_query q file with
      | inl df => (out ++ [Frame df; Blank], None)
      | inr e => (out, Some e)
      end
  end.

(** The script on the database file [mail.sqlite]: what it prints and
    the exception that ended it, if any. *)
Definition query_script {engine : SqlEngine} (file : database)
  : list shown * option pandas_error :=
  fold_left (query_step file)
            [most_messaged_day; most_common_senders; most_common_subjects;
             most_common_recipients]
            ([], None).

(** A day column is empty or laid out as [YYYY-MM-DD]. *)
Definition day_or_empty (v : pystr) : Prop :=
  v = [] \/ matches_picture DAY_PICTURE v = true.

(** A row as [ingest] builds them: the date columns are both empty, or
    [date_iso] is laid out as a UTC timestamp and [date_day] is its first
    ten characters; the preview has at most 2000 characters. *)
Definition row_well_formed (r : row) : Prop :=
  ((date_iso r = [] /\ date_day r = [])
   \/ (matches_picture ISO_PICTURE (date_iso r) = true
       /\ date_day r = firstn 10 (date_iso r)))
  /\ (length (body_preview r) <= 2000)%nat.

Definition rows_well_formed (d : database) : Prop :=
  Forall (fun st => row_well_formed (cells st)) (stored_rows d).

(* ================================================================== *)
(** * Properties of the normalizer *)
(* ================================================================== *)

Lemma length_zeros (k : nat) : length (zeros k) = k.
Proof. induction k as [|k IH]; simpl; [reflexivity | now rewrite IH]. Qed.

Lemma length_zfill (w : nat) (n : Z) : (w <= length (zfill w n))%nat.
Proof.
  unfold zfill. destruct (n <? 0).
  - simpl. rewrite length_app, length_zeros. lia.
  - rewrite length_app, length_zeros. lia.
Qed.

Lemma length_isoformat_utc (dt : datetime.t) :
  datetime.tzinfo dt = datetime.utc ->
  (25 <= length (datetime.isoformat_seconds dt))%nat.
Proof.
  intros Htz. unfold datetime.isoformat_seconds. rewrite Htz.
  repeat rewrite length_app.
  pose proof (length_zfill 4 (datetime.year dt)).
  pose proof (length_zfill 2 (datetime.month dt)).
  pose proof (length_zfill 2 (datetime.day dt)).
  pose proof (length_zfill 2 (datetime.hour dt)).
  pose proof (length_zfill 2 (datetime.minute dt)).
  pose proof (length_zfill 2 (datetime.second dt)).
  change (length (datetime._format_offset datetime.utc)) with 6%nat.
  change (length (u "-")) with 1%nat. change (length (u "T")) with 1%nat.
  change (length (u ":")) with 1%nat.
  lia.
Qed.

(** The result of [add_seconds] keeps the zone of its argument, and
    [astimezone_utc] always lands in UTC when the argument is aware. *)
Lemma add_seconds_tzinfo (dt dt' : datetime.t) (delta : Z) :
  datetime.add_seconds dt delta = Ok dt' ->
  datetime.tzinfo dt' = datetime.tzinfo dt.
Proof.
  unfold datetime.add_seconds.
  destruct (_ && _); [|discriminate].
  destruct (datetime._ord2ymd _) as [[y m] d].
  intros [= <-]. reflexivity.
Qed.

Lemma astimezone_utc_tzinfo (local : datetime.t -> Z) (dt dt' : datetime.t) :
  datetime.tzinfo dt <> None ->
  datetime.astimezone_utc local dt = Ok dt' ->
  datetime.tzinfo dt' = datetime.utc.
Proof.
  unfold datetime.astimezone_utc. intros Hz.
  destruct (datetime.tzinfo dt) as [off|] eqn:E; [|congruence].
  destruct (off =? 0) eqn:E0.
  - intros [= <-]. rewrite E. apply Z.eqb_eq in E0. now subst.
  - unfold Py.bind.
    destruct (datetime.add_seconds dt (- off)) as [sh|e]; [|discriminate].
    intros H. apply add_seconds_tzinfo in H. exact H.
Qed.

Section NormalizerFacts.
Context {lib : PyLib}.

(** [parse_date_to_iso] gives the empty string or a string of at least
    25 characters. *)
Lemma parse_date_to_iso_length (date_str : pystr) :
  parse_date_to_iso date_str = [] \/ (25 <= length (parse_date_to_iso date_str))%nat.
Proof.
  unfold parse_date_to_iso.
  destruct (negb (truthy date_str)); [now left|].
  destruct (parsedate_to_datetime date_str) as [dt|e]; simpl; [|now left].
  set (dt1 := match datetime.tzinfo dt with
              | Some _ => dt
              | None => datetime.replace_tzinfo dt datetime.utc
              end).
  assert (Hz : datetime.tzinfo dt1 <> None).
  { unfold dt1. destruct (datetime.tzinfo dt) eqn:E; [congruence | discriminate]. }
  destruct (datetime.astimezone_utc local_utcoffset dt1) as [dtu|e] eqn:Ea; [|now left].
  right. apply length_isoformat_utc. eapply astimezone_utc_tzinfo; eauto.
Qed.

Lemma parsedate_ok_nonempty (date_str : pystr) (dt : datetime.t) :
  parsedate_to_datetime date_str = Ok dt -> truthy date_str = true.
Proof.
  destruct date_str; [|reflexivity].
  rewrite parsedate_to_datetime_empty. discriminate.
Qed.

(** ** C5 *)

(** C5. A Date string that parses and carries no zone offset is read as
    UTC: the result is its own date and time of day, in ISO-8601 form
    with second precision and the offset [+00:00], whatever the local
    zone.  An unparseable or absent (empty) Date string gives the pair of
    empty strings; nothing is raised, the functions being total. *)
Theorem C5_naive_date_is_utc_and_bad_date_is_empty (date_str : pystr) :
  (forall dt : datetime.t,
      parsedate_to_datetime date_str = Ok dt ->
      datetime.tzinfo dt = None ->
      parse_date_to_iso date_str =
        zfill 4 (datetime.year dt) ++ u "-" ++ zfill 2 (datetime.month dt) ++ u "-"
          ++ zfill 2 (datetime.day dt) ++ u "T" ++ zfill 2 (datetime.hour dt) ++ u ":"
          ++ zfill 2 (datetime.minute dt) ++ u ":" ++ zfill 2 (datetime.second dt)
          ++ u "+00:00")
  /\ ((date_str = [] \/ exists e, parsedate_to_datetime date_str = Raise e) ->
      date_columns date_str = ([], [])).
Proof.
  split.
  - intros dt Hp Hz. unfold parse_date_to_iso.
    rewrite (parsedate_ok_nonempty _ _ Hp), Hp. simpl. rewrite Hz.
    reflexivity.
  - intros [-> | [e He]].
    + reflexivity.
    + unfold date_columns, parse_date_to_iso.
      destruct (negb (truthy date_str)); [reflexivity|].
      rewrite He. reflexivity.
Qed.

(** ** C6 *)

Lemma firstn_strict_prefix {A : Type} (n : nat) (l : list A) :
  (n < length l)%nat ->
  length (firstn n l) = n /\ exists rest, rest <> [] /\ l = firstn n l ++ rest.
Proof.
  intros Hlt. split.
  - rewrite length_firstn. lia.
  - exists (skipn n l). split.
    + intros Hnil. pose proof (length_skipn n l) as Hs. rewrite Hnil in Hs.
      simpl in Hs. lia.
    + symmetry. apply firstn_skipn.
Qed.

Lemma date_columns_shape (date_str iso day : pystr) :
  date_columns date_str = (iso, day) ->
  (iso = [] /\ day = []) \/
  ((25 <= length iso)%nat /\ day = firstn 10 iso).
Proof.
  unfold date_columns. intros [= <- <-].
  destruct (parse_date_to_iso_length date_str) as [E | Hlen].
  - left. rewrite E. split; reflexivity.
  - right. split; [exact Hlen|].
    destruct (parse_date_to_iso date_str); [simpl in Hlen; lia | reflexivity].
Qed.

Lemma build_row_dates (msg : email.message) (store_preview : bool) (r : row) :
  build_row msg store_preview = Ok r ->
  date_columns (email.get_or_empty msg (u "Date")) = (date_iso r, date_day r).
Proof.
  unfold build_row.
  destruct (date_columns _) as [iso day].
  destruct (decode_mime_header _); [|discriminate].
  destruct (decode_mime_header _); [|discriminate].
  destruct (decode_mime_header _); [|discriminate].
  destruct (decode_mime_header _); [|discriminate].
  simpl. intros [= <-]. reflexivity.
Qed.

(** C6. In every record the pipeline builds, [date_day] is empty exactly
    when [date_iso] is; and when [date_iso] is not empty, [date_day] is
    its first 10 characters and a strict prefix of it: [date_iso] has
    more than 10 characters. *)
Theorem C6_date_day_is_strict_prefix_of_date_iso
    (msg : email.message) (store_preview : bool) (r : row) :
  build_row msg store_preview = Ok r ->
  (date_day r = [] <-> date_iso r = [])
  /\ (date_iso r <> [] ->
      date_day r = firstn 10 (date_iso r)
      /\ (10 < length (date_iso r))%nat
      /\ length (date_day r) = 10%nat
      /\ exists rest, rest <> [] /\ date_iso r = date_day r ++ rest).
Proof.
  intros Hb. apply build_row_dates in Hb. apply date_columns_shape in Hb.
  destruct Hb as [[Hi Hd] | [Hlen Hd]].
  - rewrite Hi, Hd. split; [tauto | congruence].
  - assert (Hlt : (10 < length (date_iso r))%nat) by lia.
    destruct (firstn_strict_prefix 10 (date_iso r) Hlt) as [Hl10 Hrest].
    split.
    + split; intros E.
      * rewrite Hd in E. rewrite E in Hl10. simpl in Hl10. lia.
      * rewrite E in Hlen. simpl in Hlen. lia.
    + intros _. rewrite Hd. auto.
Qed.

(** ** Facts on [decode_mime_header] (C3) *)

Lemma decode_mime_header_empty : decode_mime_header [] = Ok [].
Proof. reflexivity. Qed.

(** A header without encoded words comes back unchanged. *)
Lemma decode_mime_header_plain (value : pystr) :
  decode_header value = Ok [(Str value, None)] ->
  decode_mime_header value = Ok value.
Proof.
  intros H. unfold decode_mime_header. destruct value; [reflexivity|].
  simpl negb. cbv iota. rewrite H. simpl. now rewrite app_nil_r.
Qed.

Lemma decode_parts_raise (pre post : list (chunk_text * option pystr))
    (data : bytes) (enc : option pystr) (e : exn) (acc : list pystr) :
  Forall (fun c => match fst c with
                   | Bytes d => is_ok (bytes_decode d (or_str (snd c) (u "utf-8"))) = true
                   | Str _ => True
                   end) pre ->
  bytes_decode data (or_str enc (u "utf-8")) = Raise e ->
  decode_parts (pre ++ (Bytes data, enc) :: post) acc = Raise e.
Proof.
  intros Hpre He. revert acc.
  induction Hpre as [| [t c] pre Hx _ IH]; intros acc; simpl.
  - rewrite He. reflexivity.
  - destruct t as [t|d]; simpl in Hx.
    + apply IH.
    + destruct (bytes_decode d (or_str c (u "utf-8"))); [|discriminate].
      simpl. apply IH.
Qed.

(** The exception of the first chunk that cannot be decoded leaves
    [decode_mime_header]: the function has no handler. *)
Lemma decode_mime_header_propagates (value : pystr)
    (pre post : list (chunk_text * option pystr))
    (data : bytes) (enc : option pystr) (e : exn) :
  value <> [] ->
  decode_header value = Ok (pre ++ (Bytes data, enc) :: post) ->
  Forall (fun c => match fst c with
                   | Bytes d => is_ok (bytes_decode d (or_str (snd c) (u "utf-8"))) = true
                   | Str _ => True
                   end) pre ->
  bytes_decode data (or_str enc (u "utf-8")) = Raise e ->
  decode_mime_header value = Raise e.
Proof.
  intros Hne Hd Hpre He. unfold decode_mime_header.
  destruct value; [congruence|]. simpl negb. cbv iota.
  rewrite Hd. simpl. rewrite (decode_parts_raise pre post data enc e [] Hpre He).
  reflexivity.
Qed.

Lemma decode_parts_ok (chunks : list (chunk_text * option pystr)) (acc : list pystr) :
  (forall d enc, is_ok (bytes_decode d enc) = true) ->
  is_ok (decode_parts chunks acc) = true.
Proof.
  intros Htot. revert acc. induction chunks as [| [t c] chunks IH]; intros acc; simpl.
  - reflexivity.
  - destruct t as [t|d]; [apply IH|].
    specialize (Htot d (or_str c (u "utf-8"))).
    destruct (bytes_decode d (or_str c (u "utf-8"))); [|discriminate].
    simpl. apply IH.
Qed.

(** With a codec for every name and a header [decode_header] accepts,
    [decode_mime_header] returns. *)
Lemma decode_mime_header_ok (value : pystr) :
  (forall d enc, is_ok (bytes_decode d enc) = true) ->
  is_ok (decode_header value) = true ->
  is_ok (decode_mime_header value) = true.
Proof.
  intros Htot Hh. unfold decode_mime_header.
  destruct (negb (truthy value)); [reflexivity|].
  destruct (decode_header value) as [chunks|]; [|discriminate]. simpl.
  pose proof (decode_parts_ok chunks [] Htot) as Hp.
  destruct (decode_parts chunks []); [reflexivity | discriminate].
Qed.

(** ** C7 *)

Lemma length_slice_to {A : Type} (s : list A) (limit : Z) :
  0 <= limit -> Z.of_nat (length (slice_to s limit)) <= limit.
Proof.
  intros H. unfold slice_to.
  destruct (0 <=? limit) eqn:E; [|lia].
  rewrite length_firstn. lia.
Qed.

Lemma length_part_text (part : email.message) (limit : Z) :
  0 <= limit -> Z.of_nat (length (part_text part limit)) <= limit.
Proof.
  intros H. unfold part_text.
  destruct (email.get_payload_decode part); [|simpl; lia].
  destruct (bytes_decode _ _); [|simpl; lia].
  now apply length_slice_to.
Qed.

(** The loop over the parts returns the text of the first part that is
    plain, not an attachment, and not empty. *)
Lemma preview_of_parts_find (parts : list email.message) (limit : Z) :
  match preview_of_parts parts limit with Ok text => text | Raise _ => [] end =
  match List.find plain_inline_nonempty parts with
  | Some part => part_text part limit
  | None => []
  end.
Proof.
  induction parts as [| part rest IH]; [reflexivity|].
  cbn [preview_of_parts List.find].
  unfold plain_inline_nonempty at 1. unfold plain_inline.
  destruct (str_eqb (email.content_type part) (u "text/plain"));
    cbn [andb negb]; [|exact IH].
  destruct (contains _ _); cbn [andb negb]; [exact IH|].
  destruct (email.get_payload_decode part) as [data|] eqn:Ep; [|exact IH].
  destruct (truthy data); [|exact IH].
  unfold part_text. rewrite Ep.
  destruct (bytes_decode data _); reflexivity.
Qed.

(** C7, as amended.  For a multipart message the preview is the decoded
    text, cut to [limit] characters, of the first part in document order
    that is [text/plain], whose disposition does not mention an
    attachment, and whose decoded payload is not empty; it is empty when
    there is no such part, and empty when decoding that part fails. *)
Theorem C7_preview_is_first_nonempty_plain_part (msg : email.message) (limit : Z) :
  email.is_multipart msg = true ->
  get_plain_text_preview msg limit =
    match List.find plain_inline_nonempty (email.walk msg) with
    | Some part => part_text part limit
    | None => []
    end
  /\ (0 <= limit -> Z.of_nat (length (get_plain_text_preview msg limit)) <= limit).
Proof.
  intros Hm.
  assert (E : get_plain_text_preview msg limit =
              match List.find plain_inline_nonempty (email.walk msg) with
              | Some part => part_text part limit
              | None => []
              end).
  { unfold get_plain_text_preview. rewrite Hm. apply preview_of_parts_find. }
  split; [exact E|].
  intros Hl. rewrite E.
  destruct (List.find plain_inline_nonempty (email.walk msg)); [|simpl; lia].
  now apply length_part_text.
Qed.

End NormalizerFacts.

(** ** The normalizer on concrete input *)

Example parse_date_naive :
  parse_date_to_iso (lib := CPython.lib) (u "01 Jan 2024 10:00:00")
  = u "2024-01-01T10:00:00+00:00".
Proof. vm_compute. reflexivity. Qed.

Example parse_date_offset :
  parse_date_to_iso (lib := CPython.lib) (u "Mon, 01 Jan 2024 01:30:00 +0200")
  = u "2023-12-31T23:30:00+00:00".
Proof. vm_compute. reflexivity. Qed.

Example parse_date_garbage :
  date_columns (lib := CPython.lib) (u "not a date") = ([], []).
Proof. vm_compute. reflexivity. Qed.

Example decode_subject_hi :
  decode_mime_header (lib := CPython.lib) (u "=?utf-8?q?Hi?=") = Ok (u "Hi").
Proof. vm_compute. reflexivity. Qed.

Example decode_invalid_bytes_replaced :
  decode_mime_header (lib := CPython.lib) (u "=?utf-8?q?=E2=82?= x")
  = Ok [CPython.REPLACEMENT; 32%N; 120%N].
Proof. vm_compute. reflexivity. Qed.

Example decode_missing_charset_is_utf8 :
  decode_mime_header (lib := CPython.lib) (u "=??q?=C3=A9?=") = Ok [233%N].
Proof. vm_compute. reflexivity. Qed.

Example decode_bad_base64_raises :
  decode_mime_header (lib := CPython.lib) (u "=?utf-8?b?Q?=") = Raise HeaderParseError.
Proof. vm_compute. reflexivity. Qed.

Example decode_header_words :
  CPython.decode_header (u "Re: =?iso-8859-1?Q?caf=E9?= =?iso-8859-1?q?_au?= lait")
  = Ok [(Bytes (b "Re: "), None);
        (Bytes [CPython.byte_of_N 99; CPython.byte_of_N 97; CPython.byte_of_N 102;
                CPython.byte_of_N 233; CPython.byte_of_N 32; CPython.byte_of_N 97;
                CPython.byte_of_N 117], Some (u "iso-8859-1"));
        (Bytes (b " lait"), None)].
Proof. vm_compute. reflexivity. Qed.

Example parsedate_rfc850_named_zone :
  CPython.parsedate_to_datetime (u "Monday, 01-Jan-24 10:00:00 GMT")
  = Ok (datetime.mk 2024 1 1 10 0 0 0 (Some 0)).
Proof. vm_compute. reflexivity. Qed.

Example parsedate_minus_zero_is_naive :
  CPython.parsedate_to_datetime (u "Jan 1 2024 10.00.00 -0000")
  = Ok (datetime.mk 2024 1 1 10 0 0 0 None).
Proof. vm_compute. reflexivity. Qed.

Example parsedate_day_out_of_range :
  CPython.parsedate_to_datetime (u "31 Feb 2024 10:00:00 +0000") = Raise ValueError.
Proof. vm_compute. reflexivity. Qed.

Example preview_only_attachment :
  get_plain_text_preview (lib := CPython.lib) message_only_attachment 2000 = [].
Proof. vm_compute. reflexivity. Qed.

(** C3, at the failing input.  A subject whose encoded word names the
    character set [unknown-8bit]: [decode_header] hands back the bytes
    with that name, [bytes.decode] finds no codec, and the [LookupError]
    leaves [decode_mime_header]; a mailbox holding one such message ends
    the whole run with that exception, before any summary. *)
Theorem C3_unknown_charset_raises_LookupError :
  CPython.decode_header (u "=?unknown-8bit?q?Hi?=")
    = Ok [(Bytes (b "Hi"), Some (u "unknown-8bit"))]
  /\ decode_mime_header (lib := CPython.lib) (u "=?unknown-8bit?q?Hi?=")
     = Raise LookupError
  /\ returned (ingest (lib := CPython.lib) [message_unknown_charset]
                      empty_database (u "mail.sqlite") true)
     = Raise LookupError
  /\ reported_totals (ingest (lib := CPython.lib) [message_unknown_charset]
                             empty_database (u "mail.sqlite") true)
     = None.
Proof. vm_compute. repeat split; reflexivity. Qed.

(** C7 as worded fails: the first plain-text part is empty, so the
    worded policy gives the empty preview, but the loop passes over the
    empty part and returns the text of the second. *)
Lemma C7_first_plain_part_may_be_skipped :
  preview_as_worded (lib := CPython.lib) message_empty_then_text 2000 = []
  /\ get_plain_text_preview (lib := CPython.lib) message_empty_then_text 2000
     = u "second part"
  /\ get_plain_text_preview (lib := CPython.lib) message_empty_then_text 2000
     <> preview_as_worded (lib := CPython.lib) message_empty_then_text 2000.
Proof. vm_compute. repeat split; try reflexivity. discriminate. Qed.

Lemma C7_witness :
  email.is_multipart message_empty_then_text = true
  /\ (get_plain_text_preview (lib := CPython.lib) message_empty_then_text 2000 =
        match List.find plain_inline_nonempty
                        (email.walk message_empty_then_text) with
        | Some part => part_text (lib := CPython.lib) part 2000
        | None => []
        end
      /\ (0 <= 2000 ->
          Z.of_nat (length (get_plain_text_preview (lib := CPython.lib)
                                                   message_empty_then_text 2000))
          <= 2000)).
Proof.
  split; [reflexivity|].
  apply (C7_preview_is_first_nonempty_plain_part (lib := CPython.lib)
           message_empty_then_text 2000).
  reflexivity.
Defined.

Lemma C6_witness :
  build_row (lib := CPython.lib) message_a true = Ok row_a
  /\ ((date_day row_a = [] <-> date_iso row_a = [])
      /\ (date_iso row_a <> [] ->
          date_day row_a = firstn 10 (date_iso row_a)
          /\ (10 < length (date_iso row_a))%nat
          /\ length (date_day row_a) = 10%nat
          /\ exists rest, rest <> [] /\ date_iso row_a = date_day row_a ++ rest)).
Proof.
  split; [vm_compute; reflexivity|].
  apply (C6_date_day_is_strict_prefix_of_date_iso (lib := CPython.lib)
           message_a true row_a).
  vm_compute. reflexivity.
Defined.

(* ================================================================== *)
(** * Properties of the store *)
(* ================================================================== *)

Lemma violates_nil (d : database) (r : row) : violates d [] r = false.
Proof.
  unfold violates. apply bool_decide_eq_false.
  intros (name & ix & _ & _ & HE). inversion HE.
Qed.

(** A row that agrees with a stored row on the column of a unique index
    is a violation. *)
Lemma violates_true (d : database) (rows : list stored) (r : row)
    (name : string) (c : column) (st : stored) :
  indexes d !! name = Some (mk_index true c) ->
  In st rows ->
  cell c (cells st) = cell c r ->
  violates d rows r = true.
Proof.
  intros Hix Hin Hc. unfold violates. apply bool_decide_eq_true.
  exists name, (mk_index true c). split; [exact Hix|]. split; [reflexivity|].
  apply Exists_exists. exists st. split; [now apply list_elem_of_In | exact Hc].
Qed.

(** An INSERT leaves the indexes alone and never removes a row. *)
Lemma insert_effect (d d' : database) (ign : bool) (r : row) :
  run_statement d (INSERT_INTO_emails ign r) = Ok d' ->
  indexes d' = indexes d
  /\ exists rows, emails d = Some rows
     /\ ((violates d rows r = true /\ ign = true /\ d' = d)
         \/ (violates d rows r = false
             /\ emails d' = Some (rows ++ [mk_stored (next_id rows) r]))).
Proof.
  simpl. destruct (emails d) as [rows|] eqn:Et; [|discriminate].
  destruct (violates d rows r) eqn:Ev.
  - destruct ign; [|discriminate]. intros [= <-].
    split; [reflexivity|]. exists rows. split; [reflexivity|]. left. auto.
  - intros [= <-]. split; [reflexivity|]. exists rows. split; [reflexivity|].
    right. auto.
Qed.


Lemma insert_keeps_table (d d' : database) (ign : bool) (r : row) :
  run_statement d (INSERT_INTO_emails ign r) = Ok d' ->
  table_exists d = true /\ table_exists d' = true.
Proof.
  intros H. destruct (insert_effect _ _ _ _ H) as (_ & rows & Et & [(_ & _ & ->) | (_ & Et')]);
    unfold table_exists; rewrite ?Et, ?Et'; auto.
Qed.

(** ** One call of [execute] *)

Lemma execute_db (c : connection) (s : statement) :
  db (fst (execute c s)) =
  match run_statement (db c) s with Ok d' => d' | Raise _ => db c end.
Proof. unfold execute. destruct (run_statement (db c) s); reflexivity. Qed.

Lemma execute_result (c : connection) (s : statement) :
  snd (execute c s) =
  match run_statement (db c) s with Ok _ => Ok tt | Raise e => Raise e end.
Proof. unfold execute. destruct (run_statement (db c) s); reflexivity. Qed.

Lemma execute_log (c : connection) (s : statement) :
  log (fst (execute c s)) = log c ++ [Execute s (snd (execute c s))].
Proof. unfold execute. destruct (run_statement (db c) s); reflexivity. Qed.

(** Case analysis on one call [execute c s]: names the connection and
    the outcome it gives, and records both in terms of [run_statement]. *)
Ltac step_execute c s ca o Hdb Hres :=
  pose proof (execute_db c s) as Hdb;
  pose proof (execute_result c s) as Hres;
  destruct (execute c s) as [ca o];
  cbn [fst snd] in *.

(** An INSERT changes nothing that is durable: it runs inside a
    transaction. *)
Lemma execute_insert_saved (c : connection) (ign : bool) (r : row) :
  saved (fst (execute c (INSERT_INTO_emails ign r))) = saved c.
Proof.
  unfold execute.
  destruct (run_statement (db c) (INSERT_INTO_emails ign r)) as [d'|e] eqn:E;
    [|reflexivity].
  apply insert_keeps_table in E. destruct E as [E _].
  cbn [fst saved is_dml andb]. rewrite E, orb_true_r. reflexivity.
Qed.

(** ** The loop of [flush_batch] *)

Lemma flush_rows_step (r : row) (rest : list row) (c : connection) (i s : nat) :
  flush_rows (r :: rest) c i s =
  match execute c (insert_of r) with
  | (c', Ok _) => flush_rows rest c' (i + 1) s
  | (c', Raise _) => flush_rows rest c' i (s + 1)
  end.
Proof. unfold insert_of. simpl. destruct (truthy (message_id r)); reflexivity. Qed.

Lemma length_attempt_all (batch : list row) (d : database) :
  length (snd (attempt_all d batch)) = length batch.
Proof.
  revert d. induction batch as [|r rest IH]; intros d; [reflexivity|].
  cbn [attempt_all].
  destruct (run_statement d (insert_of r)) as [d'|e].
  - specialize (IH d'). destruct (attempt_all d' rest). simpl in *. now rewrite IH.
  - specialize (IH d). destruct (attempt_all d rest). simpl in *. now rewrite IH.
Qed.

Lemma succeeded_failed (os : list (pyresult unit)) :
  (succeeded os + failed os = length os)%nat.
Proof.
  unfold succeeded, failed. induction os as [|o os IH]; [reflexivity|].
  simpl. destruct o; simpl; lia.
Qed.

(** What the loop does to the connection and to the counters. *)
Lemma flush_rows_spec (batch : list row) (c : connection) (i s : nat) :
  exists c',
    flush_rows batch c i s =
      (c', ((i + succeeded (snd (attempt_all (db c) batch)))%nat,
            (s + failed (snd (attempt_all (db c) batch)))%nat))
    /\ db c' = fst (attempt_all (db c) batch)
    /\ saved c' = saved c
    /\ log c' = log c ++ logged batch (snd (attempt_all (db c) batch)).
Proof.
  revert c i s. induction batch as [|r rest IH]; intros c i s.
  - exists c. cbn. rewrite !Nat.add_0_r, app_nil_r. auto.
  - rewrite flush_rows_step.
    pose proof (execute_db c (insert_of r)) as Hdb.
    pose proof (execute_result c (insert_of r)) as Hres.
    pose proof (execute_log c (insert_of r)) as Hlog.
    pose proof (execute_insert_saved c (truthy (message_id r)) r) as Hsv.
    fold (insert_of r) in Hsv.
    destruct (execute c (insert_of r)) as [c1 o]. cbn [fst snd] in *.
    cbn [attempt_all logged].
    destruct (run_statement (db c) (insert_of r)) as [d1|e].
    + subst o.
      destruct (IH c1 (i + 1)%nat s) as (c' & Hf & Hd & Hs & Hl).
      rewrite Hdb in *.
      destruct (attempt_all d1 rest) as [d2 os]. cbn [fst snd] in *.
      exists c'. rewrite Hf. unfold succeeded, failed. cbn.
      repeat split.
      * f_equal. f_equal; unfold succeeded; lia.
      * exact Hd.
      * congruence.
      * rewrite Hl, Hlog, <- app_assoc. reflexivity.
    + subst o.
      destruct (IH c1 i (s + 1)%nat) as (c' & Hf & Hd & Hs & Hl).
      rewrite Hdb in *.
      destruct (attempt_all (db c) rest) as [d2 os]. cbn [fst snd] in *.
      exists c'. rewrite Hf. unfold succeeded, failed. cbn.
      repeat split.
      * f_equal. f_equal; unfold failed; lia.
      * exact Hd.
      * congruence.
      * rewrite Hl, Hlog, <- app_assoc. reflexivity.
Qed.

(** [flush_batch] in terms of the attempts: the rows are attempted in
    order, the counters count the outcomes, one commit follows. *)
Lemma flush_batch_spec (c : connection) (batch : list row) :
  exists c',
    flush_batch c batch =
      (c', (succeeded (snd (attempt_all (db c) batch)),
            failed (snd (attempt_all (db c) batch))))
    /\ db c' = fst (attempt_all (db c) batch)
    /\ saved c' = db c'
    /\ in_transaction c' = false
    /\ log c' = log c ++ logged batch (snd (attempt_all (db c) batch)) ++ [Commit].
Proof.
  destruct (flush_rows_spec batch c 0 0) as (c1 & Hf & Hd & _ & Hl).
  unfold flush_batch. rewrite Hf. exists (commit c1). cbn.
  repeat split; try assumption. rewrite Hl, <- app_assoc. reflexivity.
Qed.

Lemma attempt_all_app (b1 b2 : list row) (d : database) :
  attempt_all d (b1 ++ b2) =
  (fst (attempt_all (fst (attempt_all d b1)) b2),
   snd (attempt_all d b1) ++ snd (attempt_all (fst (attempt_all d b1)) b2)).
Proof.
  revert d. induction b1 as [|r rest IH]; intros d.
  - cbn. now destruct (attempt_all d b2).
  - cbn [app attempt_all].
    destruct (run_statement d (insert_of r)) as [d1|e].
    + rewrite IH. destruct (attempt_all d1 rest). reflexivity.
    + rewrite IH. destruct (attempt_all d rest). reflexivity.
Qed.

Lemma succeeded_app (a b : list (pyresult unit)) :
  succeeded (a ++ b) = (succeeded a + succeeded b)%nat.
Proof. unfold succeeded. now rewrite List.filter_app, length_app. Qed.

Lemma failed_app (a b : list (pyresult unit)) :
  failed (a ++ b) = (failed a + failed b)%nat.
Proof. unfold failed. now rewrite List.filter_app, length_app. Qed.

(** ** What the attempts leave in the table *)



Lemma attempt_all_schema (batch : list row) (d : database) :
  indexes (fst (attempt_all d batch)) = indexes d
  /\ table_exists (fst (attempt_all d batch)) = table_exists d.
Proof.
  revert d. induction batch as [|r rest IH]; intros d; [split; reflexivity|].
  cbn [attempt_all].
  destruct (run_statement d (insert_of r)) as [d1|e] eqn:E.
  - destruct (insert_effect _ _ _ _ E) as (Hi & _).
    destruct (insert_keeps_table _ _ _ _ E) as (Ht & Ht').
    destruct (IH d1) as (IHi & IHt).
    destruct (attempt_all d1 rest). cbn [fst] in *. split; congruence.
  - specialize (IH d). now destruct (attempt_all d rest).
Qed.




(** ** C8 *)


(** ** C10, first half, and C1 *)

Lemma flush_batch_conserves (c : connection) (batch : list row) :
  (fst (snd (flush_batch c batch)) + snd (snd (flush_batch c batch))
   = length batch)%nat.
Proof.
  destruct (flush_batch_spec c batch) as (c' & Hf & _). rewrite Hf. cbn.
  rewrite succeeded_failed. apply length_attempt_all.
Qed.

(** C1, on the code.  On every store that holds the [emails] table and
    the unique index [init_db] creates, a flush of two records with the
    empty [message_id] adds at most one row: the index covers the empty
    string as it covers any other text, so the plain INSERT of the second
    record (at the latest) raises and is counted as skipped. *)
Theorem C1_empty_message_id_is_not_exempt
    (c : connection) (rows : list stored) (r1 r2 : row) :
  emails (db c) = Some rows ->
  indexes (db c) !! "idx_message_id" = Some (mk_index true col_message_id) ->
  message_id r1 = [] ->
  message_id r2 = [] ->
  (length (stored_rows (db (fst (flush_batch c [r1; r2])))) <= length rows + 1)%nat
  /\ (1 <= snd (snd (flush_batch c [r1; r2])))%nat
  /\ (fst (snd (flush_batch c [r1; r2])) <= 1)%nat.
Proof.
  intros Et Hix H1 H2.
  destruct (flush_batch_spec c [r1; r2]) as (c' & Hf & Hd & _).
  rewrite Hf. cbn [fst snd]. rewrite Hd. clear Hf Hd c'.
  cbn [attempt_all]. unfold insert_of. rewrite H1, H2. cbn [truthy run_statement].
  rewrite Et.
  destruct (violates (db c) rows r1) eqn:Ev1.
  - destruct (violates (db c) rows r2) eqn:Ev2; cbn; unfold stored_rows;
      rewrite ?Et; cbn; rewrite ?length_app; cbn; lia.
  - cbn [emails indexes].
    assert (Ev2 : violates (mk_database (Some (rows ++ [mk_stored (next_id rows) r1]))
                                        (indexes (db c)))
                           (rows ++ [mk_stored (next_id rows) r1]) r2 = true).
    { apply (violates_true _ _ _ "idx_message_id" col_message_id
                           (mk_stored (next_id rows) r1)).
      - exact Hix.
      - apply in_or_app. right. now left.
      - cbn. congruence. }
    rewrite Ev2. cbn. rewrite length_app. cbn. lia.
Qed.

(** ** Unique keys *)

(** No statement of the program breaks a unique index: the rows of the
    table never hold a value twice in the column of a unique index, the
    empty string included. *)
Lemma run_statement_keys_unique (d d' : database) (s : statement) :
  keys_unique d -> run_statement d s = Ok d' -> keys_unique d'.
Proof.
  intros Hu. destruct s as [|uq name c|ign r]; cbn.
  - destruct (emails d) eqn:Et; intros [= <-]; [exact Hu|].
    intros n c _. cbn. constructor.
  - destruct (emails d) as [rows|] eqn:Et; [|discriminate].
    destruct (indexes d !! name) as [ix|] eqn:Hix; [intros [= <-]; exact Hu|].
    destruct (uq && has_duplicates c rows) eqn:Hd; [discriminate|].
    intros [= <-] n c0. cbn. unfold stored_rows. cbn.
    rewrite lookup_insert. destruct (decide (name = n)) as [<-|Hne].
    + intros [= -> ->]. cbn in Hd. unfold has_duplicates in Hd.
      apply negb_false_iff, bool_decide_eq_true in Hd. exact Hd.
    + intros Hn. specialize (Hu n c0 Hn). unfold stored_rows in Hu.
      now rewrite Et in Hu.
  - intros E.
    destruct (insert_effect _ _ _ _ E) as (Hi & rows & Et & [(_ & _ & ->) | (Hv & Et')]);
      [exact Hu|].
    intros n c Hn. rewrite Hi in Hn. specialize (Hu n c Hn).
    unfold stored_rows in *. rewrite Et in Hu. rewrite Et'.
    rewrite List.map_app. cbn. apply NoDup_app. split; [exact Hu|]. split.
    + intros x Hx Hx'. apply list_elem_of_In in Hx, Hx'.
      destruct Hx' as [<-|[]]. apply in_map_iff in Hx. destruct Hx as (st & Hc & Hin).
      unfold violates in Hv. apply bool_decide_eq_false in Hv. apply Hv.
      exists n, (mk_index true c). split; [exact Hn|]. split; [reflexivity|].
      apply Exists_exists. exists st. split; [now apply list_elem_of_In | exact Hc].
    + apply NoDup_singleton.
Qed.

Lemma attempt_all_keys_unique (batch : list row) (d : database) :
  keys_unique d -> keys_unique (fst (attempt_all d batch)).
Proof.
  revert d. induction batch as [|r rest IH]; intros d Hu; [exact Hu|].
  cbn [attempt_all].
  destruct (run_statement d (insert_of r)) as [d1|e] eqn:E.
  - pose proof (run_statement_keys_unique _ _ _ Hu E) as Hu1.
    specialize (IH d1 Hu1). now destruct (attempt_all d1 rest).
  - specialize (IH d Hu). now destruct (attempt_all d rest).
Qed.

(** With the unique index of [init_db] in place, a flush leaves at most
    one row for every [message_id], empty or not. *)
Lemma flush_batch_at_most_one_row_per_key (c : connection) (batch : list row) :
  keys_unique (db c) ->
  indexes (db c) !! "idx_message_id" = Some (mk_index true col_message_id) ->
  NoDup (List.map (fun st => message_id (cells st))
                  (stored_rows (saved (fst (flush_batch c batch))))).
Proof.
  intros Hu Hix.
  destruct (flush_batch_spec c batch) as (c' & Hf & Hd & Hs & _).
  rewrite Hf. cbn [fst]. rewrite Hs, Hd.
  pose proof (attempt_all_keys_unique batch (db c) Hu) as Hu'.
  apply (Hu' "idx_message_id" col_message_id).
  destruct (attempt_all_schema batch (db c)) as (Hi & _). now rewrite Hi.
Qed.

(* ================================================================== *)
(** * [init_db] *)
(* ================================================================== *)

Lemma ddl_done_noop (d : database) (s : statement) :
  ddl_done d s -> run_statement d s = Ok d.
Proof.
  destruct s as [|uq name c|ign r]; cbn; unfold table_exists.
  - destruct (emails d); [reflexivity | discriminate].
  - intros [Ht [ix Hix]]. destruct (emails d); [|discriminate]. now rewrite Hix.
  - tauto.
Qed.

(** What a statement of the schema does when it returns: the table
    exists with the rows it had, and the indexes are those before plus
    the new one if its name was free. *)
Lemma ddl_effect (d d' : database) (s : statement) :
  is_dml s = false ->
  run_statement d s = Ok d' ->
  table_exists d' = true
  /\ stored_rows d' = stored_rows d
  /\ indexes d' = indexes d ∪ index_of_statement s.
Proof.
  destruct s as [|uq name c|ign r]; cbn; [| |discriminate]; intros _.
  - unfold table_exists, stored_rows.
    destruct (emails d) eqn:Et; intros [= <-]; cbn; rewrite ?Et;
      rewrite (right_id_L ∅ (∪)); auto.
  - unfold table_exists, stored_rows.
    destruct (emails d) as [rows|] eqn:Et; [|discriminate].
    destruct (indexes d !! name) as [ix|] eqn:Hix.
    + intros [= <-]. rewrite ?Et. repeat split.
      apply map_eq. intros j. symmetry.
      destruct (decide (name = j)) as [<-|Hne].
      * apply lookup_union_l'. rewrite Hix. eauto.
      * apply lookup_union_l. now apply lookup_singleton_ne.
    + destruct (uq && has_duplicates c rows); [discriminate|].
      intros [= <-]. cbn. rewrite ?Et. repeat split.
      now apply insert_union_singleton_r.
Qed.

Lemma ddl_done_after (d d' : database) (s : statement) :
  is_dml s = false -> run_statement d s = Ok d' -> ddl_done d' s.
Proof.
  intros Hs E. destruct (ddl_effect d d' s Hs E) as (Ht & _ & Hi).
  destruct s as [|uq name c|ign r]; cbn in *; [exact Ht | | discriminate].
  split; [exact Ht|]. rewrite Hi.
  destruct (indexes d !! name) as [ix|] eqn:Hix.
  - exists ix. now apply lookup_union_Some_l.
  - exists (mk_index uq c). rewrite lookup_union_r by exact Hix.
    apply lookup_singleton_eq.
Qed.

Lemma ddl_done_kept (d d' : database) (s s' : statement) :
  is_dml s' = false -> run_statement d s' = Ok d' -> ddl_done d s -> ddl_done d' s.
Proof.
  intros Hs E Hd. destruct (ddl_effect d d' s' Hs E) as (Ht & _ & Hi).
  destruct s as [|uq name c|ign r]; cbn in *; [exact Ht | | exact Hd].
  split; [exact Ht|]. destruct Hd as [_ [ix Hix]]. rewrite Hi.
  exists ix. now apply lookup_union_Some_l.
Qed.

(** A statement of the schema opens no transaction; outside a
    transaction its effect is durable at once. *)
Lemma execute_ddl_transaction (c : connection) (s : statement) :
  is_dml s = false ->
  in_transaction (fst (execute c s)) = in_transaction c
  /\ (in_transaction c = true -> saved (fst (execute c s)) = saved c)
  /\ (in_transaction c = false ->
      (is_ok (snd (execute c s)) = true \/ saved c = db c) ->
      saved (fst (execute c s)) = db (fst (execute c s))).
Proof.
  intros Hs. unfold execute. rewrite Hs. cbn [andb]. rewrite orb_false_r.
  destruct (run_statement (db c) s); cbn.
  - split; [reflexivity|]. split; intros ->; reflexivity.
  - split; [reflexivity|]. split; [reflexivity|].
    intros _ [H|H]; [discriminate | exact H].
Qed.

Lemma run_script_done (stmts : list statement) (c c1 : connection)
    (r : pyresult unit) (s : statement) :
  forallb (fun s => negb (is_dml s)) stmts = true ->
  run_script stmts c = (c1, r) ->
  ddl_done (db c) s -> ddl_done (db c1) s.
Proof.
  revert c. induction stmts as [|s0 rest IH]; intros c Hall Hrun Hd.
  - cbn in Hrun. injection Hrun as <- _. exact Hd.
  - cbn in Hall. apply andb_true_iff in Hall. destruct Hall as [H0 Hall].
    apply negb_true_iff in H0. cbn [run_script] in Hrun.
    step_execute c s0 c' o Hdb Hres.
    destruct (run_statement (db c) s0) as [d'|e] eqn:E; subst o.
    + apply (IH c' Hall Hrun). rewrite Hdb. eapply ddl_done_kept; eauto.
    + injection Hrun as <- _. now rewrite Hdb.
Qed.

(** Running the statements of a schema again, on the database the first
    run left, ends the same way and changes nothing. *)
Lemma run_script_again (stmts : list statement) (c c1 : connection) (r : pyresult unit) :
  forallb (fun s => negb (is_dml s)) stmts = true ->
  run_script stmts c = (c1, r) ->
  forall c', db c' = db c1 ->
  exists c2, run_script stmts c' = (c2, r) /\ db c2 = db c1.
Proof.
  revert c. induction stmts as [|s0 rest IH]; intros c Hall Hrun c' Hc'.
  - cbn in *. injection Hrun as <- <-. eauto.
  - cbn in Hall. apply andb_true_iff in Hall. destruct Hall as [H0 Hall].
    apply negb_true_iff in H0. cbn [run_script] in *.
    pose proof (execute_db c s0) as Hdb. pose proof (execute_result c s0) as Hres.
    pose proof (execute_db c' s0) as Hdb'. pose proof (execute_result c' s0) as Hres'.
    destruct (execute c s0) as [ca o]. destruct (execute c' s0) as [ca' o'].
    cbn [fst snd] in *.
    destruct (run_statement (db c) s0) as [d'|e] eqn:E; subst o.
    + assert (Hdone : ddl_done (db c1) s0).
      { eapply run_script_done; eauto. rewrite Hdb. eapply ddl_done_after; eauto. }
      rewrite Hc', (ddl_done_noop _ _ Hdone) in Hdb', Hres'. subst o'.
      apply (IH ca Hall Hrun ca' Hdb').
    + injection Hrun as <- <-. rewrite Hc', Hdb, E in Hdb', Hres'. subst o'.
      exists ca'. split; [reflexivity | congruence].
Qed.

Lemma run_script_transaction (stmts : list statement) (c c1 : connection)
    (r : pyresult unit) :
  forallb (fun s => negb (is_dml s)) stmts = true ->
  run_script stmts c = (c1, r) ->
  in_transaction c1 = in_transaction c
  /\ (in_transaction c = true -> saved c1 = saved c)
  /\ (in_transaction c = false -> saved c = db c -> saved c1 = db c1).
Proof.
  revert c. induction stmts as [|s0 rest IH]; intros c Hall Hrun.
  - cbn in Hrun. injection Hrun as <- _. auto.
  - cbn in Hall. apply andb_true_iff in Hall. destruct Hall as [H0 Hall].
    apply negb_true_iff in H0. cbn [run_script] in Hrun.
    destruct (execute_ddl_transaction c s0 H0) as (Htx & Hsv & Hst).
    destruct (execute c s0) as [ca [[]|e]]; cbn [fst snd] in *.
    + destruct (IH ca Hall Hrun) as (IHtx & IHsv & IHst).
      split; [congruence|]. split.
      * intros Ht. rewrite IHsv by congruence. auto.
      * intros Ht Hs. apply IHst; [congruence|]. apply Hst; auto.
    + injection Hrun as <- _. split; [exact Htx|]. split; [exact Hsv|].
      intros Ht Hs. apply Hst; auto.
Qed.

Lemma init_db_script (c : connection) :
  init_db c =
  match run_script init_script c with
  | (c', Ok _) => (commit c', Ok tt)
  | (c', Raise e) => (c', Raise e)
  end.
Proof.
  unfold init_db, init_script, and_then, exec. cbn [run_script].
  destruct (execute c _) as [c1 [[]|e]]; [|reflexivity].
  destruct (execute c1 _) as [c2 [[]|e]]; [|reflexivity].
  destruct (execute c2 _) as [c3 [[]|e]]; [|reflexivity].
  destruct (execute c3 _) as [c4 [[]|e]]; [|reflexivity].
  destruct (execute c4 _) as [c5 [[]|e]]; [|reflexivity].
  destruct (execute c5 _) as [c6 [[]|e]]; reflexivity.
Qed.

Lemma init_script_ddl : forallb (fun s => negb (is_dml s)) init_script = true.
Proof. reflexivity. Qed.

Lemma init_script_cons (c : connection) :
  run_script init_script c =
  match execute c CREATE_TABLE_IF_NOT_EXISTS_emails with
  | (c', Ok _) => run_script (List.tl init_script) c'
  | (c', Raise e) => (c', Raise e)
  end.
Proof. reflexivity. Qed.

(** After the statements of [init_db], and outside a transaction, the
    file holds what the connection sees: CREATE TABLE never raises. *)
Lemma init_script_settled (c c1 : connection) (r : pyresult unit) :
  run_script init_script c = (c1, r) ->
  in_transaction c1 = in_transaction c
  /\ (in_transaction c = true -> saved c1 = saved c)
  /\ (in_transaction c = false -> saved c1 = db c1).
Proof.
  intros Hrun.
  destruct (run_script_transaction _ _ _ _ init_script_ddl Hrun) as (Htx & Hsv & _).
  split; [exact Htx|]. split; [exact Hsv|]. intros Ht.
  rewrite init_script_cons in Hrun.
  destruct (execute_ddl_transaction c CREATE_TABLE_IF_NOT_EXISTS_emails eq_refl)
    as (Htx1 & _ & Hst1).
  pose proof (execute_result c CREATE_TABLE_IF_NOT_EXISTS_emails) as Hres.
  destruct (execute c CREATE_TABLE_IF_NOT_EXISTS_emails) as [ca o]. cbn [fst snd] in *.
  assert (Ho : o = Ok tt).
  { rewrite Hres. cbn. destruct (emails (db c)); reflexivity. }
  rewrite Ho in Hrun, Hst1.
  destruct (run_script_transaction (List.tl init_script) _ _ _ eq_refl Hrun)
    as (_ & _ & Hst).
  apply Hst; [congruence|]. apply Hst1; auto.
Qed.

(** One more call of [init_db] ends as the call before and leaves the
    connection's view and the file as they are. *)
Lemma init_db_again (c c1 : connection) (r : pyresult unit) :
  init_db c = (c1, r) ->
  exists c2, init_db c1 = (c2, r) /\ db c2 = db c1 /\ saved c2 = saved c1.
Proof.
  rewrite !init_db_script.
  destruct (run_script init_script c) as [ca ra] eqn:Hrun.
  destruct (init_script_settled _ _ _ Hrun) as (Htx & Hsv & Hst).
  destruct ra as [[]|e]; intros [= <- <-].
  - destruct (run_script_again _ _ _ _ init_script_ddl Hrun (commit ca) eq_refl)
      as (c2 & Hrun2 & Hdb2).
    rewrite Hrun2. exists (commit c2). cbn. rewrite Hdb2. auto.
  - destruct (run_script_again _ _ _ _ init_script_ddl Hrun ca eq_refl)
      as (c2 & Hrun2 & Hdb2).
    rewrite Hrun2. exists c2. split; [reflexivity|]. split; [exact Hdb2|].
    destruct (init_script_settled _ _ _ Hrun2) as (Htx2 & Hsv2 & Hst2).
    destruct (in_transaction ca) eqn:Eca.
    + now apply Hsv2.
    + rewrite Hst2 by reflexivity. rewrite Hdb2. symmetry. apply Hst. congruence.
Qed.

Lemma init_db_times_again (n : nat) (c c1 : connection) (r : pyresult unit) :
  init_db c = (c1, r) ->
  exists cn, init_db_times (S n) c = (cn, r) /\ db cn = db c1 /\ saved cn = saved c1.
Proof.
  revert c c1 r. induction n as [|n IH]; intros c c1 r Hi.
  - cbn. rewrite Hi. destruct r as [[]|e]; eauto.
  - cbn [init_db_times]. rewrite Hi. destruct r as [[]|e]; [|eauto].
    destruct (init_db_again _ _ _ Hi) as (c2 & Hi2 & Hd2 & Hs2).
    destruct (IH c1 c2 (Ok tt) Hi2) as (cn & Hn & Hdn & Hsn).
    exists cn. split; [exact Hn|]. split; congruence.
Qed.

(** The effect of a run of CREATE INDEX statements that returns. *)
Lemma run_script_indexes (stmts : list statement) (c c1 : connection) :
  forallb is_create_index stmts = true ->
  run_script stmts c = (c1, Ok tt) ->
  table_exists (db c) = true
  /\ stored_rows (db c1) = stored_rows (db c)
  /\ indexes (db c1) = fold_left (fun m s => m ∪ index_of_statement s) stmts
                                 (indexes (db c))
  \/ stmts = [] /\ c1 = c.
Proof.
  revert c. induction stmts as [|s0 rest IH]; intros c Hall Hrun.
  - right. cbn in Hrun. injection Hrun as <-. auto.
  - left. cbn in Hall. apply andb_true_iff in Hall. destruct Hall as [H0 Hall].
    cbn [run_script fold_left] in *.
    step_execute c s0 ca o Hdb Hres.
    destruct (run_statement (db c) s0) as [d'|e] eqn:E; subst o; [|discriminate].
    assert (Hs0 : is_dml s0 = false) by (destruct s0; [discriminate|reflexivity|discriminate]).
    destruct (ddl_effect _ _ _ Hs0 E) as (Ht & Hr & Hi).
    assert (Htc : table_exists (db c) = true).
    { destruct s0 as [|uq name col|]; try discriminate. cbn in E.
      unfold table_exists. destruct (emails (db c)); [reflexivity|discriminate]. }
    destruct (IH ca Hall Hrun) as [(_ & Hr' & Hi') | (-> & ->)].
    + rewrite Hdb in Hr', Hi'. split; [exact Htc|]. split; congruence.
    + cbn. rewrite Hdb. auto.
Qed.

(** When [init_db] returns, the table is there with the rows it had (or
    empty), each index that existed is as it was, the others of the
    schema are created, and all of it is durable. *)
Lemma init_db_effect (c c1 : connection) :
  init_db c = (c1, Ok tt) ->
  emails (db c1) = Some (stored_rows (db c))
  /\ indexes (db c1) = indexes (db c) ∪ schema_indexes
  /\ saved c1 = db c1
  /\ in_transaction c1 = false.
Proof.
  rewrite init_db_script.
  destruct (run_script init_script c) as [ca [[]|e]] eqn:Hrun; [|discriminate].
  intros [= <-]. cbn [db saved in_transaction commit].
  rewrite init_script_cons in Hrun.
  step_execute c CREATE_TABLE_IF_NOT_EXISTS_emails c0 o Hdb Hres.
  destruct (run_statement (db c) CREATE_TABLE_IF_NOT_EXISTS_emails) as [d0|e] eqn:E;
    subst o; [|discriminate].
  destruct (ddl_effect (db c) d0 CREATE_TABLE_IF_NOT_EXISTS_emails eq_refl E)
    as (Ht0 & Hr0 & Hi0).
  destruct (run_script_indexes (List.tl init_script) _ _ eq_refl Hrun)
    as [(_ & Hr & Hi) | (Hnil & _)]; [|discriminate].
  cbn [fold_left index_of_statement List.tl init_script] in Hi. rewrite Hdb in Hr, Hi.
  assert (Hta : table_exists (db ca) = true).
  { eapply (run_script_done (List.tl init_script) c0 ca (Ok tt)
                            CREATE_TABLE_IF_NOT_EXISTS_emails);
      [reflexivity | exact Hrun | cbn; now rewrite Hdb]. }
  split; [|split; [|auto]].
  - unfold table_exists in Hta. rewrite <- Hr0, <- Hr. unfold stored_rows.
    destruct (emails (db ca)); [reflexivity | discriminate].
  - rewrite Hi, Hi0. cbn [index_of_statement]. rewrite (right_id_L ∅ (∪)).
    unfold schema_indexes. now rewrite !(assoc_L (∪)).
Qed.

Lemma run_script_cons (s : statement) (rest : list statement) (c : connection) :
  run_script (s :: rest) c =
  match execute c s with
  | (c', Ok _) => run_script rest c'
  | (c', Raise e) => (c', Raise e)
  end.
Proof. reflexivity. Qed.

(** On an existing table, CREATE INDEX statements that are not UNIQUE
    all return. *)
Lemma run_script_plain_indexes (stmts : list statement) (c : connection) :
  table_exists (db c) = true ->
  Forall (fun s => exists name col, s = CREATE_INDEX_IF_NOT_EXISTS false name col) stmts ->
  exists c1, run_script stmts c = (c1, Ok tt).
Proof.
  intros Ht Hall. revert c Ht.
  induction Hall as [|s0 rest (name & col & ->) _ IH]; intros c Ht; [cbn; eauto|].
  rewrite run_script_cons.
  step_execute c (CREATE_INDEX_IF_NOT_EXISTS false name col) ca o Hdb Hres.
  assert (E : exists d', run_statement (db c) (CREATE_INDEX_IF_NOT_EXISTS false name col)
                         = Ok d').
  { cbn. unfold table_exists in Ht. destruct (emails (db c)); [|discriminate].
    destruct (indexes (db c) !! name); eauto. }
  destruct E as (d' & E). rewrite E in Hdb, Hres. subst o.
  apply IH. rewrite Hdb.
  now destruct (ddl_effect _ _ (CREATE_INDEX_IF_NOT_EXISTS false name col) eq_refl E).
Qed.

(** [init_db] raises in one case only: the index on [message_id] is to
    be created and the table holds a [message_id] twice. *)
Lemma init_db_raises (c c1 : connection) (e : exn) :
  init_db c = (c1, Raise e) ->
  e = IntegrityError
  /\ indexes (db c) !! "idx_message_id" = None
  /\ has_duplicates col_message_id (stored_rows (db c)) = true.
Proof.
  rewrite init_db_script.
  destruct (run_script init_script c) as [ca [[]|e']] eqn:Hrun; [discriminate|].
  intros [= <- <-].
  rewrite init_script_cons in Hrun.
  step_execute c CREATE_TABLE_IF_NOT_EXISTS_emails c0 o Hdb Hres.
  destruct (run_statement (db c) CREATE_TABLE_IF_NOT_EXISTS_emails) as [d0|e0] eqn:E.
  2:{ cbn in E. destruct (emails (db c)); discriminate. }
  subst o.
  destruct (ddl_effect (db c) d0 CREATE_TABLE_IF_NOT_EXISTS_emails eq_refl E)
    as (Ht0 & Hr0 & Hi0).
  cbn [index_of_statement] in Hi0. rewrite (right_id_L ∅ (∪)) in Hi0.
  cbn [List.tl init_script] in Hrun. rewrite run_script_cons in Hrun.
  step_execute c0 (CREATE_INDEX_IF_NOT_EXISTS true "idx_message_id" col_message_id)
               ca1 o1 Hdb1 Hres1.
  destruct (run_statement (db c0)
              (CREATE_INDEX_IF_NOT_EXISTS true "idx_message_id" col_message_id))
    as [d1|e1] eqn:E1; subst o1.
  - exfalso.
    destruct (ddl_effect _ _ (CREATE_INDEX_IF_NOT_EXISTS true "idx_message_id"
                                                         col_message_id) eq_refl E1)
      as (Ht1 & _).
    destruct (run_script_plain_indexes
                [CREATE_INDEX_IF_NOT_EXISTS false "idx_date_day" col_date_day;
                 CREATE_INDEX_IF_NOT_EXISTS false "idx_from" col_from_addr;
                 CREATE_INDEX_IF_NOT_EXISTS false "idx_to" col_to_addr;
                 CREATE_INDEX_IF_NOT_EXISTS false "idx_subject" col_subject] ca1)
      as (cz & Hz).
    + now rewrite Hdb1.
    + repeat constructor; eauto.
    + rewrite Hz in Hrun. discriminate.
  - injection Hrun as _ <-.
    rewrite Hdb in E1. cbn in E1. unfold table_exists in Ht0. unfold stored_rows in *.
    rewrite Hi0 in E1.
    destruct (emails d0) as [rows|]; [|discriminate]. rewrite <- Hr0.
    destruct (indexes (db c) !! "idx_message_id"); [discriminate|].
    destruct (has_duplicates col_message_id rows); [|discriminate].
    injection E1 as <-. auto.
Qed.

(** ** C9 *)

(** C9. [init_db] is idempotent.  Called [n + 1] times on a connection
    it ends as one call does and leaves the same database, in the
    connection's view and in the file.  When it returns, the [emails]
    table exists with the rows it had (none if it was absent), every
    index that existed is untouched, the unique index on [message_id] and
    the indexes on [date_day], [from_addr], [to_addr] and [subject] are
    created where their names were free, and the result is durable.  On
    a store that has the table and the five names, it returns and
    changes nothing.  It raises only where the unique index is still to
    be created and the table holds a [message_id] twice. *)
Theorem C9_init_db_idempotent (c : connection) (n : nat) :
  (exists cn,
      init_db_times (S n) c = (cn, snd (init_db c))
      /\ db cn = db (fst (init_db c))
      /\ saved cn = saved (fst (init_db c)))
  /\ (snd (init_db c) = Ok tt ->
      emails (db (fst (init_db c))) = Some (stored_rows (db c))
      /\ indexes (db (fst (init_db c))) = indexes (db c) ∪ schema_indexes
      /\ saved (fst (init_db c)) = db (fst (init_db c)))
  /\ (table_exists (db c) = true ->
      (forall s, In s init_script -> ddl_done (db c) s) ->
      snd (init_db c) = Ok tt /\ db (fst (init_db c)) = db c)
  /\ (forall e, snd (init_db c) = Raise e ->
      e = IntegrityError
      /\ indexes (db c) !! "idx_message_id" = None
      /\ has_duplicates col_message_id (stored_rows (db c)) = true).
Proof.
  destruct (init_db c) as [c1 r] eqn:Hi. cbn [fst snd].
  split; [now apply init_db_times_again|]. split; [|split].
  - intros ->. destruct (init_db_effect _ _ Hi) as (He & Hx & Hs & _). auto.
  - intros Ht Hdone.
    assert (Hnoop : forall stmts c0,
               (forall s, In s stmts -> ddl_done (db c0) s) ->
               exists c', run_script stmts c0 = (c', Ok tt) /\ db c' = db c0).
    { induction stmts as [|s0 rest IH]; intros c0 Hd; [cbn; eauto|].
      cbn [run_script].
      pose proof (execute_db c0 s0) as Hdb. pose proof (execute_result c0 s0) as Hres.
      rewrite (ddl_done_noop _ _ (Hd s0 (or_introl eq_refl))) in Hdb, Hres.
      destruct (execute c0 s0) as [ca o]. cbn [fst snd] in *. subst o.
      destruct (IH ca) as (c' & Hr & Hd').
      { intros s Hin. rewrite Hdb. apply Hd. now right. }
      exists c'. split; [exact Hr | congruence]. }
    destruct (Hnoop init_script c Hdone) as (c' & Hr & Hd').
    rewrite init_db_script, Hr in Hi. injection Hi as <- <-. auto.
  - intros e ->. eapply init_db_raises; eauto.
Qed.

(* ================================================================== *)
(** * [ingest] *)
(* ================================================================== *)

Lemma last_snoc {A : Type} (l : list A) (x : A) :
  List.last (List.map Some (l ++ [x])) None = Some x.
Proof. rewrite List.map_app. cbn. apply List.last_last. Qed.

Section PipelineFacts.
Context {lib : PyLib}.

(** The loop of [ingest], when it runs to the end: every message gave a
    row, and flushing what is then pending leaves what attempting all the
    rows in order leaves, with the same counts. *)
Lemma ingest_loop_spec (msgs : list email.message) (store_preview : bool) :
  forall (i : nat) (st st' : locals),
    ingest_loop msgs i store_preview st = (st', Ok tt) ->
    saved (conn st) = db (conn st) ->
    (exists l, log (conn st) = l ++ [Commit]) ->
    exists rows,
      Forall2 (fun m r => build_row m store_preview = Ok r) msgs rows
      /\ fst (attempt_all (db (conn st')) (batch st'))
         = fst (attempt_all (db (conn st)) (batch st ++ rows))
      /\ (inserted st' + succeeded (snd (attempt_all (db (conn st')) (batch st')))
          = inserted st
            + succeeded (snd (attempt_all (db (conn st)) (batch st ++ rows))))%nat
      /\ (skipped st' + failed (snd (attempt_all (db (conn st')) (batch st')))
          = skipped st
            + failed (snd (attempt_all (db (conn st)) (batch st ++ rows))))%nat
      /\ saved (conn st') = db (conn st')
      /\ (exists l, log (conn st') = l ++ [Commit]).
Proof.
  induction msgs as [|msg rest IH]; intros i st st' Hrun Hsv Hlog.
  - cbn in Hrun. injection Hrun as <-. exists []. rewrite app_nil_r.
    repeat split; auto.
  - cbn [ingest_loop] in Hrun.
    destruct (build_row msg store_preview) as [row|e] eqn:Hrow; [|discriminate].
    destruct (BATCH_SIZE <=? length (batch st ++ [row]))%nat.
    + destruct (flush_batch_spec (conn st) (batch st ++ [row]))
        as (c1 & Hf & Hd & Hs & _ & Hl).
      rewrite Hf in Hrun.
      apply IH in Hrun; cbn [conn batch inserted skipped]; [|exact Hs|].
      2:{ rewrite Hl, !app_assoc. eauto. }
      destruct Hrun as (rows & Hrows & Hdb & Hins & Hskp & Hsv' & Hlog').
      cbn [conn batch inserted skipped app] in *.
      exists (row :: rows). split; [now constructor|].
      replace (batch st ++ row :: rows) with ((batch st ++ [row]) ++ rows)
        by (now rewrite <- app_assoc).
      rewrite attempt_all_app. cbn [fst snd].
      rewrite succeeded_app, failed_app, <- Hd.
      repeat split; auto; lia.
    + apply IH in Hrun; cbn [conn batch inserted skipped]; [|exact Hsv|exact Hlog].
      destruct Hrun as (rows & Hrows & Hdb & Hins & Hskp & Hsv' & Hlog').
      cbn [conn batch inserted skipped] in *.
      exists (row :: rows). split; [now constructor|].
      replace (batch st ++ row :: rows) with ((batch st ++ [row]) ++ rows)
        by (now rewrite <- app_assoc).
      repeat split; auto.
Qed.

(** A run that returns: the schema was set up, every message gave a
    row, the file and the totals of the summary line are those of one
    flush of all the rows, the last call on the connection is a commit,
    and the value returned is [None]. *)
Lemma ingest_spec (mbox : list email.message) (file : database) (db_path : pystr)
    (store_preview : bool) (v : pyvalue) :
  returned (ingest mbox file db_path store_preview) = Ok v ->
  v = PyNone
  /\ exists conn1 rows,
       init_db (connect file) = (conn1, Ok tt)
       /\ Forall2 (fun m r => build_row m store_preview = Ok r) mbox rows
       /\ file_after (ingest mbox file db_path store_preview)
          = close (fst (flush_batch conn1 rows))
       /\ (exists before,
              printed (ingest mbox file db_path store_preview)
              = before ++ [Done (fst (snd (flush_batch conn1 rows)))
                                (snd (snd (flush_batch conn1 rows))) db_path])
       /\ (exists l, calls (ingest mbox file db_path store_preview) = l ++ [Commit]).
Proof.
  unfold ingest.
  destruct (init_db (connect file)) as [conn1 [[]|e]] eqn:Hinit; [|discriminate].
  destruct (init_db_effect _ _ Hinit) as (_ & _ & Hsv1 & _).
  assert (Hlog1 : exists l, log conn1 = l ++ [Commit]).
  { rewrite init_db_script in Hinit.
    destruct (run_script init_script (connect file)) as [ca [[]|e]]; [|discriminate].
    injection Hinit as <-. cbn. eauto. }
  destruct (ingest_loop mbox 0 store_preview (mk_locals conn1 [] 0 0 []))
    as [st [[]|e]] eqn:Hloop; [|discriminate].
  destruct (ingest_loop_spec _ _ _ _ _ Hloop Hsv1 Hlog1)
    as (rows & Hrows & Hdb & Hins & Hskp & Hsv & Hlog).
  cbn [conn batch inserted skipped app] in *.
  destruct (flush_batch_spec conn1 rows) as (cf & Hff & Hdf & Hsf & _).
  intros [= <-]. split; [reflexivity|].
  exists conn1, rows. split; [reflexivity|]. split; [exact Hrows|].
  rewrite Hff. cbn [fst snd close].
  destruct (truthy (batch st)) eqn:Hb.
  - destruct (flush_batch_spec (conn st) (batch st)) as (c' & Hf & Hd & Hs & _ & Hl).
    rewrite Hf. cbn [conn stdout inserted skipped file_after printed calls].
    unfold close. split; [congruence|]. split.
    + exists (stdout st). rewrite Hins, Hskp. reflexivity.
    + rewrite Hl. rewrite app_assoc. eauto.
  - destruct (batch st); [|discriminate]. cbn in Hdb, Hins, Hskp.
    cbn [file_after printed calls]. unfold close.
    split; [congruence|]. split; [|exact Hlog].
    exists (stdout st). unfold succeeded, failed in Hins, Hskp. cbn in Hins, Hskp.
    rewrite Nat.add_0_r in Hins, Hskp. rewrite Hins, Hskp. reflexivity.
Qed.

(** ** C4 *)

(** C4, as amended.  [ingest] returns no value: a run that comes to its
    end returns [None].  The final totals go to the summary line it
    prints last.  They are the totals over all the messages of the
    source, and the file is as after one flush of all their rows: the
    partial batch left when the stream is exhausted has been flushed,
    and the last call on the connection is a commit. *)
Theorem C4_ingest_prints_totals_and_returns_None
    (mbox : list email.message) (file : database) (db_path : pystr)
    (store_preview : bool) (v : pyvalue) :
  returned (ingest mbox file db_path store_preview) = Ok v ->
  v = PyNone
  /\ exists conn1 rows,
       init_db (connect file) = (conn1, Ok tt)
       /\ Forall2 (fun m r => build_row m store_preview = Ok r) mbox rows
       /\ file_after (ingest mbox file db_path store_preview)
          = close (fst (flush_batch conn1 rows))
       /\ reported_totals (ingest mbox file db_path store_preview)
          = Some (snd (flush_batch conn1 rows))
       /\ (exists l, calls (ingest mbox file db_path store_preview) = l ++ [Commit]).
Proof.
  intros Hret. destruct (ingest_spec _ _ _ _ _ Hret)
    as (Hv & conn1 & rows & Hi & Hrows & Hfile & (before & Hp) & Hcalls).
  split; [exact Hv|]. exists conn1, rows.
  repeat split; auto.
  unfold reported_totals. rewrite Hp, last_snoc.
  now destruct (snd (flush_batch conn1 rows)).
Qed.

(** ** C10 *)

(** C10. Every record of a batch adds one to exactly one of the two
    counters of [flush_batch]: they count the INSERTs that returned and
    those that raised, and their sum is the size of the batch.  At the
    end of a run the totals of the summary line add up to the number of
    messages of the source. *)
Theorem C10_counters_conserve_records :
  (forall (c : connection) (batch : list row),
      exists os : list (pyresult unit),
        length os = length batch
        /\ snd (flush_batch c batch) = (succeeded os, failed os)
        /\ (fst (snd (flush_batch c batch)) + snd (snd (flush_batch c batch))
            = length batch)%nat)
  /\ (forall (mbox : list email.message) (file : database) (db_path : pystr)
             (store_preview : bool) (v : pyvalue),
        returned (ingest mbox file db_path store_preview) = Ok v ->
        exists i s,
          reported_totals (ingest mbox file db_path store_preview) = Some (i, s)
          /\ (i + s = length mbox)%nat).
Proof.
  split.
  - intros c batch. exists (snd (attempt_all (db c) batch)).
    split; [apply length_attempt_all|]. split.
    + destruct (flush_batch_spec c batch) as (c' & Hf & _). now rewrite Hf.
    + apply flush_batch_conserves.
  - intros mbox file db_path store_preview v Hret.
    destruct (ingest_spec _ _ _ _ _ Hret)
      as (_ & conn1 & rows & _ & Hrows & _ & (before & Hp) & _).
    exists (fst (snd (flush_batch conn1 rows))), (snd (snd (flush_batch conn1 rows))).
    split.
    + unfold reported_totals. now rewrite Hp, last_snoc.
    + rewrite flush_batch_conserves. symmetry. eapply Forall2_length; eauto.
Qed.

End PipelineFacts.

(* ================================================================== *)
(** * The pipeline on concrete input *)
(* ================================================================== *)

Example fresh_connection_schema :
  emails (db fresh_connection) = Some []
  /\ indexes (db fresh_connection) = schema_indexes
  /\ saved fresh_connection = db fresh_connection.
Proof. vm_compute. repeat split; reflexivity. Qed.

(** Two records with the empty key, flushed into a new store: one row,
    one record inserted, one skipped. *)
Example flush_two_empty_keys :
  stored_rows (db (fst (flush_batch fresh_connection [row_c; row_c])))
  = [mk_stored 1 row_c]
  /\ snd (flush_batch fresh_connection [row_c; row_c]) = (1, 1)%nat.
Proof. vm_compute. split; reflexivity. Qed.

(** A duplicate with a key is ignored and counted as inserted; the
    failure in the middle of the batch does not stop the loop. *)
Example flush_mixed_batch :
  stored_rows (saved (fst (flush_batch fresh_connection [row_c; row_c; row_a; row_a])))
  = [mk_stored 1 row_c; mk_stored 2 row_a]
  /\ snd (flush_batch fresh_connection [row_c; row_c; row_a; row_a]) = (3, 1)%nat.
Proof. vm_compute. split; reflexivity. Qed.

(** A second [init_db] on an initialised store returns and changes
    nothing. *)
Example init_db_twice :
  snd (init_db fresh_connection) = Ok tt
  /\ db (fst (init_db fresh_connection)) = db fresh_connection
  /\ saved (fst (init_db fresh_connection)) = saved fresh_connection.
Proof. vm_compute. repeat split; reflexivity. Qed.

(** A table that holds a key twice and has no index yet: [init_db]
    raises. *)
Example init_db_on_duplicates :
  snd (init_db (connect (mk_database (Some [mk_stored 1 row_a; mk_stored 2 row_a]) ∅)))
  = Raise IntegrityError.
Proof. vm_compute. reflexivity. Qed.

Lemma C1_witness :
  emails (db fresh_connection) = Some []
  /\ indexes (db fresh_connection) !! "idx_message_id"
     = Some (mk_index true col_message_id)
  /\ message_id row_c = []
  /\ ((length (stored_rows (db (fst (flush_batch fresh_connection [row_c; row_c]))))
       <= length (@nil stored) + 1)%nat
      /\ (1 <= snd (snd (flush_batch fresh_connection [row_c; row_c])))%nat
      /\ (fst (snd (flush_batch fresh_connection [row_c; row_c])) <= 1)%nat).
Proof.
  split; [vm_compute; reflexivity|].
  split; [vm_compute; reflexivity|].
  split; [reflexivity|].
  apply (C1_empty_message_id_is_not_exempt fresh_connection [] row_c row_c).
  - vm_compute; reflexivity.
  - vm_compute; reflexivity.
  - reflexivity.
  - reflexivity.
Defined.

(** C2, as amended.  The three messages of the scenario, ingested into
    a new store, leave two rows: the one of [<a@x>], with subject [Hi],
    [date_iso] 2024-01-01T10:00:00+00:00 and [date_day] 2024-01-01, and
    the one of the message without key, with both dates empty.  The
    summary line reports inserted=3 and skipped=0: the duplicate goes
    through INSERT OR IGNORE, which returns, and is counted as
    inserted. *)
Theorem C2_scenario_two_rows_three_inserted (db_path : pystr) (store_preview : bool) :
  exists ra rc : stored,
    stored_rows (file_after (ingest (lib := CPython.lib) scenario_mbox empty_database
                                    db_path store_preview)) = [ra; rc]
    /\ message_id (cells ra) = u "<a@x>"
    /\ subject (cells ra) = u "Hi"
    /\ date_iso (cells ra) = u "2024-01-01T10:00:00+00:00"
    /\ date_day (cells ra) = u "2024-01-01"
    /\ message_id (cells rc) = []
    /\ date_iso (cells rc) = []
    /\ date_day (cells rc) = []
    /\ printed (ingest (lib := CPython.lib) scenario_mbox empty_database
                       db_path store_preview) = [Done 3 0 db_path]
    /\ reported_totals (ingest (lib := CPython.lib) scenario_mbox empty_database
                               db_path store_preview) = Some (3, 0)%nat.
Proof.
  destruct store_preview; vm_compute; do 2 eexists; repeat split; reflexivity.
Qed.

(** C2 as worded fails: the store holds the two rows, but the totals
    reported are not inserted=2 and skipped=1. *)
Lemma C2_totals_are_not_2_and_1 :
  ~ (length (stored_rows (file_after scenario_run)) = 2%nat
     /\ reported_totals scenario_run = Some (2, 1)%nat).
Proof. vm_compute. intros [_ H]. discriminate H. Qed.

(** C4 as worded fails: the run of the scenario reports the totals
    (3, 0) and returns [None], not a pair. *)
Lemma C4_ingest_returns_no_pair :
  reported_totals scenario_run = Some (3, 0)%nat
  /\ ~ (exists i s : nat, returned scenario_run = Ok (PyTuple2 i s)).
Proof.
  vm_compute. split; [reflexivity|]. intros (i & s & H). discriminate H.
Qed.

Lemma C4_witness :
  returned scenario_run = Ok PyNone
  /\ (PyNone = PyNone
      /\ exists conn1 rows,
           init_db (connect empty_database) = (conn1, Ok tt)
           /\ Forall2 (fun m r => build_row (lib := CPython.lib) m true = Ok r)
                      scenario_mbox rows
           /\ file_after scenario_run = close (fst (flush_batch conn1 rows))
           /\ reported_totals scenario_run = Some (snd (flush_batch conn1 rows))
           /\ (exists l, calls scenario_run = l ++ [Commit])).
Proof.
  split; [vm_compute; reflexivity|].
  apply (C4_ingest_prints_totals_and_returns_None (lib := CPython.lib)
           scenario_mbox empty_database (u "mail.sqlite") true PyNone).
  vm_compute. reflexivity.
Defined.


(* ================================================================== *)
(** * More on the normalizer *)
(* ================================================================== *)

(** [ecre] only matches at a [=?]. *)
Lemma ecre_match_needs_marker (s : pystr) :
  startswith (u "=?") s = false -> CPython.ecre_match s = None.
Proof.
  intros H. destruct s as [|c0 s]; [reflexivity|].
  unfold CPython.ecre_match.
  destruct c0 as [|p]; [reflexivity|].
  do 6 (destruct p as [p|p|]; try reflexivity).
  destruct s as [|c1 s]; [reflexivity|].
  destruct c1 as [|p]; [reflexivity|].
  do 6 (destruct p as [p|p|]; try reflexivity).
  cbn in H. discriminate H.
Qed.

Lemma find_from_none_tail (p s : pystr) (c : codepoint) (i : nat) :
  find_from p (c :: s) i = None ->
  startswith p (c :: s) = false /\ find_from p s (S i) = None.
Proof.
  cbn [find_from]. destruct (startswith p (c :: s)); [discriminate|auto].
Qed.

Lemma ecre_search_without_marker (s : pystr) :
  contains (u "=?") s = false -> CPython.ecre_search s = false.
Proof.
  unfold contains, find. generalize 0%nat.
  induction s as [|c s IH]; intros i H.
  - reflexivity.
  - destruct (find_from (u "=?") (c :: s) i) eqn:E; [discriminate|].
    apply find_from_none_tail in E. destruct E as [Hs Ht].
    cbn [CPython.ecre_search]. rewrite (ecre_match_needs_marker _ Hs).
    apply (IH (S i)). now rewrite Ht.
Qed.

(** X1. A header value that holds no [=?] holds no encoded word: with
    the reference library, [decode_mime_header] returns it unchanged,
    whatever characters it is made of. *)
Theorem X1_header_without_encoded_word_is_unchanged (value : pystr) :
  contains (u "=?") value = false ->
  decode_mime_header (lib := CPython.lib) value = Ok value.
Proof.
  intros H. apply decode_mime_header_plain. cbn.
  unfold CPython.decode_header. now rewrite (ecre_search_without_marker _ H).
Qed.

Lemma X1_witness :
  contains (u "=?") (u "Alice <alice@example.org>") = false
  /\ decode_mime_header (lib := CPython.lib) (u "Alice <alice@example.org>")
     = Ok (u "Alice <alice@example.org>").
Proof.
  split; [reflexivity|].
  apply (X1_header_without_encoded_word_is_unchanged (u "Alice <alice@example.org>")).
  reflexivity.
Defined.

Section MoreNormalizerFacts.
Context {lib : PyLib}.

Lemma decode_parts_spec (chunks : list (chunk_text * option pystr))
    (acc parts : list pystr) :
  decode_parts chunks acc = Ok parts <->
  exists texts, Forall2 chunk_decodes chunks texts /\ parts = acc ++ texts.
Proof.
  revert acc. induction chunks as [|[t enc] chunks IH]; intros acc; cbn [decode_parts].
  - split.
    + intros [= <-]. exists []. split; [constructor | now rewrite app_nil_r].
    + intros (texts & HF & ->). inversion HF. now rewrite app_nil_r.
  - destruct t as [s|d].
    + rewrite IH. split.
      * intros (texts & HF & ->). exists (s :: texts). split.
        -- constructor; [reflexivity | exact HF].
        -- now rewrite <- app_assoc.
      * intros (texts & HF & ->). inversion HF as [|c0 t0 cs ts Hc HF']; subst.
        unfold chunk_decodes in Hc. cbn [fst snd] in Hc. subst t0.
        exists ts. split; [exact HF' | now rewrite <- app_assoc].
    + destruct (bytes_decode d (or_str enc (u "utf-8"))) as [t|e] eqn:E; cbn [Py.bind].
      * rewrite IH. split.
        -- intros (texts & HF & ->). exists (t :: texts). split.
           ++ constructor; [exact E | exact HF].
           ++ now rewrite <- app_assoc.
        -- intros (texts & HF & ->). inversion HF as [|c0 t0 cs ts Hc HF']; subst.
           unfold chunk_decodes in Hc. cbn [fst snd] in Hc. rewrite E in Hc. injection Hc as <-.
           exists ts. split; [exact HF' | now rewrite <- app_assoc].
      * split; [discriminate|].
        intros (texts & HF & _). inversion HF as [|c0 t0 cs ts Hc HF']; subst.
        unfold chunk_decodes in Hc. cbn [fst snd] in Hc. rewrite E in Hc. discriminate.
Qed.

(** X2. [decode_mime_header] returns the text [s] exactly when the value
    is empty and so is [s], or [decode_header] splits the value into
    chunks that all decode, and [s] is the texts of the chunks joined in
    order: a [str] chunk stands for itself, a [bytes] chunk for its bytes
    under the declared charset, UTF-8 when none (or the empty name) is
    declared. *)
Theorem X2_decode_mime_header_joins_chunks (value s : pystr) :
  decode_mime_header value = Ok s <->
  (value = [] /\ s = [])
  \/ (value <> []
      /\ exists chunks texts,
           decode_header value = Ok chunks
           /\ Forall2 chunk_decodes chunks texts
           /\ s = List.concat texts).
Proof.
  unfold decode_mime_header. destruct value as [|c value]; cbn [truthy negb].
  - split.
    + intros [= <-]. now left.
    + intros [[_ ->] | [H _]]; [reflexivity | congruence].
  - split.
    + intros H. right. split; [discriminate|].
      destruct (decode_header (c :: value)) as [chunks|e]; [|discriminate].
      cbn [Py.bind] in H.
      destruct (decode_parts chunks []) as [parts|e] eqn:E; [|discriminate].
      injection H as <-. apply decode_parts_spec in E.
      destruct E as (texts & HF & ->). exists chunks, texts. auto.
    + intros [[H _] | (_ & chunks & texts & Hd & HF & ->)]; [discriminate|].
      rewrite Hd. cbn [Py.bind].
      assert (E : decode_parts chunks [] = Ok texts).
      { apply decode_parts_spec. exists texts. auto. }
      rewrite E. reflexivity.
Qed.

(** The preview is never longer than the limit. *)
Lemma length_preview (msg : email.message) (limit : Z) :
  0 <= limit -> Z.of_nat (length (get_plain_text_preview msg limit)) <= limit.
Proof.
  intros Hl. unfold get_plain_text_preview.
  destruct (email.is_multipart msg).
  - rewrite preview_of_parts_find.
    destruct (List.find plain_inline_nonempty (email.walk msg)); [|cbn; lia].
    now apply length_part_text.
  - destruct (email.get_payload_decode msg) as [data|]; [|cbn; lia].
    destruct (truthy data); [|cbn; lia].
    destruct (bytes_decode data _); cbn; [|lia].
    now apply length_slice_to.
Qed.

Lemma build_row_preview (msg : email.message) (store_preview : bool) (r : row) :
  build_row msg store_preview = Ok r ->
  (length (body_preview r) <= 2000)%nat
  /\ (store_preview = false -> body_preview r = []).
Proof.
  unfold build_row. destruct (date_columns _) as [iso day].
  destruct (decode_mime_header _); [|discriminate].
  destruct (decode_mime_header _); [|discriminate].
  destruct (decode_mime_header _); [|discriminate].
  destruct (decode_mime_header _); [|discriminate].
  cbn. intros [= <-]. cbn. split.
  - destruct store_preview; [|cbn; lia].
    pose proof (length_preview msg 2000 ltac:(lia)). lia.
  - now intros ->.
Qed.

(** X3. The preview stored with a row is bounded: every row [ingest]
    builds has a [body_preview] of at most 2000 characters, and an empty
    one when previews are switched off. *)
Theorem X3_body_preview_is_bounded (msg : email.message) (store_preview : bool) (r : row) :
  build_row msg store_preview = Ok r ->
  (length (body_preview r) <= 2000)%nat
  /\ (store_preview = false -> body_preview r = []).
Proof. apply build_row_preview. Qed.

(** X4. A message that is not multipart gets its decoded payload as
    preview whatever its content type and disposition say, while the same
    part inside a multipart container is passed over unless it is
    [text/plain] and not an attachment. *)
Theorem X4_single_part_preview_ignores_type_and_disposition
    (part : email.message) (data : bytes) (limit : Z)
    (hs : list (pystr * pystr)) (ct : pystr) (cs : option pystr) :
  email.payload part = email.Leaf data ->
  truthy data = true ->
  plain_inline part = false ->
  get_plain_text_preview part limit = part_text part limit
  /\ get_plain_text_preview (email.Message hs ct cs (email.Parts [part])) limit = [].
Proof.
  intros Hp Hd Hpi. split.
  - unfold get_plain_text_preview, part_text, email.is_multipart, email.get_payload_decode.
    rewrite Hp, Hd. destruct (bytes_decode data _); reflexivity.
  - unfold get_plain_text_preview. cbn [email.is_multipart email.payload].
    rewrite preview_of_parts_find. cbn [email.walk email.payload flat_map].
    rewrite app_nil_r.
    assert (Hw : email.walk part = [part]).
    { destruct part as [h c0 c1 p]. cbn in Hp. subst p. reflexivity. }
    rewrite Hw. cbn [List.find].
    unfold plain_inline_nonempty at 1.
    cbn [email.get_payload_decode email.payload]. rewrite andb_false_r.
    unfold plain_inline_nonempty. rewrite Hpi. reflexivity.
Qed.



End MoreNormalizerFacts.

Lemma X4_witness :
  email.payload (email.Message [(u "Content-Disposition", u "attachment; filename=a.txt")]
                               (u "text/html") None (email.Leaf (b "<p>hi</p>")))
  = email.Leaf (b "<p>hi</p>")
  /\ truthy (b "<p>hi</p>") = true
  /\ plain_inline (email.Message [(u "Content-Disposition", u "attachment; filename=a.txt")]
                                 (u "text/html") None (email.Leaf (b "<p>hi</p>"))) = false
  /\ (get_plain_text_preview (lib := CPython.lib)
        (email.Message [(u "Content-Disposition", u "attachment; filename=a.txt")]
                       (u "text/html") None (email.Leaf (b "<p>hi</p>"))) 2000
      = part_text (lib := CPython.lib)
          (email.Message [(u "Content-Disposition", u "attachment; filename=a.txt")]
                         (u "text/html") None (email.Leaf (b "<p>hi</p>"))) 2000
      /\ get_plain_text_preview (lib := CPython.lib)
           (email.Message [] (u "multipart/mixed") None
              (email.Parts
                 [email.Message [(u "Content-Disposition", u "attachment; filename=a.txt")]
                                (u "text/html") None (email.Leaf (b "<p>hi</p>"))])) 2000
         = []).
Proof.
  split; [reflexivity|]. split; [reflexivity|]. split; [reflexivity|].
  apply (X4_single_part_preview_ignores_type_and_disposition (lib := CPython.lib)
           _ (b "<p>hi</p>") 2000 [] (u "multipart/mixed") None);
    reflexivity.
Defined.

Lemma X3_witness :
  build_row (lib := CPython.lib) message_a true = Ok row_a
  /\ ((length (body_preview row_a) <= 2000)%nat
      /\ (true = false -> body_preview row_a = [])).
Proof.
  split; [vm_compute; reflexivity|].
  apply (X3_body_preview_is_bounded (lib := CPython.lib) message_a true row_a).
  vm_compute. reflexivity.
Defined.

(* ================================================================== *)
(** * More on the store and the batches *)
(* ================================================================== *)





(* ---- ingest: skipped only counts keyless ---- *)


Section MorePipelineFacts.
Context {lib : PyLib}.




End MorePipelineFacts.


(* ================================================================== *)
(** * Runs, one after the other *)
(* ================================================================== *)

Lemma init_db_noop (c : connection) :
  (forall s, In s init_script -> ddl_done (db c) s) ->
  exists c', init_db c = (c', Ok tt) /\ db c' = db c /\ saved c' = db c.
Proof.
  intros Hdone.
  assert (Hnoop : forall stmts c0,
             (forall s, In s stmts -> ddl_done (db c0) s) ->
             exists c', run_script stmts c0 = (c', Ok tt) /\ db c' = db c0).
  { induction stmts as [|s0 rest IH]; intros c0 Hd; [cbn; eauto|].
    rewrite run_script_cons.
    pose proof (execute_db c0 s0) as Hdb. pose proof (execute_result c0 s0) as Hres.
    rewrite (ddl_done_noop _ _ (Hd s0 (or_introl eq_refl))) in Hdb, Hres.
    destruct (execute c0 s0) as [ca o]. cbn [fst snd] in *. subst o.
    destruct (IH ca) as (c' & Hr & Hd').
    { intros s Hin. rewrite Hdb. apply Hd. now right. }
    exists c'. split; [exact Hr | congruence]. }
  destruct (Hnoop init_script c Hdone) as (c' & Hr & Hd').
  rewrite init_db_script, Hr. exists (commit c'). cbn. auto.
Qed.

Lemma schema_names_present (m : gmap string index_def) (s : statement) :
  In s init_script -> is_create_index s = true ->
  exists name uq col, s = CREATE_INDEX_IF_NOT_EXISTS uq name col
                      /\ is_Some ((m ∪ schema_indexes) !! name).
Proof.
  intros Hin Hci. cbn in Hin.
  repeat (destruct Hin as [<-|Hin]; [try discriminate Hci|]); try contradiction.
  all: do 3 eexists; split; [reflexivity|]; rewrite lookup_union;
    destruct (m !! _); [eexists; reflexivity|]; vm_compute; eexists; reflexivity.
Qed.

(** A database with the table and the indexes a returned [init_db] left
    needs no statement of the schema. *)
Lemma initialised_is_done (c c1 : connection) (d : database) :
  init_db c = (c1, Ok tt) ->
  table_exists d = true ->
  indexes d = indexes (db c1) ->
  forall s, In s init_script -> ddl_done d s.
Proof.
  intros Hi Ht Hx s Hin.
  destruct (init_db_effect _ _ Hi) as (_ & Hidx & _).
  destruct (is_create_index s) eqn:Hci.
  - destruct (schema_names_present (indexes (db c)) s Hin Hci)
      as (name & uq & col & -> & Hsome).
    cbn. split; [exact Ht|]. now rewrite Hx, Hidx.
  - cbn in Hin. repeat (destruct Hin as [<-|Hin]; try discriminate Hci);
      [exact Ht | contradiction].
Qed.

Section RunFacts.
Context {lib : PyLib}.

Lemma ingest_loop_ok (msgs : list email.message) (rows : list row)
    (store_preview : bool) :
  Forall2 (fun m r => build_row m store_preview = Ok r) msgs rows ->
  forall i st, exists st', ingest_loop msgs i store_preview st = (st', Ok tt).
Proof.
  induction 1 as [|m r msgs rows Hb _ IH]; intros i st; [cbn; eauto|].
  cbn [ingest_loop]. rewrite Hb.
  destruct (BATCH_SIZE <=? length (batch st ++ [r]))%nat; [|apply IH].
  destruct (flush_batch (conn st) (batch st ++ [r])) as [c' [a b0]]. apply IH.
Qed.

Lemma ingest_returns (mbox : list email.message) (rows : list row) (file : database)
    (db_path : pystr) (store_preview : bool) (conn1 : connection) :
  init_db (connect file) = (conn1, Ok tt) ->
  Forall2 (fun m r => build_row m store_preview = Ok r) mbox rows ->
  returned (ingest mbox file db_path store_preview) = Ok PyNone.
Proof.
  intros Hi Hrows. unfold ingest. rewrite Hi.
  destruct (ingest_loop_ok _ _ _ Hrows 0%nat (mk_locals conn1 [] 0 0 [])) as (st' & ->).
  reflexivity.
Qed.

Lemma build_rows_unique (store_preview : bool) (msgs : list email.message)
    (rows rows' : list row) :
  Forall2 (fun m r => build_row m store_preview = Ok r) msgs rows ->
  Forall2 (fun m r => build_row m store_preview = Ok r) msgs rows' ->
  rows = rows'.
Proof.
  intros H. revert rows'. induction H as [|m r msgs rows Hb _ IH]; intros rows' H';
    inversion H' as [|m' r' ms rs Hb' Hr']; subst; [reflexivity|].
  f_equal; [congruence | now apply IH].
Qed.

(** The file and the totals of a run that returns, in terms of the
    attempts on the initialised database. *)
Lemma ingest_result (mbox : list email.message) (file : database) (db_path : pystr)
    (store_preview : bool) (v : pyvalue) :
  returned (ingest mbox file db_path store_preview) = Ok v ->
  exists conn1 rows,
    init_db (connect file) = (conn1, Ok tt)
    /\ Forall2 (fun m r => build_row m store_preview = Ok r) mbox rows
    /\ file_after (ingest mbox file db_path store_preview)
       = fst (attempt_all (db conn1) rows)
    /\ reported_totals (ingest mbox file db_path store_preview)
       = Some (succeeded (snd (attempt_all (db conn1) rows)),
               failed (snd (attempt_all (db conn1) rows))).
Proof.
  intros Hret.
  destruct (ingest_spec _ _ _ _ _ Hret)
    as (_ & conn1 & rows & Hinit & Hrows & Hfile & (before & Hp) & _).
  destruct (flush_batch_spec conn1 rows) as (c' & Hf & Hd & Hs & _).
  rewrite Hf in Hfile, Hp. cbn [fst snd] in Hfile, Hp. unfold close in Hfile.
  exists conn1, rows. repeat split; auto.
  - congruence.
  - unfold reported_totals. now rewrite Hp, last_snoc.
Qed.

(** A run on a file that a returned run left finds the schema in place:
    its [init_db] changes nothing. *)
Lemma init_db_on_result (file : database) (conn1 : connection) (rows : list row) :
  init_db (connect file) = (conn1, Ok tt) ->
  exists c',
    init_db (connect (fst (attempt_all (db conn1) rows))) = (c', Ok tt)
    /\ db c' = fst (attempt_all (db conn1) rows).
Proof.
  intros Hi.
  destruct (init_db_effect _ _ Hi) as (He & _).
  destruct (attempt_all_schema rows (db conn1)) as (Hx & Ht).
  destruct (init_db_noop (connect (fst (attempt_all (db conn1) rows))))
    as (c' & Hc' & Hd & _).
  - cbn [db connect]. apply (initialised_is_done _ _ _ Hi); [|exact Hx].
    rewrite Ht. unfold table_exists. now rewrite He.
  - exists c'. auto.
Qed.

(** X10. Ingesting a mailbox in two runs gives what one run gives: if a
    run on the messages [mbox1 ++ mbox2] returns, then so do a run on
    [mbox1] and a run on [mbox2] over the file the first left; the file
    at the end is the same, and the totals of the two runs add up to the
    totals of the one. *)
Theorem X10_ingest_in_two_runs
    (mbox1 mbox2 : list email.message) (file : database) (db_path : pystr)
    (store_preview : bool) (v : pyvalue) :
  returned (ingest (mbox1 ++ mbox2) file db_path store_preview) = Ok v ->
  returned (ingest mbox1 file db_path store_preview) = Ok PyNone
  /\ returned (ingest mbox2 (file_after (ingest mbox1 file db_path store_preview))
                      db_path store_preview) = Ok PyNone
  /\ file_after (ingest mbox2 (file_after (ingest mbox1 file db_path store_preview))
                        db_path store_preview)
     = file_after (ingest (mbox1 ++ mbox2) file db_path store_preview)
  /\ exists ia sa ib sb,
       reported_totals (ingest mbox1 file db_path store_preview) = Some (ia, sa)
       /\ reported_totals (ingest mbox2 (file_after (ingest mbox1 file db_path store_preview))
                                  db_path store_preview) = Some (ib, sb)
       /\ reported_totals (ingest (mbox1 ++ mbox2) file db_path store_preview)
          = Some (ia + ib, sa + sb)%nat.
Proof.
  intros Hret.
  destruct (ingest_result _ _ _ _ _ Hret) as (conn1 & rows & Hi & Hrows & Hfile & Htot).
  apply List.Forall2_app_inv_l in Hrows.
  destruct Hrows as (ra & rb & Hra & Hrb & ->).
  pose proof (ingest_returns mbox1 ra file db_path store_preview conn1 Hi Hra) as Hreta.
  destruct (ingest_result _ _ _ _ _ Hreta) as (conn1' & ra' & Hi' & Hra' & Hfa & Hta).
  rewrite Hi in Hi'. injection Hi' as <-.
  rewrite <- (build_rows_unique _ _ _ _ Hra Hra') in Hfa, Hta. clear Hra' ra'.
  destruct (init_db_on_result file conn1 ra Hi) as (cb & Hib & Hdb).
  rewrite <- Hfa in Hib.
  pose proof (ingest_returns mbox2 rb _ db_path store_preview cb Hib Hrb) as Hretb.
  destruct (ingest_result _ _ _ _ _ Hretb) as (cb' & rb' & Hib' & Hrb' & Hfb & Htb).
  rewrite Hib in Hib'. injection Hib' as <-.
  rewrite <- (build_rows_unique _ _ _ _ Hrb Hrb') in Hfb, Htb. clear Hrb' rb'.
  rewrite Hdb in Hfb, Htb.
  rewrite attempt_all_app in Hfile, Htot. cbn [fst snd] in Hfile, Htot.
  rewrite succeeded_app, failed_app in Htot.
  split; [exact Hreta|]. split; [exact Hretb|]. split; [congruence|].
  do 4 eexists. split; [exact Hta|]. split; [exact Htb|]. exact Htot.
Qed.

End RunFacts.

(* ================================================================== *)
(** * Unique keys through a run *)
(* ================================================================== *)

Lemma execute_keys_unique (c : connection) (s : statement) :
  keys_unique (db c) -> keys_unique (saved c) ->
  keys_unique (db (fst (execute c s))) /\ keys_unique (saved (fst (execute c s))).
Proof.
  intros Hd Hs. unfold execute.
  destruct (run_statement (db c) s) as [d'|e] eqn:E; cbn [fst db saved].
  - pose proof (run_statement_keys_unique _ _ _ Hd E) as Hd'.
    split; [exact Hd'|]. now destruct (_ || _).
  - auto.
Qed.

Lemma run_script_keys_unique (stmts : list statement) (c c1 : connection)
    (r : pyresult unit) :
  run_script stmts c = (c1, r) ->
  keys_unique (db c) -> keys_unique (saved c) ->
  keys_unique (db c1) /\ keys_unique (saved c1).
Proof.
  revert c. induction stmts as [|s0 rest IH]; intros c Hrun Hd Hs.
  - cbn in Hrun. injection Hrun as <- _. auto.
  - rewrite run_script_cons in Hrun.
    destruct (execute_keys_unique c s0 Hd Hs) as (Hd' & Hs').
    destruct (execute c s0) as [ca [[]|e]]; cbn [fst] in *.
    + now apply (IH ca).
    + injection Hrun as <- _. auto.
Qed.

Lemma init_db_keys_unique (c c1 : connection) (r : pyresult unit) :
  init_db c = (c1, r) ->
  keys_unique (db c) -> keys_unique (saved c) ->
  keys_unique (db c1) /\ keys_unique (saved c1).
Proof.
  rewrite init_db_script. intros Hi Hd Hs.
  destruct (run_script init_script c) as [ca ra] eqn:Hrun.
  destruct (run_script_keys_unique _ _ _ _ Hrun Hd Hs) as (Hd' & Hs').
  destruct ra as [[]|e]; injection Hi as <- _; cbn; auto.
Qed.

Section KeyFacts.
Context {lib : PyLib}.

Lemma ingest_loop_keys_unique (msgs : list email.message) (store_preview : bool) :
  forall i st st' r,
    ingest_loop msgs i store_preview st = (st', r) ->
    keys_unique (db (conn st)) -> keys_unique (saved (conn st)) ->
    keys_unique (db (conn st')) /\ keys_unique (saved (conn st')).
Proof.
  induction msgs as [|m rest IH]; intros i st st' r Hrun Hd Hs.
  - cbn in Hrun. injection Hrun as <- _. auto.
  - cbn [ingest_loop] in Hrun.
    destruct (build_row m store_preview) as [row|e]; [|injection Hrun as <- _; auto].
    destruct (BATCH_SIZE <=? length (batch st ++ [row]))%nat.
    + destruct (flush_batch_spec (conn st) (batch st ++ [row]))
        as (c1 & Hf & Hd1 & Hs1 & _).
      rewrite Hf in Hrun. apply IH in Hrun; cbn [conn]; auto.
      * rewrite Hd1. now apply attempt_all_keys_unique.
      * rewrite Hs1, Hd1. now apply attempt_all_keys_unique.
    + apply IH in Hrun; cbn [conn]; auto.
Qed.

(** X8. [ingest] never breaks a unique index: if the rows of the file
    respect its unique indexes before a run, they do after it, whether
    the run returns or is ended by an exception.  When the run returns
    and the name [idx_message_id] was free or held a unique index on
    [message_id], no two rows of the file have the same [message_id], the
    empty one included. *)
Theorem X8_ingest_keeps_keys_unique
    (mbox : list email.message) (file : database) (db_path : pystr)
    (store_preview : bool) :
  keys_unique file ->
  keys_unique (file_after (ingest mbox file db_path store_preview))
  /\ (forall v,
        returned (ingest mbox file db_path store_preview) = Ok v ->
        (forall ix, indexes file !! "idx_message_id" = Some ix ->
                    ix = mk_index true col_message_id) ->
        NoDup (List.map (fun st => message_id (cells st))
                 (stored_rows (file_after (ingest mbox file db_path store_preview))))).
Proof.
  intros Hu.
  assert (Hfile : keys_unique (file_after (ingest mbox file db_path store_preview))).
  { unfold ingest.
    destruct (init_db (connect file)) as [conn1 r1] eqn:Hi.
    destruct (init_db_keys_unique _ _ _ Hi Hu Hu) as (Hd1 & Hs1).
    destruct r1 as [[]|e]; [|exact Hs1].
    destruct (ingest_loop mbox 0 store_preview (mk_locals conn1 [] 0 0 []))
      as [st r] eqn:Hloop.
    destruct (ingest_loop_keys_unique _ _ _ _ _ _ Hloop Hd1 Hs1) as (Hd & Hs).
    destruct r as [[]|e]; [|exact Hs].
    cbn [file_after]. destruct (truthy (batch st)); [|exact Hs].
    destruct (flush_batch_spec (conn st) (batch st)) as (c' & Hf & Hd' & Hs' & _).
    rewrite Hf. cbn [conn]. unfold close. rewrite Hs', Hd'.
    now apply attempt_all_keys_unique. }
  split; [exact Hfile|].
  intros v Hret Hix.
  destruct (ingest_result _ _ _ _ _ Hret) as (conn1 & rows & Hi & _ & Hf & _).
  apply (Hfile "idx_message_id" col_message_id).
  rewrite Hf. destruct (attempt_all_schema rows (db conn1)) as (-> & _).
  destruct (init_db_effect _ _ Hi) as (_ & -> & _).
  cbn [db connect]. rewrite lookup_union.
  destruct (indexes file !! "idx_message_id") as [ix|] eqn:E.
  - rewrite (Hix ix eq_refl). reflexivity.
  - reflexivity.
Qed.

End KeyFacts.

(* ---- a second run of the same mailbox ---- *)


Lemma key_present_app (rows new : list stored) (k : pystr) :
  key_present rows k -> key_present (rows ++ new) k.
Proof. intros (st & Hin & Hk). exists st. split; [apply in_or_app; now left | exact Hk]. Qed.



Section RerunFacts.
Context {lib : PyLib}.


End RerunFacts.

(* ================================================================== *)
(** * Runs ended by an exception, and the progress lines *)
(* ================================================================== *)

Lemma BATCH_SIZE_pos : (0 < BATCH_SIZE)%nat.
Proof. unfold BATCH_SIZE. lia. Qed.

Lemma reported_totals_progress (file : database) (out : list output) (cs : list call)
    (r : pyresult pyvalue) :
  forallb is_progress out = true ->
  reported_totals (mk_run file out cs r) = None.
Proof.
  unfold reported_totals. cbn [printed]. intros H.
  destruct out as [|o out] using rev_ind; [reflexivity|].
  rewrite last_snoc. rewrite forallb_app in H. apply andb_true_iff in H.
  destruct H as [_ H]. cbn in H. now destruct o.
Qed.

Section InterruptedRunFacts.
Context {lib : PyLib}.

(** The loop, up to a message that cannot be normalised: the exception
    ends it; the batches that were full have been flushed, the records
    of the batch under way are not in the database. *)
Lemma ingest_loop_abort (bad : email.message) (post : list email.message)
    (store_preview : bool) (e : exn) (pre : list email.message) (rows : list row) :
  Forall2 (fun m r => build_row m store_preview = Ok r) pre rows ->
  build_row bad store_preview = Raise e ->
  forall i st,
    (length (batch st) < BATCH_SIZE)%nat ->
    saved (conn st) = db (conn st) ->
    forallb is_progress (stdout st) = true ->
    exists st',
      ingest_loop (pre ++ bad :: post) i store_preview st = (st', Raise e)
      /\ saved (conn st') = db (conn st')
      /\ forallb is_progress (stdout st') = true
      /\ db (conn st')
         = fst (attempt_all (db (conn st))
                  (firstn (BATCH_SIZE * ((length (batch st) + length rows) / BATCH_SIZE))
                          (batch st ++ rows))).
Proof.
  intros Hrows Hbad. induction Hrows as [|m r pre rows Hb _ IH]; intros i st Hlen Hsv Hout.
  - exists st. cbn [app ingest_loop]. rewrite Hbad. repeat split; auto.
    cbn [length]. rewrite Nat.add_0_r, Nat.div_small by exact Hlen.
    rewrite Nat.mul_0_r. reflexivity.
  - cbn [app ingest_loop]. rewrite Hb.
    destruct (Nat.leb_spec BATCH_SIZE (length (batch st ++ [r]))) as [Hge|Hlt].
    + rewrite length_app in Hge. cbn [length] in Hge.
      assert (Hfull : length (batch st ++ [r]) = BATCH_SIZE)
        by (rewrite length_app; cbn [length]; lia).
      destruct (flush_batch_spec (conn st) (batch st ++ [r]))
        as (c1 & Hf & Hd1 & Hs1 & _).
      rewrite Hf.
      destruct (IH (S i)
                  (mk_locals c1 []
                     (inserted st + succeeded (snd (attempt_all (db (conn st))
                                                                (batch st ++ [r]))))
                     (skipped st + failed (snd (attempt_all (db (conn st))
                                                            (batch st ++ [r]))))
                     (if (N.of_nat (i + 1) mod 10000 =? 0)%N
                      then stdout st ++
                           [Progress (i + 1)
                              (inserted st + succeeded (snd (attempt_all (db (conn st))
                                                                         (batch st ++ [r]))))
                              (skipped st + failed (snd (attempt_all (db (conn st))
                                                                     (batch st ++ [r]))))]
                      else stdout st)))
        as (st' & Hrun & Hsv' & Hout' & Hdb').
      * cbn [batch length]. apply BATCH_SIZE_pos.
      * exact Hs1.
      * cbn [stdout]. destruct (_ =? _)%N; [|exact Hout].
        rewrite forallb_app, Hout. reflexivity.
      * exists st'. split; [exact Hrun|]. split; [exact Hsv'|]. split; [exact Hout'|].
        rewrite Hdb'. cbn [conn batch length app]. rewrite Hd1. cbn [Nat.add].
        replace (length (batch st) + S (length rows))%nat
          with (1 * BATCH_SIZE + length rows)%nat by lia.
        rewrite Nat.div_add_l by (pose proof BATCH_SIZE_pos; lia).
        replace (BATCH_SIZE * (1 + length rows / BATCH_SIZE))%nat
          with (length (batch st ++ [r]) + BATCH_SIZE * (length rows / BATCH_SIZE))%nat
          by lia.
        replace (batch st ++ r :: rows) with ((batch st ++ [r]) ++ rows)
          by (now rewrite <- app_assoc).
        rewrite firstn_app_2.
        rewrite (attempt_all_app (batch st ++ [r])
                   (firstn (BATCH_SIZE * (length rows / BATCH_SIZE)) rows)).
        reflexivity.
    + destruct (IH (S i)
                  (mk_locals (conn st) (batch st ++ [r]) (inserted st) (skipped st)
                             (stdout st)))
        as (st' & Hrun & Hsv' & Hout' & Hdb'); auto.
      exists st'. split; [exact Hrun|]. split; [exact Hsv'|]. split; [exact Hout'|].
      rewrite Hdb'. cbn [conn batch]. rewrite length_app. cbn [length].
      replace (length (batch st) + 1 + length rows)%nat
        with (length (batch st) + S (length rows))%nat by lia.
      replace (batch st ++ r :: rows) with ((batch st ++ [r]) ++ rows)
        by (now rewrite <- app_assoc).
      reflexivity.
Qed.

(** X11. A message that cannot be normalised ends the run where it
    stands.  If the messages before it gave the rows [rows], the run
    raises the exception of that message and prints no summary line, and
    the file holds what the full batches of [BATCH_SIZE] rows before it
    left: the rows of the batch under way are lost, and no message after
    it is read. *)
Theorem X11_abort_keeps_full_batches_only
    (pre post : list email.message) (bad : email.message) (rows : list row)
    (file : database) (db_path : pystr) (store_preview : bool)
    (conn1 : connection) (e : exn) :
  init_db (connect file) = (conn1, Ok tt) ->
  Forall2 (fun m r => build_row m store_preview = Ok r) pre rows ->
  build_row bad store_preview = Raise e ->
  returned (ingest (pre ++ bad :: post) file db_path store_preview) = Raise e
  /\ reported_totals (ingest (pre ++ bad :: post) file db_path store_preview) = None
  /\ file_after (ingest (pre ++ bad :: post) file db_path store_preview)
     = close (fst (flush_batch conn1
                     (firstn (BATCH_SIZE * (length pre / BATCH_SIZE)) rows))).
Proof.
  intros Hi Hrows Hbad.
  destruct (init_db_effect _ _ Hi) as (_ & _ & Hsv1 & _).
  destruct (ingest_loop_abort bad post store_preview e pre rows Hrows Hbad 0%nat
              (mk_locals conn1 [] 0 0 []))
    as (st' & Hrun & Hsv & Hout & Hdb); auto using BATCH_SIZE_pos.
  cbn [conn batch length app Nat.add] in Hdb.
  unfold ingest. rewrite Hi, Hrun. split; [reflexivity|].
  split; [now apply reported_totals_progress|].
  cbn [file_after]. unfold close. rewrite Hsv, Hdb.
  destruct (flush_batch_spec conn1 (firstn (BATCH_SIZE * (length pre / BATCH_SIZE)) rows))
    as (c' & Hf & Hd' & Hs' & _).
  rewrite Hf. cbn [fst]. rewrite Hs', Hd'.
  now rewrite (Forall2_length _ _ _ Hrows).
Qed.

(* ---- the progress lines ---- *)

Lemma ingest_loop_progress (msgs : list email.message) (store_preview : bool)
    (bound : nat) :
  forall i st st' r,
    ingest_loop msgs i store_preview st = (st', r) ->
    (inserted st + skipped st + length (batch st) = i)%nat ->
    (i + length msgs <= bound)%nat ->
    Forall (progress_ok bound) (stdout st) ->
    Forall (progress_ok bound) (stdout st').
Proof.
  induction msgs as [|m rest IH]; intros i st st' r Hrun Hcount Hb Hout.
  - cbn in Hrun. injection Hrun as <- _. exact Hout.
  - cbn [ingest_loop] in Hrun. cbn [length] in Hb.
    destruct (build_row m store_preview) as [row|e]; [|injection Hrun as <- _; exact Hout].
    destruct (BATCH_SIZE <=? length (batch st ++ [row]))%nat.
    + destruct (flush_batch_spec (conn st) (batch st ++ [row])) as (c1 & Hf & _).
      rewrite Hf in Hrun.
      pose proof (succeeded_failed (snd (attempt_all (db (conn st)) (batch st ++ [row]))))
        as Hsum.
      rewrite length_attempt_all, length_app in Hsum. cbn [length] in Hsum.
      apply IH in Hrun; auto; cbn [inserted skipped batch stdout length].
      * lia.
      * lia.
      * destruct (N.eqb_spec (N.of_nat (i + 1) mod 10000) 0) as [Hm|Hm]; [|exact Hout].
        apply Forall_app. split; [exact Hout|]. constructor; [|constructor].
        cbn. split; [lia|]. split; [exact Hm|]. lia.
    + apply IH in Hrun; auto; cbn [inserted skipped batch stdout].
      * rewrite length_app. cbn [length]. lia.
      * lia.
Qed.

(** X12. Every progress line of a run is consistent: it is printed
    after a multiple of 10,000 messages, counted from 1 and no more than
    the source holds, and its inserted and skipped totals add up to that
    number of messages. *)
Theorem X12_progress_lines_are_consistent
    (mbox : list email.message) (file : database) (db_path : pystr)
    (store_preview : bool) :
  Forall (progress_ok (length mbox))
         (printed (ingest mbox file db_path store_preview)).
Proof.
  unfold ingest.
  destruct (init_db (connect file)) as [conn1 [[]|e]]; [|constructor].
  destruct (ingest_loop mbox 0 store_preview (mk_locals conn1 [] 0 0 []))
    as [st r] eqn:Hloop.
  assert (Hout : Forall (progress_ok (length mbox)) (stdout st)).
  { eapply ingest_loop_progress; [exact Hloop|reflexivity|cbn; lia|constructor]. }
  destruct r as [[]|e]; cbn [printed]; [|exact Hout].
  apply Forall_app. split.
  - destruct (truthy (batch st)); [|exact Hout].
    destruct (flush_batch (conn st) (batch st)) as [c' [a b0]]. exact Hout.
  - constructor; [exact I | constructor].
Qed.

End InterruptedRunFacts.

Lemma X8_witness :
  keys_unique empty_database
  /\ keys_unique (file_after scenario_run)
  /\ NoDup (List.map (fun st => message_id (cells st))
              (stored_rows (file_after scenario_run))).
Proof.
  assert (H0 : keys_unique empty_database).
  { intros name c H. vm_compute in H. discriminate H. }
  split; [exact H0|].
  destruct (X8_ingest_keeps_keys_unique (lib := CPython.lib)
              scenario_mbox empty_database (u "mail.sqlite") true H0) as (H1 & H2).
  split; [exact H1|].
  apply (H2 PyNone); [vm_compute; reflexivity|].
  intros ix H. vm_compute in H. discriminate H.
Defined.


Lemma X10_witness :
  returned (ingest (lib := CPython.lib) [message_a; message_c]
                   (file_after (ingest (lib := CPython.lib) [message_a] empty_database
                                       (u "mail.sqlite") true))
                   (u "mail.sqlite") true) = Ok PyNone
  /\ file_after (ingest (lib := CPython.lib) [message_a; message_c]
                   (file_after (ingest (lib := CPython.lib) [message_a] empty_database
                                       (u "mail.sqlite") true))
                   (u "mail.sqlite") true)
     = file_after scenario_run.
Proof.
  destruct (X10_ingest_in_two_runs (lib := CPython.lib)
              [message_a] [message_a; message_c] empty_database (u "mail.sqlite") true
              PyNone) as (_ & H2 & H3 & _).
  - vm_compute. reflexivity.
  - split; [exact H2 | exact H3].
Defined.

Lemma X11_witness :
  returned (ingest (lib := CPython.lib)
              ([message_a] ++ message_unknown_charset :: [message_c])
              empty_database (u "mail.sqlite") true) = Raise LookupError
  /\ reported_totals (ingest (lib := CPython.lib)
              ([message_a] ++ message_unknown_charset :: [message_c])
              empty_database (u "mail.sqlite") true) = None
  /\ stored_rows (file_after (ingest (lib := CPython.lib)
              ([message_a] ++ message_unknown_charset :: [message_c])
              empty_database (u "mail.sqlite") true)) = [].
Proof.
  destruct (X11_abort_keeps_full_batches_only (lib := CPython.lib)
              [message_a] [message_c] message_unknown_charset [row_a]
              empty_database (u "mail.sqlite") true
              (fst (init_db (connect empty_database))) LookupError)
    as (H1 & H2 & H3).
  - vm_compute. reflexivity.
  - constructor; [vm_compute; reflexivity | constructor].
  - vm_compute. reflexivity.
  - split; [exact H1|]. split; [exact H2|]. rewrite H3. vm_compute. reflexivity.
Defined.

(* ================================================================== *)
(** * The date columns *)
(* ================================================================== *)

Lemma matches_picture_app (p1 p2 : list (option codepoint)) (s1 s2 : pystr) :
  matches_picture p1 s1 = true ->
  matches_picture p2 s2 = true ->
  matches_picture (p1 ++ p2) (s1 ++ s2) = true.
Proof.
  revert s1. induction p1 as [|o p1 IH]; intros s1 H1 H2.
  - destruct s1; [exact H2 | discriminate H1].
  - destruct s1 as [|c s1]; [destruct o; discriminate H1|].
    destruct o as [k|]; cbn in H1 |- *; apply andb_true_iff in H1;
      destruct H1 as [Hc H1]; rewrite Hc; cbn; now apply IH.
Qed.

Lemma matches_picture_firstn (p1 p2 : list (option codepoint)) (s : pystr) :
  matches_picture (p1 ++ p2) s = true ->
  matches_picture p1 (firstn (length p1) s) = true.
Proof.
  revert s. induction p1 as [|o p1 IH]; intros s H; [reflexivity|].
  destruct s as [|c s]; [destruct o; discriminate H|].
  destruct o as [k|]; cbn in H |- *; apply andb_true_iff in H;
    destruct H as [Hc H]; rewrite Hc; cbn; now apply IH.
Qed.

(** [%04d] and [%02d] give exactly four and two digits on the numbers
    that fit. *)
Lemma zfill_picture (w : nat) (bound : Z) (n : Z) :
  forallb (fun k => matches_picture (repeat None w) (zfill w (Z.of_nat k)))
          (seq 0 (Z.to_nat bound)) = true ->
  0 <= n < bound ->
  matches_picture (repeat None w) (zfill w n) = true.
Proof.
  intros Hall Hn. rewrite forallb_forall in Hall.
  rewrite <- (Z2Nat.id n) by lia. apply Hall. apply in_seq. lia.
Qed.

Lemma zfill4_picture (n : Z) :
  0 <= n <= 9999 -> matches_picture (picture "9999") (zfill 4 n) = true.
Proof.
  intros Hn. apply (zfill_picture 4 10000); [vm_compute; reflexivity | lia].
Qed.

Lemma zfill2_picture (n : Z) :
  0 <= n <= 99 -> matches_picture (picture "99") (zfill 2 n) = true.
Proof.
  intros Hn. apply (zfill_picture 2 100); [vm_compute; reflexivity | lia].
Qed.

Lemma isoformat_picture (dt : datetime.t) :
  fields_in_range dt ->
  datetime.tzinfo dt = datetime.utc ->
  matches_picture ISO_PICTURE (datetime.isoformat_seconds dt) = true.
Proof.
  intros (Hy & Hm & Hd & Hh & Hmi & Hs) Htz.
  unfold datetime.isoformat_seconds. rewrite Htz.
  change ISO_PICTURE
    with (picture "9999" ++ picture "-" ++ picture "99" ++ picture "-" ++ picture "99"
          ++ picture "T" ++ picture "99" ++ picture ":" ++ picture "99" ++ picture ":"
          ++ picture "99" ++ picture "+00:00").
  repeat apply matches_picture_app;
    try (apply zfill4_picture; lia); try (apply zfill2_picture; lia); reflexivity.
Qed.

Lemma days_in_month_le (y m : Z) : 1 <= m <= 12 -> datetime._days_in_month y m <= 31.
Proof.
  intros Hm. unfold datetime._days_in_month.
  assert (H : m = 1 \/ m = 2 \/ m = 3 \/ m = 4 \/ m = 5 \/ m = 6 \/ m = 7 \/ m = 8
              \/ m = 9 \/ m = 10 \/ m = 11 \/ m = 12) by lia.
  repeat (destruct H as [-> | H]); try subst m;
    destruct (datetime._is_leap y); apply Z.leb_le; reflexivity.
Qed.

Lemma make_in_range (y m d hh mi ss : Z) (tz : option Z) (dt : datetime.t) :
  datetime.make y m d hh mi ss tz = Ok dt -> fields_in_range dt.
Proof.
  unfold datetime.make, datetime.MINYEAR, datetime.MAXYEAR.
  repeat match goal with
         | |- context [negb (?a && ?b)] =>
             let E := fresh "E" in
             destruct (a && b) eqn:E; cbn [negb]; [|discriminate]
         end.
  intros [= <-]. unfold fields_in_range. cbn.
  pose proof (days_in_month_le y m). lia.
Qed.

Lemma month_day_in_range (n : Z) (leapyear : bool) :
  0 <= n <= 364 ->
  1 <= fst (month_day n leapyear) <= 12 /\ 1 <= snd (month_day n leapyear) <= 31.
Proof.
  intros Hn.
  assert (Hall : forallb (fun k =>
                   forallb (fun l =>
                     let md := month_day (Z.of_nat k) l in
                     (1 <=? fst md) && (fst md <=? 12) && (1 <=? snd md) && (snd md <=? 31))
                     [true; false])
                   (seq 0 365) = true) by (vm_compute; reflexivity).
  rewrite forallb_forall in Hall.
  specialize (Hall (Z.to_nat n)). rewrite Z2Nat.id in Hall by lia.
  assert (Hin : In (Z.to_nat n) (seq 0 365)) by (apply in_seq; lia).
  apply Hall in Hin. rewrite forallb_forall in Hin.
  assert (Hl : In leapyear [true; false]) by (destruct leapyear; cbn; auto).
  apply Hin in Hl. cbn zeta in Hl. lia.
Qed.

Lemma ord2ymd_in_range (n0 : Z) :
  1 <= n0 <= datetime._MAXORDINAL ->
  let '(y, m, d) := datetime._ord2ymd n0 in
  1 <= y <= 9999 /\ 1 <= m <= 12 /\ 1 <= d <= 31.
Proof.
  intros Hn. unfold datetime._MAXORDINAL in Hn.
  unfold datetime._ord2ymd.
  change datetime._DI400Y with 146097.
  change datetime._DI100Y with 36524.
  change datetime._DI4Y with 1461.
  cbv zeta.
  set (n := n0 - 1).
  set (n400 := n / 146097). set (r400 := n mod 146097).
  set (n100 := r400 / 36524). set (r100 := r400 mod 36524).
  set (n4 := r100 / 1461). set (r4 := r100 mod 1461).
  set (n1 := r4 / 365). set (r1 := r4 mod 365).
  assert (H400 : n = 146097 * n400 + r400 /\ 0 <= r400 < 146097)
    by (subst n400 r400; split; [apply Z.div_mod; lia | apply Z.mod_pos_bound; lia]).
  assert (H100 : r400 = 36524 * n100 + r100 /\ 0 <= r100 < 36524)
    by (subst n100 r100; split; [apply Z.div_mod; lia | apply Z.mod_pos_bound; lia]).
  assert (H4 : r100 = 1461 * n4 + r4 /\ 0 <= r4 < 1461)
    by (subst n4 r4; split; [apply Z.div_mod; lia | apply Z.mod_pos_bound; lia]).
  assert (H1 : r4 = 365 * n1 + r1 /\ 0 <= r1 < 365)
    by (subst n1 r1; split; [apply Z.div_mod; lia | apply Z.mod_pos_bound; lia]).
  assert (Hn' : 0 <= n <= 3652058) by (subst n; lia).
  clearbody n n400 r400 n100 r100 n4 r4 n1 r1.
  destruct ((n1 =? 4) || (n100 =? 4)) eqn:E.
  - apply orb_true_iff in E. split; [|lia].
    destruct E as [E|E]; apply Z.eqb_eq in E; lia.
  - apply orb_false_iff in E. destruct E as [E1 E2].
    apply Z.eqb_neq in E1, E2.
    set (leapyear := (n1 =? 3) && (negb (n4 =? 24) || (n100 =? 3))).
    pose proof (month_day_in_range r1 leapyear ltac:(lia)) as Hmd.
    unfold month_day in Hmd. cbv zeta in Hmd.
    destruct (if r1 <? _ then _ else _) as [m p]. cbn [fst snd] in Hmd.
    split; [lia | exact Hmd].
Qed.

Lemma add_seconds_in_range (dt dt' : datetime.t) (delta : Z) :
  datetime.add_seconds dt delta = Ok dt' -> fields_in_range dt'.
Proof.
  unfold datetime.add_seconds. cbv zeta.
  set (total := datetime.hour dt * 3600 + datetime.minute dt * 60
                + datetime.second dt + delta).
  set (days := datetime._ymd2ord _ _ _ + total / 86400).
  destruct ((0 <? days) && (days <=? datetime._MAXORDINAL)) eqn:E; [|discriminate].
  apply andb_true_iff in E. destruct E as [E1 E2].
  apply Z.ltb_lt in E1. apply Z.leb_le in E2.
  pose proof (ord2ymd_in_range days ltac:(lia)) as Hr.
  destruct (datetime._ord2ymd days) as [[y m] d].
  intros [= <-]. unfold fields_in_range. cbn.
  pose proof (Z.mod_pos_bound total 86400 ltac:(lia)) as Hs.
  set (secs := total mod 86400) in *. clearbody secs.
  pose proof (Z.div_mod secs 3600 ltac:(lia)).
  pose proof (Z.mod_pos_bound secs 3600 ltac:(lia)).
  pose proof (Z.div_mod (secs mod 3600) 60 ltac:(lia)).
  pose proof (Z.mod_pos_bound (secs mod 3600) 60 ltac:(lia)).
  repeat split; try lia.
Qed.

Lemma astimezone_utc_in_range (local : datetime.t -> Z) (dt dt' : datetime.t) :
  fields_in_range dt ->
  datetime.astimezone_utc local dt = Ok dt' ->
  fields_in_range dt'.
Proof.
  intros Hr. unfold datetime.astimezone_utc.
  destruct (match datetime.tzinfo dt with
            | Some off => (off, off =? 0)
            | None => (local dt, false)
            end) as [myoffset mine].
  destruct mine; [now intros [= <-]|].
  unfold Py.bind.
  destruct (datetime.add_seconds dt (- myoffset)) as [sh|e]; [|discriminate].
  apply add_seconds_in_range.
Qed.

Lemma parsedate_in_range (date_str : pystr) (dt : datetime.t) :
  CPython.parsedate_to_datetime date_str = Ok dt -> fields_in_range dt.
Proof.
  unfold CPython.parsedate_to_datetime.
  destruct (CPython._parsedate_tz date_str) as [[[[[[[yy mm] dd] thh] tmm] tss] tz]|];
    [|discriminate].
  destruct tz as [off|]; [|apply make_in_range].
  unfold Py.bind. destruct (datetime.timezone off); [apply make_in_range | discriminate].
Qed.

Lemma astimezone_utc_aware (local1 local2 : datetime.t -> Z) (dt : datetime.t) :
  datetime.tzinfo dt <> None ->
  datetime.astimezone_utc local1 dt = datetime.astimezone_utc local2 dt.
Proof.
  intros Hz. unfold datetime.astimezone_utc.
  destruct (datetime.tzinfo dt); [reflexivity | now contradiction Hz].
Qed.

Section DateFacts.
Context {lib : PyLib}.

(** What [parse_date_to_iso] gives when it gives a timestamp. *)
Lemma parse_date_to_iso_cases (date_str : pystr) :
  parse_date_to_iso date_str = []
  \/ exists dt dt_utc,
       parsedate_to_datetime date_str = Ok dt
       /\ datetime.astimezone_utc (fun _ => 0)
            (match datetime.tzinfo dt with
             | None => datetime.replace_tzinfo dt datetime.utc
             | Some _ => dt
             end) = Ok dt_utc
       /\ datetime.tzinfo dt_utc = datetime.utc
       /\ parse_date_to_iso date_str = datetime.isoformat_seconds dt_utc.
Proof.
  unfold parse_date_to_iso.
  destruct (negb (truthy date_str)); [now left|].
  destruct (parsedate_to_datetime date_str) as [dt|e]; [|now left].
  cbn [Py.bind].
  set (dt1 := match datetime.tzinfo dt with
              | None => datetime.replace_tzinfo dt datetime.utc
              | Some _ => dt
              end).
  assert (Hz : datetime.tzinfo dt1 <> None).
  { subst dt1. destruct (datetime.tzinfo dt) eqn:E; [now rewrite E | discriminate]. }
  rewrite (astimezone_utc_aware local_utcoffset (fun _ => 0) dt1 Hz).
  destruct (datetime.astimezone_utc (fun _ => 0) dt1) as [dt_utc|e] eqn:Ha; [|now left].
  right. exists dt, dt_utc. repeat split; auto.
  eapply astimezone_utc_tzinfo; eauto.
Qed.

(** X13. Every timestamp [parse_date_to_iso] gives is in UTC: the
    result is empty or ends in the offset [+00:00], whatever the zone of
    the date parsed and whatever the library makes of the header. *)
Theorem X13_timestamps_end_in_utc_offset (date_str : pystr) :
  parse_date_to_iso date_str = []
  \/ exists body, (19 <= length body)%nat
                  /\ parse_date_to_iso date_str = body ++ u "+00:00".
Proof.
  destruct (parse_date_to_iso_cases date_str) as [E | (dt & dt_utc & _ & _ & Htz & E)];
    [now left|].
  right. rewrite E. unfold datetime.isoformat_seconds. rewrite Htz.
  exists (zfill 4 (datetime.year dt_utc) ++ u "-" ++ zfill 2 (datetime.month dt_utc)
          ++ u "-" ++ zfill 2 (datetime.day dt_utc) ++ u "T"
          ++ zfill 2 (datetime.hour dt_utc) ++ u ":" ++ zfill 2 (datetime.minute dt_utc)
          ++ u ":" ++ zfill 2 (datetime.second dt_utc)).
  split.
  - repeat rewrite length_app.
    pose proof (length_zfill 4 (datetime.year dt_utc)).
    pose proof (length_zfill 2 (datetime.month dt_utc)).
    pose proof (length_zfill 2 (datetime.day dt_utc)).
    pose proof (length_zfill 2 (datetime.hour dt_utc)).
    pose proof (length_zfill 2 (datetime.minute dt_utc)).
    pose proof (length_zfill 2 (datetime.second dt_utc)).
    cbn [length u List.map list_ascii_of_string]. lia.
  - repeat rewrite <- app_assoc. reflexivity.
Qed.

Lemma date_columns_layout (date_str iso day : pystr) :
  (forall s dt, parsedate_to_datetime s = Ok dt -> fields_in_range dt) ->
  date_columns date_str = (iso, day) ->
  (iso = [] /\ day = [])
  \/ (matches_picture ISO_PICTURE iso = true /\ matches_picture DAY_PICTURE day = true).
Proof.
  intros Hlib Hcols.
  destruct (date_columns_shape _ _ _ Hcols) as [H | (Hlen & Hday)]; [now left|].
  right. unfold date_columns in Hcols. injection Hcols as Hiso _.
  destruct (parse_date_to_iso_cases date_str) as [E | (dt & dt_utc & Hp & Ha & Htz & E)].
  - rewrite E in Hiso. subst iso. cbn in Hlen. lia.
  - assert (Hpic : matches_picture ISO_PICTURE iso = true).
    { rewrite <- Hiso, E. apply isoformat_picture; [|exact Htz].
      refine (astimezone_utc_in_range _ _ _ _ Ha).
      pose proof (Hlib _ _ Hp) as Hr.
      destruct (datetime.tzinfo dt); [exact Hr | exact Hr]. }
    split; [exact Hpic|]. rewrite Hday.
    apply (matches_picture_firstn DAY_PICTURE (picture "T99:99:99+00:00")). exact Hpic.
Qed.

(** X15. With a library whose [parsedate_to_datetime] gives dates of
    the calendar only, the two date columns have a fixed layout: they
    are both empty, or [date_iso] is [YYYY-MM-DDTHH:MM:SS+00:00] and
    [date_day] is [YYYY-MM-DD], each letter a decimal digit. *)
Theorem X15_date_columns_have_fixed_layout (date_str iso day : pystr) :
  (forall s dt, parsedate_to_datetime s = Ok dt -> fields_in_range dt) ->
  date_columns date_str = (iso, day) ->
  (iso = [] /\ day = [])
  \/ (matches_picture ISO_PICTURE iso = true /\ matches_picture DAY_PICTURE day = true).
Proof. apply date_columns_layout. Qed.

End DateFacts.

(** X14. The local time zone of the system plays no part: two
    libraries that parse dates alike give the same timestamps, wherever
    they place the local zone. *)
Theorem X14_local_zone_is_never_consulted (lib1 lib2 : PyLib) :
  (forall s, @parsedate_to_datetime lib1 s = @parsedate_to_datetime lib2 s) ->
  forall date_str,
    @parse_date_to_iso lib1 date_str = @parse_date_to_iso lib2 date_str.
Proof.
  intros Hsame date_str. unfold parse_date_to_iso.
  destruct (negb (truthy date_str)); [reflexivity|].
  rewrite Hsame.
  destruct (@parsedate_to_datetime lib2 date_str) as [dt|e]; [|reflexivity].
  cbn [Py.bind].
  rewrite (astimezone_utc_aware (@local_utcoffset lib1) (@local_utcoffset lib2));
    [reflexivity|].
  destruct (datetime.tzinfo dt) eqn:E; [now rewrite E | discriminate].
Qed.

Lemma X14_witness :
  parse_date_to_iso (lib := CPython.lib) (u "Mon, 01 Jan 2024 10:00:00")
  = parse_date_to_iso (lib := lib_at_offset 3600) (u "Mon, 01 Jan 2024 10:00:00").
Proof.
  apply (X14_local_zone_is_never_consulted CPython.lib (lib_at_offset 3600)).
  intros s. reflexivity.
Defined.

Lemma X15_witness :
  matches_picture ISO_PICTURE
    (fst (date_columns (lib := CPython.lib) (u "Mon, 01 Jan 2024 23:30:00 -0500"))) = true
  /\ matches_picture DAY_PICTURE
       (snd (date_columns (lib := CPython.lib) (u "Mon, 01 Jan 2024 23:30:00 -0500"))) = true.
Proof.
  destruct (X15_date_columns_have_fixed_layout (lib := CPython.lib)
              (u "Mon, 01 Jan 2024 23:30:00 -0500")
              (u "2024-01-02T04:30:00+00:00") (u "2024-01-02"))
    as [[H _] | H].
  - exact parsedate_in_range.
  - vm_compute. reflexivity.
  - discriminate H.
  - vm_compute. split; reflexivity.
Defined.

(* ================================================================== *)
(** * The report *)
(* ================================================================== *)

Lemma str_eqb_eq (a b0 : pystr) : str_eqb a b0 = true <-> a = b0.
Proof. unfold str_eqb. apply bool_decide_eq_true. Qed.

Lemma count_star_pos (v : pystr) (vals : list pystr) :
  In v vals -> (1 <= count_star v vals)%nat.
Proof.
  unfold count_star. induction vals as [|x vals IH]; intros Hin; [destruct Hin|].
  cbn [List.filter]. destruct (str_eqb x v) eqn:E; [cbn; lia|].
  destruct Hin as [-> | Hin]; [|now apply IH].
  assert (str_eqb v v = true) by now apply str_eqb_eq. congruence.
Qed.

Lemma count_star_filter (f : pystr -> bool) (v : pystr) (vals : list pystr) :
  f v = true -> count_star v (List.filter f vals) = count_star v vals.
Proof.
  intros Hf. unfold count_star. induction vals as [|x vals IH]; [reflexivity|].
  cbn [List.filter]. destruct (f x) eqn:Ef; destruct (str_eqb x v) eqn:E;
    cbn [List.filter length]; rewrite ?E; cbn [length]; try (now rewrite IH).
  apply str_eqb_eq in E. congruence.
Qed.

Lemma count_star_rows (c : column) (v : pystr) (rows : list stored) :
  count_star v (List.map (fun st => cell c (cells st)) rows)
  = length (List.filter (fun st => str_eqb (cell c (cells st)) v) rows).
Proof.
  unfold count_star. induction rows as [|st rows IH]; [reflexivity|].
  cbn [List.map List.filter]. destruct (str_eqb _ v); cbn [length]; now rewrite IH.
Qed.

Lemma In_remove_dups (v : pystr) (vals : list pystr) :
  In v (remove_dups vals) <-> In v vals.
Proof. rewrite <- !list_elem_of_In. apply elem_of_remove_dups. Qed.

Lemma group_by_values (vals : list pystr) : List.map fst (group_by vals) = remove_dups vals.
Proof.
  unfold group_by. rewrite List.map_map. cbn [fst]. apply List.map_id.
Qed.

Lemma group_by_rows (vals : list pystr) (r : pystr * nat) :
  In r (group_by vals) -> In (fst r) vals /\ snd r = count_star (fst r) vals.
Proof.
  unfold group_by. rewrite in_map_iff. intros (v & <- & Hin). cbn [fst snd].
  split; [|reflexivity]. now apply In_remove_dups.
Qed.

Lemma group_by_complete (vals : list pystr) (v : pystr) :
  In v vals -> In (v, count_star v vals) (group_by vals).
Proof.
  intros Hin. unfold group_by. apply in_map_iff. exists v. split; [reflexivity|].
  now apply In_remove_dups.
Qed.

Section ReportFacts.
Context {engine : SqlEngine}.

Lemma read_sql_query_frame (q : select) (d : database) (rows : list stored) :
  emails d = Some rows ->
  exists rest,
    read_sql_query q d = inl (firstn LIMIT (order_by_n_desc (group_by (selected_values q rows))))
    /\ order_by_n_desc (group_by (selected_values q rows))
       = firstn LIMIT (order_by_n_desc (group_by (selected_values q rows))) ++ rest
    /\ (rest <> [] ->
        length (firstn LIMIT (order_by_n_desc (group_by (selected_values q rows)))) = LIMIT).
Proof.
  intros He. exists (skipn LIMIT (order_by_n_desc (group_by (selected_values q rows)))).
  unfold read_sql_query. rewrite He. split; [reflexivity|].
  split; [now rewrite firstn_skipn|].
  intros Hrest. rewrite length_firstn.
  destruct (Nat.le_gt_cases LIMIT (length (order_by_n_desc (group_by (selected_values q rows)))))
    as [Hle | Hlt]; [lia|].
  exfalso. apply Hrest. apply skipn_all2. lia.
Qed.

(** X16. What a statement of the report gives.  On a file without the
    table [read_sql_query] raises [DatabaseError].  Otherwise the frame
    has at most five rows, no value twice, the larger counts first; each
    row gives a value that passes the [WHERE] clause and the number of
    rows of the table that hold it in the column, one at least. *)
Theorem X16_report_frames_count_the_rows (q : select) (d : database) :
  match read_sql_query q d with
  | inr _ => emails d = None
  | inl df =>
      emails d <> None
      /\ (length df <= 5)%nat
      /\ NoDup (List.map fst df)
      /\ StronglySorted n_desc df
      /\ Forall (fun r =>
                   where_clause q (fst r) = true
                   /\ (1 <= snd r)%nat
                   /\ snd r = length (List.filter
                                        (fun st => str_eqb (cell (grouped_column q) (cells st))
                                                           (fst r))
                                        (stored_rows d)))
                df
  end.
Proof.
  destruct (emails d) as [rows|] eqn:He.
  2:{ unfold read_sql_query. now rewrite He. }
  destruct (read_sql_query_frame q d rows He) as (rest & -> & Hsplit & _).
  set (sorted := order_by_n_desc (group_by (selected_values q rows))) in *.
  pose proof (order_by_n_desc_perm (group_by (selected_values q rows))) as Hperm.
  pose proof (order_by_n_desc_sorted (group_by (selected_values q rows))) as Hsorted.
  fold sorted in Hperm, Hsorted.
  split; [discriminate|].
  split; [rewrite length_firstn; unfold LIMIT; lia|].
  split.
  { assert (Hnd : NoDup (List.map fst sorted)).
    { rewrite Hperm, group_by_values. apply NoDup_remove_dups. }
    rewrite Hsplit, List.map_app in Hnd. now apply NoDup_app in Hnd. }
  split.
  { rewrite Hsplit in Hsorted. now apply StronglySorted_app_1_l in Hsorted. }
  apply List.Forall_forall. intros r Hin.
  assert (Hg : In r (group_by (selected_values q rows))).
  { apply (Permutation_in _ Hperm). rewrite Hsplit. apply in_or_app. now left. }
  apply group_by_rows in Hg. destruct Hg as (Hv & Hn).
  unfold selected_values in Hv, Hn. apply filter_In in Hv. destruct Hv as (Hv & Hw).
  split; [exact Hw|].
  rewrite count_star_filter in Hn by exact Hw.
  split; [rewrite Hn; now apply count_star_pos|].
  rewrite Hn, count_star_rows. unfold stored_rows. now rewrite He.
Qed.

(** X17. The frame holds the largest groups: a value of the column that
    passes the [WHERE] clause is in the frame, unless the frame is full
    and each of its five rows counts at least as many rows as hold that
    value. *)
Theorem X17_report_frames_hold_the_largest_groups
    (q : select) (d : database) (df : frame) (st : stored) :
  read_sql_query q d = inl df ->
  In st (stored_rows d) ->
  where_clause q (cell (grouped_column q) (cells st)) = true ->
  In (cell (grouped_column q) (cells st)) (List.map fst df)
  \/ (length df = 5%nat
      /\ Forall (fun r =>
                   (length (List.filter
                              (fun st' => str_eqb (cell (grouped_column q) (cells st'))
                                                  (cell (grouped_column q) (cells st)))
                              (stored_rows d))
                    <= snd r)%nat)
                df).
Proof.
  intros Hq Hst Hw.
  destruct (emails d) as [rows|] eqn:He.
  2:{ unfold read_sql_query in Hq. rewrite He in Hq. discriminate Hq. }
  destruct (read_sql_query_frame q d rows He) as (rest & Hq' & Hsplit & Hfull).
  rewrite Hq' in Hq. injection Hq as Hdf.
  set (sorted := order_by_n_desc (group_by (selected_values q rows))) in *.
  pose proof (order_by_n_desc_perm (group_by (selected_values q rows))) as Hperm.
  pose proof (order_by_n_desc_sorted (group_by (selected_values q rows))) as Hsorted.
  fold sorted in Hperm, Hsorted.
  unfold stored_rows in Hst |- *. rewrite He in Hst |- *.
  set (v := cell (grouped_column q) (cells st)) in *.
  assert (Hv : In v (selected_values q rows)).
  { unfold selected_values. apply filter_In. split; [|exact Hw].
    apply in_map_iff. exists st. now split. }
  assert (Hin : In (v, count_star v (selected_values q rows)) sorted).
  { apply (Permutation_in _ (Permutation_sym Hperm)). now apply group_by_complete. }
  unfold selected_values in Hin at 1. rewrite count_star_filter in Hin by exact Hw.
  rewrite count_star_rows in Hin.
  rewrite Hsplit, Hdf in Hin. apply in_app_or in Hin. destruct Hin as [Hin | Hin].
  - left. apply in_map_iff. exists (v, length (List.filter
                                                  (fun st' => str_eqb (cell (grouped_column q) (cells st')) v)
                                                  rows)).
    split; [reflexivity | exact Hin].
  - right. split.
    + rewrite <- Hdf. apply Hfull. intros ->. destruct Hin.
    + apply List.Forall_forall. intros r Hr.
      rewrite Hsplit, Hdf in Hsorted.
      apply list_elem_of_In in Hr, Hin.
      apply (StronglySorted_app_1_elem_of n_desc _ _ _ _ Hsorted Hr Hin).
Qed.

Lemma query_script_cases (file : database) :
  match emails file with
  | None => query_script file = ([], Some DatabaseError)
  | Some _ =>
      exists df1 df2 df3 df4,
        query_script file
        = ([Frame df1; Blank; Frame df2; Blank; Frame df3; Blank; Frame df4; Blank], None)
        /\ read_sql_query most_messaged_day file = inl df1
        /\ read_sql_query most_common_senders file = inl df2
        /\ read_sql_query most_common_subjects file = inl df3
        /\ read_sql_query most_common_recipients file = inl df4
  end.
Proof.
  unfold query_script, query_step, read_sql_query. cbn [fold_left].
  destruct (emails file) as [rows|]; [|reflexivity].
  cbn [app]. do 4 eexists. repeat split.
Qed.

End ReportFacts.

(* ================================================================== *)
(** * What every run keeps *)
(* ================================================================== *)

(** A property [I] of the database that the statements of the schema
    keep, and that an INSERT keeps when its row has the property [P], is
    kept by a whole run. *)
Section RunInvariant.
Context {lib : PyLib}.
Variable I : database -> Prop.
Variable P : row -> Prop.
Hypothesis I_ddl :
  forall d s d', is_dml s = false -> I d -> run_statement d s = Ok d' -> I d'.
Hypothesis I_insert :
  forall d ign r d', P r -> I d -> run_statement d (INSERT_INTO_emails ign r) = Ok d' -> I d'.

Lemma execute_invariant (c : connection) (s : statement) :
  (is_dml s = false \/ exists ign r, s = INSERT_INTO_emails ign r /\ P r) ->
  I (db c) -> I (saved c) ->
  I (db (fst (execute c s))) /\ I (saved (fst (execute c s))).
Proof.
  intros Hs Hd Hsv. unfold execute.
  destruct (run_statement (db c) s) as [d'|e] eqn:E; cbn [fst db saved]; [|auto].
  assert (Hd' : I d').
  { destruct Hs as [Hs | (ign & r & -> & Hr)].
    - exact (I_ddl _ _ _ Hs Hd E).
    - exact (I_insert _ _ _ _ Hr Hd E). }
  split; [exact Hd'|]. now destruct (_ || _).
Qed.

Lemma run_script_invariant (stmts : list statement) (c c1 : connection)
    (r : pyresult unit) :
  forallb (fun s => negb (is_dml s)) stmts = true ->
  run_script stmts c = (c1, r) ->
  I (db c) -> I (saved c) ->
  I (db c1) /\ I (saved c1).
Proof.
  revert c. induction stmts as [|s0 rest IH]; intros c Hall Hrun Hd Hs.
  - cbn in Hrun. injection Hrun as <- _. auto.
  - cbn [forallb] in Hall. apply andb_true_iff in Hall. destruct Hall as [H0 Hall].
    apply negb_true_iff in H0.
    rewrite run_script_cons in Hrun.
    destruct (execute_invariant c s0 (or_introl H0) Hd Hs) as (Hd' & Hs').
    destruct (execute c s0) as [ca [[]|e]]; cbn [fst] in *.
    + now apply (IH ca).
    + injection Hrun as <- _. auto.
Qed.

Lemma attempt_all_invariant (batch : list row) (d : database) :
  Forall P batch -> I d -> I (fst (attempt_all d batch)).
Proof.
  revert d. induction batch as [|r rest IH]; intros d Hb Hd; [exact Hd|].
  inversion Hb as [|? ? Hr Hrest]; subst.
  cbn [attempt_all].
  destruct (run_statement d (insert_of r)) as [d1|e] eqn:E.
  - specialize (IH d1 Hrest (I_insert _ _ _ _ Hr Hd E)).
    destruct (attempt_all d1 rest). exact IH.
  - specialize (IH d Hrest Hd). destruct (attempt_all d rest). exact IH.
Qed.

Lemma ingest_loop_invariant (store_preview : bool) (msgs : list email.message) :
  (forall m r, In m msgs -> build_row m store_preview = Ok r -> P r) ->
  forall i st st' r,
    ingest_loop msgs i store_preview st = (st', r) ->
    Forall P (batch st) -> I (db (conn st)) -> I (saved (conn st)) ->
    Forall P (batch st') /\ I (db (conn st')) /\ I (saved (conn st')).
Proof.
  induction msgs as [|m rest IH]; intros HP i st st' r Hrun Hb Hd Hs.
  - cbn in Hrun. injection Hrun as <- _. auto.
  - cbn [ingest_loop] in Hrun.
    destruct (build_row m store_preview) as [row|e] eqn:Hrow;
      [|injection Hrun as <- _; auto].
    assert (Hb' : Forall P (batch st ++ [row])).
    { apply Forall_app. split; [exact Hb|]. constructor; [|constructor].
      apply (HP m); [now left | exact Hrow]. }
    assert (HP' : forall m' r', In m' rest -> build_row m' store_preview = Ok r' -> P r')
      by (intros m' r' Hin; apply HP; now right).
    destruct (BATCH_SIZE <=? length (batch st ++ [row]))%nat.
    + destruct (flush_batch_spec (conn st) (batch st ++ [row]))
        as (c1 & Hf & Hd1 & Hs1 & _).
      rewrite Hf in Hrun. apply (IH HP') in Hrun; cbn [conn batch]; auto.
      * rewrite Hd1. now apply attempt_all_invariant.
      * rewrite Hs1, Hd1. now apply attempt_all_invariant.
    + apply (IH HP') in Hrun; cbn [conn batch]; auto.
Qed.

Lemma ingest_invariant (mbox : list email.message) (file : database) (db_path : pystr)
    (store_preview : bool) :
  (forall m r, In m mbox -> build_row m store_preview = Ok r -> P r) ->
  (forall c1 r, init_db (connect file) = (c1, r) -> I (db c1) /\ I (saved c1)) ->
  I (file_after (ingest mbox file db_path store_preview)).
Proof.
  intros HP Hinit. unfold ingest.
  destruct (init_db (connect file)) as [conn1 r1] eqn:Hi.
  destruct (Hinit _ _ eq_refl) as (Hd1 & Hs1).
  destruct r1 as [[]|e]; [|exact Hs1].
  destruct (ingest_loop mbox 0 store_preview (mk_locals conn1 [] 0 0 []))
    as [st r] eqn:Hloop.
  destruct (ingest_loop_invariant store_preview mbox HP _ _ _ _ Hloop
              ltac:(constructor) Hd1 Hs1) as (Hb & Hd & Hs).
  destruct r as [[]|e]; [|exact Hs].
  cbn [file_after]. destruct (truthy (batch st)); [|exact Hs].
  destruct (flush_batch_spec (conn st) (batch st)) as (c' & Hf & Hd' & Hs' & _).
  rewrite Hf. cbn [conn]. unfold close. rewrite Hs', Hd'.
  now apply attempt_all_invariant.
Qed.

End RunInvariant.

Lemma run_statement_keeps_table (d d' : database) (s : statement) :
  table_exists d = true -> run_statement d s = Ok d' -> table_exists d' = true.
Proof.
  intros Ht H. destruct (is_dml s) eqn:Es.
  - destruct s as [| |ign r]; try discriminate Es.
    now destruct (insert_keeps_table _ _ _ _ H).
  - now destruct (ddl_effect _ _ _ Es H).
Qed.

(** [init_db] leaves the table in the file, whether it returns or not:
    CREATE TABLE never raises and is durable at once. *)
Lemma init_db_table (file : database) (c1 : connection) (r : pyresult unit) :
  init_db (connect file) = (c1, r) ->
  table_exists (db c1) = true /\ table_exists (saved c1) = true.
Proof.
  rewrite init_db_script. intros Hi.
  destruct (run_script init_script (connect file)) as [ca ra] eqn:Hrun.
  assert (H : table_exists (db ca) = true /\ table_exists (saved ca) = true).
  { rewrite init_script_cons in Hrun.
    assert (He : exists d0,
               execute (connect file) CREATE_TABLE_IF_NOT_EXISTS_emails
               = (mk_connection d0 d0 false
                    [Execute CREATE_TABLE_IF_NOT_EXISTS_emails (Ok tt)], Ok tt)
               /\ table_exists d0 = true).
    { unfold execute, connect, table_exists. cbn.
      destruct (emails file) eqn:E; eexists; (split; [reflexivity|]); cbn; now rewrite ?E. }
    destruct He as (d0 & He & Ht0). rewrite He in Hrun.
    apply (run_script_invariant (fun d => table_exists d = true) (fun _ => True))
      with (stmts := List.tl init_script) (c := mk_connection d0 d0 false
                    [Execute CREATE_TABLE_IF_NOT_EXISTS_emails (Ok tt)]) (r := ra);
      auto.
    - intros d s d' _ Ht Hs. exact (run_statement_keeps_table _ _ _ Ht Hs).
    - intros d ign r0 d' _ Ht Hs. exact (run_statement_keeps_table _ _ _ Ht Hs). }
  destruct ra as [[]|e]; injection Hi as <- _; cbn [db saved commit]; tauto.
Qed.

Lemma run_statement_keeps_rows (P : row -> Prop) (d d' : database) (s : statement) :
  match s with INSERT_INTO_emails _ r => P r | _ => True end ->
  Forall (fun st => P (cells st)) (stored_rows d) ->
  run_statement d s = Ok d' ->
  Forall (fun st => P (cells st)) (stored_rows d').
Proof.
  intros Hs Hd H. destruct (is_dml s) eqn:Es.
  - destruct s as [| |ign r]; try discriminate Es.
    destruct (insert_effect _ _ _ _ H) as (_ & rows & Et & [(_ & _ & ->) | (_ & Et')]);
      [exact Hd|].
    unfold stored_rows in *. rewrite Et in Hd. rewrite Et'.
    apply Forall_app. split; [exact Hd|]. constructor; [exact Hs | constructor].
  - destruct (ddl_effect _ _ _ Es H) as (_ & -> & _). exact Hd.
Qed.

Section FileFacts.
Context {lib : PyLib}.

Lemma build_row_well_formed (msg : email.message) (store_preview : bool) (r : row) :
  (forall s dt, parsedate_to_datetime s = Ok dt -> fields_in_range dt) ->
  build_row msg store_preview = Ok r ->
  row_well_formed r.
Proof.
  intros Hlib Hrow. split; [|now apply (build_row_preview msg store_preview)].
  pose proof (build_row_dates _ _ _ Hrow) as Hcols.
  destruct (date_columns_layout _ _ _ Hlib Hcols) as [H | (Hiso & _)]; [now left|].
  right. split; [exact Hiso|].
  destruct (date_columns_shape _ _ _ Hcols) as [(E & _) | (_ & Hday)]; [|exact Hday].
  rewrite E in Hiso. discriminate Hiso.
Qed.

(** X18. The report after a run.  [query.py] ends with [DatabaseError],
    nothing printed, on a file without the table; on the file any run of
    [ingest] leaves, returned or ended by an exception, it goes through
    its four statements and prints their four frames. *)
Theorem X18_report_goes_through_after_any_run {engine : SqlEngine}
    (mbox : list email.message) (file : database) (db_path : pystr)
    (store_preview : bool) :
  (emails file = None -> query_script file = ([], Some DatabaseError))
  /\ exists df1 df2 df3 df4,
       query_script (file_after (ingest mbox file db_path store_preview))
       = ([Frame df1; Blank; Frame df2; Blank; Frame df3; Blank; Frame df4; Blank], None).
Proof.
  split.
  - intros He. pose proof (query_script_cases file) as H. now rewrite He in H.
  - assert (Ht : table_exists (file_after (ingest mbox file db_path store_preview)) = true).
    { apply (ingest_invariant (fun d => table_exists d = true) (fun _ => True)).
      - intros d ign r d' _ Ht Hs. exact (run_statement_keeps_table _ _ _ Ht Hs).
      - auto.
      - apply init_db_table. }
    pose proof (query_script_cases (file_after (ingest mbox file db_path store_preview)))
      as H.
    unfold table_exists in Ht.
    destruct (emails (file_after (ingest mbox file db_path store_preview)));
      [|discriminate Ht].
    destruct H as (df1 & df2 & df3 & df4 & H & _). eauto.
Qed.

(** X19. Every run keeps the rows of the file well formed, if the
    library parses dates of the calendar only: when each row of the file
    has its two date columns empty or laid out as
    [YYYY-MM-DDTHH:MM:SS+00:00] and its first ten characters, and a
    preview of at most 2000 characters, so has each row after the run,
    returned or not. *)
Theorem X19_runs_keep_rows_well_formed
    (mbox : list email.message) (file : database) (db_path : pystr)
    (store_preview : bool) :
  (forall s dt, parsedate_to_datetime s = Ok dt -> fields_in_range dt) ->
  rows_well_formed file ->
  rows_well_formed (file_after (ingest mbox file db_path store_preview)).
Proof.
  intros Hlib Hfile.
  apply (ingest_invariant rows_well_formed row_well_formed).
  - intros d ign r d' Hr Hd Hs.
    exact (run_statement_keeps_rows row_well_formed d d' (INSERT_INTO_emails ign r) Hr Hd Hs).
  - intros m r _ Hrow. exact (build_row_well_formed m store_preview r Hlib Hrow).
  - intros c1 r Hi. rewrite init_db_script in Hi.
    destruct (run_script init_script (connect file)) as [ca ra] eqn:Hrun.
    destruct (run_script_invariant rows_well_formed row_well_formed)
      with (stmts := init_script) (c := connect file) (c1 := ca) (r := ra)
      as (Hd & Hs); auto using init_script_ddl.
    + intros d s d' Hs Hd H. destruct (ddl_effect _ _ _ Hs H) as (_ & Hr & _).
      unfold rows_well_formed. now rewrite Hr.
    + intros d ign r0 d' Hr Hd H.
      exact (run_statement_keeps_rows row_well_formed d d' (INSERT_INTO_emails ign r0) Hr Hd H).
    + destruct ra as [[]|e]; injection Hi as <- _; cbn [db saved commit]; auto.
Qed.

End FileFacts.

Lemma read_sql_query_rows {engine : SqlEngine} (q : select) (d : database) (df : frame)
    (r : pystr * nat) :
  read_sql_query q d = inl df ->
  In r df ->
  where_clause q (fst r) = true
  /\ exists st, In st (stored_rows d) /\ cell (grouped_column q) (cells st) = fst r.
Proof.
  intros Hq Hin. unfold read_sql_query in Hq. unfold stored_rows.
  destruct (emails d) as [rows|]; [|discriminate Hq].
  injection Hq as <-.
  assert (Hg : In r (group_by (selected_values q rows))).
  { apply (Permutation_in _ (order_by_n_desc_perm _)).
    rewrite <- (firstn_skipn LIMIT (order_by_n_desc _)). apply in_or_app. now left. }
  apply group_by_rows in Hg. destruct Hg as (Hv & _).
  unfold selected_values in Hv. apply filter_In in Hv. destruct Hv as (Hv & Hw).
  split; [exact Hw|]. apply in_map_iff in Hv. destruct Hv as (st & E & Hst). eauto.
Qed.

(** X20. The days of the report are calendar days: on a database whose
    rows are well formed, every value of the first frame is laid out as
    [YYYY-MM-DD]. *)
Theorem X20_report_days_are_laid_out_as_days {engine : SqlEngine}
    (d : database) (df : frame) :
  rows_well_formed d ->
  read_sql_query most_messaged_day d = inl df ->
  Forall (fun r => matches_picture DAY_PICTURE (fst r) = true) df.
Proof.
  intros Hd Hq. apply List.Forall_forall. intros r Hin.
  destruct (read_sql_query_rows _ _ _ _ Hq Hin) as (Hw & st & Hst & Hv).
  cbn [grouped_column cell where_clause] in Hw, Hv.
  unfold rows_well_formed in Hd. rewrite List.Forall_forall in Hd.
  destruct (Hd st Hst) as ([(_ & E) | (Hiso & Hday)] & _).
  - rewrite <- Hv, E in Hw. discriminate Hw.
  - rewrite <- Hv, Hday.
    apply (matches_picture_firstn DAY_PICTURE (picture "T99:99:99+00:00")). exact Hiso.
Qed.

Example report_of_the_scenario :
  query_script (engine := merging_engine) (file_after scenario_run)
  = ([Frame [(u "2024-01-01", 1%nat)]; Blank;
      Frame [([], 2%nat)]; Blank;
      Frame [(u "Hi", 1%nat); ([], 1%nat)]; Blank;
      Frame [([], 2%nat)]; Blank],
     None).
Proof. vm_compute. reflexivity. Qed.

Lemma X17_witness :
  In (u "Hi") (List.map fst [(u "Hi", 1%nat); ([], 1%nat)])
  \/ (length [(u "Hi", 1%nat); (([] : pystr), 1%nat)] = 5%nat
      /\ Forall (fun r =>
                   (length (List.filter
                              (fun st' => str_eqb (cell col_subject (cells st')) (u "Hi"))
                              (stored_rows (file_after scenario_run)))
                    <= snd r)%nat)
                [(u "Hi", 1%nat); ([], 1%nat)]).
Proof.
  apply (X17_report_frames_hold_the_largest_groups (engine := merging_engine)
           most_common_subjects (file_after scenario_run)
           [(u "Hi", 1%nat); ([], 1%nat)] (mk_stored 1 row_a)).
  - vm_compute. reflexivity.
  - vm_compute. left. reflexivity.
  - reflexivity.
Defined.

Lemma X19_witness :
  rows_well_formed (file_after scenario_run).
Proof.
  apply (X19_runs_keep_rows_well_formed (lib := CPython.lib)
           scenario_mbox empty_database (u "mail.sqlite") true).
  - exact parsedate_in_range.
  - constructor.
Defined.

Lemma X20_witness :
  Forall (fun r => matches_picture DAY_PICTURE (fst r) = true) [(u "2024-01-01", 1%nat)].
Proof.
  apply (X20_report_days_are_laid_out_as_days (engine := merging_engine)
           (file_after scenario_run)).
  - unfold rows_well_formed.
    replace (stored_rows (file_after scenario_run))
      with [mk_stored 1 row_a; mk_stored 2 row_c] by (vm_compute; reflexivity).
    constructor; [|constructor; [|constructor]].
    + split; [right; split; vm_compute; reflexivity | cbn; lia].
    + split; [left; split; reflexivity | cbn; lia].
  - vm_compute. reflexivity.
Defined.

(* ================================================================== *)
(** * The calls of a run *)
(* ================================================================== *)

Lemma commits_app (l1 l2 : list call) : commits (l1 ++ l2) = (commits l1 + commits l2)%nat.
Proof. unfold commits. now rewrite List.filter_app, length_app. Qed.

Lemma inserts_app (l1 l2 : list call) : inserts (l1 ++ l2) = (inserts l1 + inserts l2)%nat.
Proof. unfold inserts. now rewrite List.filter_app, length_app. Qed.

Lemma logged_counts (batch : list row) (os : list (pyresult unit)) :
  length os = length batch ->
  commits (logged batch os) = 0%nat /\ inserts (logged batch os) = length batch.
Proof.
  revert os. induction batch as [|r rest IH]; intros os Hlen; [now destruct os|].
  destruct os as [|o os]; [discriminate Hlen|].
  injection Hlen as Hlen. destruct (IH os Hlen) as (Hc & Hi).
  cbn [logged]. unfold commits, inserts in *. cbn. now rewrite Hc, Hi.
Qed.

Lemma flush_batch_counts (c : connection) (batch : list row) :
  commits (log (fst (flush_batch c batch))) = S (commits (log c))
  /\ inserts (log (fst (flush_batch c batch))) = (inserts (log c) + length batch)%nat.
Proof.
  destruct (flush_batch_spec c batch) as (c' & Hf & _ & _ & _ & Hl).
  rewrite Hf. cbn [fst]. rewrite Hl.
  destruct (logged_counts batch (snd (attempt_all (db c) batch))) as (Hc & Hi);
    [apply length_attempt_all|].
  rewrite !commits_app, !inserts_app, Hc, Hi. cbn. lia.
Qed.

Lemma run_script_counts (stmts : list statement) (c c1 : connection) (r : pyresult unit) :
  forallb (fun s => negb (is_dml s)) stmts = true ->
  run_script stmts c = (c1, r) ->
  commits (log c1) = commits (log c) /\ inserts (log c1) = inserts (log c).
Proof.
  revert c. induction stmts as [|s0 rest IH]; intros c Hall Hrun.
  - cbn in Hrun. injection Hrun as <- _. auto.
  - cbn [forallb] in Hall. apply andb_true_iff in Hall. destruct Hall as [H0 Hall].
    apply negb_true_iff in H0. rewrite run_script_cons in Hrun.
    pose proof (execute_log c s0) as Hl.
    assert (Hc : commits (log (fst (execute c s0))) = commits (log c)
                 /\ inserts (log (fst (execute c s0))) = inserts (log c)).
    { rewrite Hl, commits_app, inserts_app. unfold commits, inserts.
      destruct s0; try discriminate H0; cbn; lia. }
    destruct (execute c s0) as [ca [[]|e]]; cbn [fst] in *.
    + destruct (IH ca Hall Hrun) as (H1 & H2). destruct Hc as (Hc1 & Hc2).
      split; congruence.
    + injection Hrun as <- _. exact Hc.
Qed.

Lemma init_db_counts (c c1 : connection) :
  init_db c = (c1, Ok tt) ->
  commits (log c1) = S (commits (log c)) /\ inserts (log c1) = inserts (log c).
Proof.
  rewrite init_db_script.
  destruct (run_script init_script c) as [ca [[]|e]] eqn:Hrun; [|discriminate].
  intros [= <-]. destruct (run_script_counts _ _ _ _ init_script_ddl Hrun) as (Hc & Hi).
  cbn [log commit]. rewrite commits_app, inserts_app, Hc, Hi. cbn. lia.
Qed.

Section CallFacts.
Context {lib : PyLib}.

Lemma ingest_loop_counts (store_preview : bool) (msgs : list email.message) :
  forall i st st',
    ingest_loop msgs i store_preview st = (st', Ok tt) ->
    (length (batch st) < BATCH_SIZE)%nat ->
    length (batch st') = ((length (batch st) + length msgs) mod BATCH_SIZE)%nat
    /\ commits (log (conn st'))
       = (commits (log (conn st)) + (length (batch st) + length msgs) / BATCH_SIZE)%nat
    /\ (inserts (log (conn st')) + length (batch st')
        = inserts (log (conn st)) + length (batch st) + length msgs)%nat.
Proof.
  pose proof BATCH_SIZE_pos as Hpos.
  induction msgs as [|m rest IH]; intros i st st' Hrun Hlen.
  - cbn in Hrun. injection Hrun as <-. cbn [length].
    rewrite Nat.add_0_r, Nat.mod_small, Nat.div_small by exact Hlen. lia.
  - cbn [ingest_loop] in Hrun.
    destruct (build_row m store_preview) as [row|e]; [|discriminate].
    destruct (Nat.leb_spec BATCH_SIZE (length (batch st ++ [row]))) as [Hge|Hlt];
      rewrite length_app in *; cbn [length] in *.
    + destruct (flush_batch_counts (conn st) (batch st ++ [row])) as (Hc & Hi).
      rewrite length_app in Hi. cbn [length] in Hi.
      destruct (flush_batch (conn st) (batch st ++ [row])) as [c1 [a b0]].
      cbn [fst] in Hc, Hi.
      apply IH in Hrun; [|cbn [batch length]; lia].
      cbn [batch conn length Nat.add] in Hrun. destruct Hrun as (H1 & H2 & H3).
      replace (length (batch st) + S (length rest))%nat
        with (1 * BATCH_SIZE + length rest)%nat by lia.
      rewrite Nat.div_add_l by lia.
      rewrite (Nat.add_comm (1 * BATCH_SIZE)), Nat.Div0.mod_add.
      split; [exact H1|]. split; lia.
    + apply IH in Hrun; [|cbn [batch]; rewrite length_app; cbn [length]; lia].
      cbn [batch conn] in Hrun. rewrite length_app in Hrun. cbn [length] in Hrun.
      replace (length (batch st) + 1 + length rest)%nat
        with (length (batch st) + S (length rest))%nat in Hrun by lia.
      destruct Hrun as (H1 & H2 & H3). split; [exact H1|]. split; lia.
Qed.

(** X22. The calls of a run that returns: one INSERT is executed for
    each message, and [commit] is called once by [init_db], once for each
    full batch of [BATCH_SIZE] messages and once more for the messages
    left over, if any. *)
Theorem X22_one_insert_per_message_one_commit_per_batch
    (mbox : list email.message) (file : database) (db_path : pystr)
    (store_preview : bool) (v : pyvalue) :
  returned (ingest mbox file db_path store_preview) = Ok v ->
  inserts (calls (ingest mbox file db_path store_preview)) = length mbox
  /\ commits (calls (ingest mbox file db_path store_preview))
     = (1 + length mbox / BATCH_SIZE
        + (if (length mbox mod BATCH_SIZE =? 0)%nat then 0 else 1))%nat.
Proof.
  unfold ingest.
  destruct (init_db (connect file)) as [conn1 [[]|e]] eqn:Hi; [|discriminate].
  destruct (init_db_counts _ _ Hi) as (Hc1 & Hi1). cbn [log connect] in Hc1, Hi1.
  destruct (ingest_loop mbox 0 store_preview (mk_locals conn1 [] 0 0 []))
    as [st [[]|e]] eqn:Hloop; [|discriminate].
  intros _. cbn [calls].
  destruct (ingest_loop_counts _ _ _ _ _ Hloop) as (Hb & Hc & Hn);
    [cbn; apply BATCH_SIZE_pos|].
  cbn [batch conn length Nat.add] in Hb, Hc, Hn.
  change (commits []) with 0%nat in Hc1. change (inserts []) with 0%nat in Hi1.
  destruct (batch st) as [|r0 b0] eqn:Eb; cbn [truthy].
  - cbn [length] in Hb, Hn. rewrite <- Hb. cbn [Nat.eqb]. lia.
  - destruct (flush_batch_counts (conn st) (r0 :: b0)) as (Hc' & Hi').
    destruct (flush_batch (conn st) (r0 :: b0)) as [c' [a b1]]. cbn [fst] in Hc', Hi'.
    cbn [conn]. rewrite Hc', Hi', <- Hb. cbn [length Nat.eqb] in *. lia.
Qed.

End CallFacts.

Lemma X22_witness :
  inserts (calls scenario_run) = 3%nat /\ commits (calls scenario_run) = 2%nat.
Proof.
  apply (X22_one_insert_per_message_one_commit_per_batch (lib := CPython.lib)
           scenario_mbox empty_database (u "mail.sqlite") true PyNone).
  vm_compute. reflexivity.
Defined.

(* ================================================================== *)
(** * [init_db] on a file that holds duplicates *)
(* ================================================================== *)

Lemma init_db_raises_on_duplicates (file : database) :
  indexes file !! "idx_message_id" = None ->
  has_duplicates col_message_id (stored_rows file) = true ->
  snd (init_db (connect file)) = Raise IntegrityError.
Proof.
  intros Hix Hdup. rewrite init_db_script, init_script_cons.
  assert (He : exists d0 l0,
             execute (connect file) CREATE_TABLE_IF_NOT_EXISTS_emails
             = (mk_connection d0 d0 false l0, Ok tt)
             /\ emails d0 = Some (stored_rows file) /\ indexes d0 = indexes file).
  { unfold execute, connect, stored_rows. cbn.
    destruct (emails file) eqn:E; do 2 eexists; (split; [reflexivity|]); cbn;
      rewrite ?E; auto. }
  destruct He as (d0 & l0 & -> & Hrows & Hi0).
  cbn [List.tl init_script]. rewrite run_script_cons.
  unfold execute. cbn [db run_statement]. rewrite Hrows, Hi0, Hix, Hdup.
  reflexivity.
Qed.

(** X21. [init_db] raises in one case exactly: the file holds some
    [message_id] twice and has no index named [idx_message_id].  The
    exception is then [IntegrityError], and [ingest] raises it having read
    no message and printed nothing.  In every case [init_db] leaves the
    table in the file and changes no row. *)
Theorem X21_init_db_raises_exactly_on_duplicate_keys (file : database) :
  (snd (init_db (connect file)) = Ok tt
   \/ snd (init_db (connect file)) = Raise IntegrityError)
  /\ (snd (init_db (connect file)) = Raise IntegrityError
      <-> indexes file !! "idx_message_id" = None
          /\ has_duplicates col_message_id (stored_rows file) = true)
  /\ table_exists (close (fst (init_db (connect file)))) = true
  /\ stored_rows (close (fst (init_db (connect file)))) = stored_rows file
  /\ forall (lib : PyLib) mbox db_path store_preview e,
       snd (init_db (connect file)) = Raise e ->
       returned (ingest mbox file db_path store_preview) = Raise e
       /\ printed (ingest mbox file db_path store_preview) = [].
Proof.
  destruct (init_db (connect file)) as [c1 r] eqn:Hi. cbn [fst snd].
  assert (Hcases : r = Ok tt \/ r = Raise IntegrityError).
  { destruct r as [[]|e]; [now left|]. right.
    now destruct (init_db_raises _ _ _ Hi) as (-> & _). }
  split; [exact Hcases|]. split; [|split; [|split]].
  - split.
    + intros ->. now destruct (init_db_raises _ _ _ Hi) as (_ & H1 & H2).
    + intros (H1 & H2). pose proof (init_db_raises_on_duplicates file H1 H2) as H.
      now rewrite Hi in H.
  - now destruct (init_db_table _ _ _ Hi).
  - unfold close. rewrite init_db_script in Hi.
    destruct (run_script init_script (connect file)) as [ca ra] eqn:Hrun.
    destruct (run_script_invariant (fun d => stored_rows d = stored_rows file)
                (fun _ => False))
      with (stmts := init_script) (c := connect file) (c1 := ca) (r := ra)
      as (Hd & Hs); auto using init_script_ddl.
    + intros d s d' Hs Hd H. destruct (ddl_effect _ _ _ Hs H) as (_ & Hr & _). congruence.
    + intros d ign r0 d' [].
    + destruct ra as [[]|e]; injection Hi as <- _; cbn [db saved commit]; auto.
  - intros lib mbox db_path store_preview e ->. unfold ingest. rewrite Hi. auto.
Qed.
